(** * KmerCart backend: orders and cart services

    A shallow embedding of [OrdersService] (orders.service.ts) and
    [CartService] (cart.service.ts), and the properties of the
    order-fulfilment engine proved about them.

    Modelling conventions.
    - The three Mongo collections are the fields of [Db].  A cart is keyed
      by its [userId]; a product by its [_id]; the orders collection is a
      list in insertion order, and an order's [_id] is its position in that
      list (the service never deletes an order).
    - A service method is a function [Db -> (Exception + A) * Db]: the
      store reached is returned also when the method throws, because a
      thrown exception does not undo the writes made before it.
    - Counts (quantity, stock, totalSales) are integers; amounts of money
      are exact rationals ([Qc]), so rounding of JavaScript numbers is
      outside the model.
    - [new Date()] is an argument of the method that reads the clock. *)

From Stdlib Require Import QArith Qcanon.
From stdpp Require Import base numbers option list strings gmap fin_maps pretty.

Local Open Scope string_scope.
Local Open Scope list_scope.
Local Open Scope Z_scope.

(** ** Data model *)

(** Modelled from the spec: the [OrderStatus] enum is declared in
    schemas/order.schema.ts, which is not among the sources; its members
    are the six states the specification names. *)
Inductive OrderStatus : Set :=
  | PENDING | CONFIRMED | PROCESSING | SHIPPED | DELIVERED | CANCELLED.

#[global] Instance OrderStatus_eq_dec : EqDecision OrderStatus.
Proof. solve_decision. Defined.

(** Modelled from the spec: the string value of each [OrderStatus] member
    (used by the template literal of [updateOrderStatus]) is declared in
    the same schema file; the member's name stands for it. *)
Definition OrderStatus_value (s : OrderStatus) : string :=
  match s with
  | PENDING => "PENDING" | CONFIRMED => "CONFIRMED"
  | PROCESSING => "PROCESSING" | SHIPPED => "SHIPPED"
  | DELIVERED => "DELIVERED" | CANCELLED => "CANCELLED"
  end.

(** Modelled from the spec: [PaymentStatus] is declared in the same schema
    file; the service only ever writes its [PENDING] member. *)
Inductive PaymentStatus : Set := PAYMENT_PENDING.

(** The fields of a JavaScript [Date] the services read. *)
Record Date := mkDate {
  getFullYear : N;
  getMonth : N;          (* zero-based, as in JavaScript *)
  getDate : N;
  getTime : Z
}.

Record Product := mkProduct {
  product_name : string;
  product_price : Qc;
  product_stock : Z;
  product_isActive : bool;
  product_vendorId : string;
  product_mainImage : option string;
  product_images : list string;
  product_discount : option Qc;
  product_totalSales : Z
}.

Record CartItem := mkCartItem {
  cartItem_productId : string;
  cartItem_quantity : Z;
  cartItem_price : Qc;
  cartItem_addedAt : option Date
}.

Record OrderItem := mkOrderItem {
  orderItem_productId : string;
  orderItem_vendorId : string;
  orderItem_name : string;
  orderItem_image : option string;
  orderItem_quantity : Z;
  orderItem_price : Qc;
  orderItem_discount : Qc;
  orderItem_total : Qc
}.

Record StatusEntry := mkStatusEntry {
  entry_status : OrderStatus;
  entry_timestamp : Date;
  entry_note : string
}.

Record CreateOrderDto := mkCreateOrderDto {
  dto_paymentMethod : string;
  dto_shippingAddress : string;
  dto_billingAddress : option string;
  dto_shippingCost : option Qc;
  dto_discount : option Qc;
  dto_notes : option string
}.

Record Order := mkOrder {
  order_orderNumber : string;
  order_customerId : string;
  order_items : list OrderItem;
  order_subtotal : Qc;
  order_tax : Qc;
  order_taxRate : Qc;
  order_shippingCost : Qc;
  order_discount : Qc;
  order_total : Qc;
  order_currency : string;
  order_status : OrderStatus;
  order_paymentStatus : PaymentStatus;
  order_paymentMethod : string;
  order_shippingAddress : string;
  order_billingAddress : string;
  order_notes : option string;
  order_statusHistory : list StatusEntry;
  order_deliveredAt : option Date
}.

(** An item of a guest cart, as [AddToCartDto] carries it. *)
Record GuestItem := mkGuestItem {
  guest_productId : string;
  guest_quantity : Z
}.

Record Db := mkDb {
  carts : gmap string (list CartItem);
  products : gmap string Product;
  orders : list Order
}.

Inductive Exception : Set :=
  | NotFoundException (message : string)
  | BadRequestException (message : string)
  | ForbiddenException (message : string).

(** ** Service methods as store transformers *)

Definition M (A : Type) : Type := Db -> (Exception + A) * Db.

Definition ret {A} (a : A) : M A := fun db => (inr a, db).
Definition throw {A} (e : Exception) : M A := fun db => (inl e, db).
Definition bind {A B} (m : M A) (k : A -> M B) : M B :=
  fun db => match m db with
            | (inr a, db1) => k a db1
            | (inl e, db1) => (inl e, db1)
            end.
Definition gets {A} (f : Db -> A) : M A := fun db => (inr (f db), db).
Definition modify (f : Db -> Db) : M unit := fun db => (inr tt, f db).

Declare Scope svc_scope.
Delimit Scope svc_scope with svc.
Notation "x <- m ;; k" := (bind m (fun x => k))
  (at level 100, m at next level, right associativity) : svc_scope.
Notation "m ;;; k" := (bind m (fun _ => k))
  (at level 100, right associativity) : svc_scope.

(** [for (const x of xs) await body(x)] *)
Fixpoint forEach {A} (xs : list A) (body : A -> M unit) : M unit :=
  match xs with
  | [] => ret tt
  | x :: xs' => bind (body x) (fun _ => forEach xs' body)
  end.

(** *** JavaScript helpers *)

(** [a || b] on strings: the empty string and [undefined] are falsy. *)
Definition orString (a : option string) (b : string) : string :=
  match a with
  | Some s => if decide (s = "") then b else s
  | None => b
  end.

(** [a || 0] on numbers: both [undefined] and [0] give [0]. *)
Definition orZero (a : option Qc) : Qc := default 0%Qc a.

(** [s.padStart(n, '0')] *)
Definition padStart (s : string) (n : nat) : string :=
  String.concat "" (replicate (n - String.length s) "0") +:+ s.

(** *** Collection primitives *)

(** [productModel.updateOne({ _id }, { $inc: { stock: ds, totalSales: dt } })]:
    a product that no longer exists matches nothing. *)
Definition incProduct (ds dt : Z) (p : Product) : Product :=
  mkProduct (product_name p) (product_price p) (product_stock p + ds)
            (product_isActive p) (product_vendorId p) (product_mainImage p)
            (product_images p) (product_discount p) (product_totalSales p + dt).

Definition productUpdateInc (id : string) (ds dt : Z) : M unit :=
  modify (fun db => mkDb (carts db) (alter (incProduct ds dt) id (products db)) (orders db)).

(** [cartModel.updateOne({ userId }, { items })] *)
Definition cartUpdateItems (userId : string) (items : list CartItem) : M unit :=
  modify (fun db => mkDb (alter (fun _ => items) userId (carts db)) (products db) (orders db)).

(** [cartModel.create({ userId, items })] and [cart.save()] *)
Definition cartPut (userId : string) (items : list CartItem) : M unit :=
  modify (fun db => mkDb (<[userId := items]> (carts db)) (products db) (orders db)).

(** [orderModel.create(doc)]: the new document's [_id].  The schema, with
    whatever index it declares on [orderNumber], is not among the sources;
    the service itself checks nothing before inserting. *)
Definition orderCreate (o : Order) : M nat :=
  fun db => (inr (length (orders db)), mkDb (carts db) (products db) (orders db ++ [o])).

(** [order.save()] *)
Definition orderSave (id : nat) (o : Order) : M unit :=
  modify (fun db => mkDb (carts db) (products db) (<[id := o]> (orders db))).

(** [orderModel.findById(id)], throwing [NotFoundException] on [null]. *)
Definition orderFindById (id : nat) : M Order :=
  fun db => match orders db !! id with
            | Some o => (inr o, db)
            | None => (inl (NotFoundException "Order not found"), db)
            end.

(** ** OrdersService *)

(** The template literal of [generateOrderNumber], from the date and the
    value [countDocuments] returned. *)
Definition orderNumberOf (date : Date) (count : nat) : string :=
  let year := pretty (getFullYear date) in
  let month := padStart (pretty (getMonth date + 1)%N) 2 in
  let day := padStart (pretty (getDate date)) 2 in
  let orderNum := padStart (pretty (count + 1)%nat) 6 in
  "ORD" +:+ year +:+ month +:+ day +:+ orderNum.

Definition generateOrderNumber (date : Date) : M string :=
  (count <- gets (fun db => length (orders db)) ;;
   ret (orderNumberOf date count))%svc.

(** [cart.populate('items.productId')]: each line with its product document,
    [None] when the product no longer exists. *)
Definition populate (ps : gmap string Product) (items : list CartItem)
  : list (CartItem * option Product) :=
  map (fun it => (it, ps !! cartItem_productId it)) items.

Definition productImage (p : Product) : option string :=
  match product_mainImage p with
  | Some s => if decide (s = "") then head (product_images p) else Some s
  | None => head (product_images p)
  end.

(** One turn of the validation loop of [createOrder]. *)
Definition validateLine (line : CartItem * option Product)
    (acc : list OrderItem * Qc) : Exception + (list OrderItem * Qc) :=
  let '(cartItem, product) := line in
  let '(orderItems, subtotal) := acc in
  match product with
  | None => inl (BadRequestException "Product unknown is no longer available")
  | Some p =>
    if negb (product_isActive p) then
      inl (BadRequestException
             ("Product " +:+ orString (Some (product_name p)) "unknown"
              +:+ " is no longer available"))
    else if bool_decide (product_stock p < cartItem_quantity cartItem) then
      inl (BadRequestException
             ("Insufficient stock for " +:+ product_name p +:+ ". Only "
              +:+ pretty (product_stock p) +:+ " available"))
    else
      let itemTotal := (Qc_of_Z (cartItem_quantity cartItem) * cartItem_price cartItem)%Qc in
      inr (orderItems ++
             [mkOrderItem (cartItem_productId cartItem) (product_vendorId p)
                (product_name p) (productImage p) (cartItem_quantity cartItem)
                (cartItem_price cartItem) (orZero (product_discount p)) itemTotal],
           (subtotal + itemTotal)%Qc)
  end.

Fixpoint validateLines (lines : list (CartItem * option Product))
    (acc : list OrderItem * Qc) : Exception + (list OrderItem * Qc) :=
  match lines with
  | [] => inr acc
  | line :: rest =>
    match validateLine line acc with
    | inl e => inl e
    | inr acc' => validateLines rest acc'
    end
  end.

Definition taxRate : Qc := Q2Qc (8 # 100).

(** The totals of [createOrder] and the document it hands to
    [orderModel.create]. *)
Definition orderDocument (userId : string) (dto : CreateOrderDto) (now : Date)
    (orderItems : list OrderItem) (subtotal : Qc) (orderNumber : string) : Order :=
  let tax := (subtotal * taxRate)%Qc in
  let shippingCost := orZero (dto_shippingCost dto) in
  let discount := orZero (dto_discount dto) in
  let total := (subtotal + tax + shippingCost - discount)%Qc in
  mkOrder orderNumber userId orderItems subtotal tax taxRate
    shippingCost discount total "CFA" PENDING PAYMENT_PENDING
    (dto_paymentMethod dto) (dto_shippingAddress dto)
    (default (dto_shippingAddress dto) (dto_billingAddress dto))
    (dto_notes dto)
    [mkStatusEntry PENDING now "Order placed"] None.

(** The part of [createOrder] up to and including [generateOrderNumber]:
    it only reads the store, and yields the document handed to
    [orderModel.create]. *)
Definition prepareOrder (userId : string) (dto : CreateOrderDto) (now : Date) : M Order :=
  (cart <- gets (fun db => populate (products db) <$> carts db !! userId) ;;
   match cart with
   | None | Some [] => throw (BadRequestException "Cart is empty")
   | Some lines =>
     match validateLines lines ([], 0%Qc) with
     | inl e => throw e
     | inr (orderItems, subtotal) =>
       orderNumber <- generateOrderNumber now ;;
       ret (orderDocument userId dto now orderItems subtotal orderNumber)
     end
   end)%svc.

(** The rest of [createOrder]: persist the order, reduce the stock of every
    line, empty the cart, read the order back. *)
Definition commitOrder (userId : string) (doc : Order) : M (nat * option Order) :=
  (id <- orderCreate doc ;;
   forEach (order_items doc)
     (fun item => productUpdateInc (orderItem_productId item)
                    (- orderItem_quantity item) (orderItem_quantity item)) ;;;
   cartUpdateItems userId [] ;;;
   o <- gets (fun db => orders db !! id) ;;
   ret (id, o))%svc.

(** [createOrder] returns the identifier of the new order together with
    the document [findById] reads back. *)
Definition createOrder (userId : string) (dto : CreateOrderDto) (now : Date)
  : M (nat * option Order) :=
  (doc <- prepareOrder userId dto now ;; commitOrder userId doc)%svc.

Definition hasVendorProduct (vendorId : string) (o : Order) : bool :=
  existsb (fun item => bool_decide (orderItem_vendorId item = vendorId)) (order_items o).

(** [toString()] of a populated reference.  After
    [populate('customerId', ...)] the field holds the customer document in
    place of its identifier, and a document prints as an object literal
    around its identifier and the selected fields, of which the model keeps
    the identifier. *)
Definition Document_toString (id : string) : string :=
  "{ _id: new ObjectId('" +:+ id +:+ "') }".

(** [getOrder]; the referenced customer and vendor documents are taken to
    exist.  The check for role "customer" reads [order.customerId] after
    [populate], so it compares the printed customer document with the
    caller's identifier; the check for role "vendor" goes through
    [item.vendorId._id], the identifier itself. *)
Definition getOrder (orderId : nat) (userId role : string) : M Order :=
  (order <- orderFindById orderId ;;
   if bool_decide (role = "customer")
      && negb (bool_decide (Document_toString (order_customerId order) = userId))
   then throw (ForbiddenException "Access denied")
   else if bool_decide (role = "vendor") && negb (hasVendorProduct userId order)
   then throw (ForbiddenException "Access denied")
   else ret order)%svc.

Definition setStatus (o : Order) (status : OrderStatus) (entry : StatusEntry)
    (deliveredAt : option Date) : Order :=
  mkOrder (order_orderNumber o) (order_customerId o) (order_items o)
    (order_subtotal o) (order_tax o) (order_taxRate o) (order_shippingCost o)
    (order_discount o) (order_total o) (order_currency o) status
    (order_paymentStatus o) (order_paymentMethod o) (order_shippingAddress o)
    (order_billingAddress o) (order_notes o)
    (order_statusHistory o ++ [entry]) deliveredAt.

Definition updateOrderStatus (orderId : nat) (vendorId : string)
    (status : OrderStatus) (note : option string) (now : Date) : M Order :=
  (order <- orderFindById orderId ;;
   if negb (hasVendorProduct vendorId order)
   then throw (ForbiddenException "Access denied")
   else
     let entry :=
       mkStatusEntry status now
         (orString note ("Status updated to " +:+ OrderStatus_value status)) in
     let deliveredAt :=
       if decide (status = DELIVERED) then Some now else order_deliveredAt order in
     orderSave orderId (setStatus order status entry deliveredAt) ;;;
     getOrder orderId vendorId "vendor")%svc.

Definition cancelOrder (orderId : nat) (userId : string)
    (reason : option string) (now : Date) : M Order :=
  (order <- orderFindById orderId ;;
   if negb (bool_decide (order_customerId order = userId))
   then throw (ForbiddenException "Access denied")
   else if negb (bool_decide (order_status order = PENDING))
           && negb (bool_decide (order_status order = CONFIRMED))
   then throw (BadRequestException "Order cannot be cancelled at this stage")
   else
     forEach (order_items order)
       (fun item => productUpdateInc (orderItem_productId item)
                      (orderItem_quantity item) (- orderItem_quantity item)) ;;;
     let order' :=
       setStatus order CANCELLED
         (mkStatusEntry CANCELLED now (orString reason "Cancelled by customer"))
         (order_deliveredAt order) in
     orderSave orderId order' ;;;
     ret order')%svc.

Record VendorOrderStats := mkStats {
  totalOrders : nat;
  totalRevenue : Qc;
  pending : nat;
  processing : nat;
  shipped : nat;
  delivered : nat
}.

(** [vendorItems.reduce((sum, item) => sum + item.total, 0)] over the
    vendor's own items of one order. *)
Definition vendorRevenue (vendorId : string) (o : Order) : Qc :=
  foldl (fun sum item => (sum + orderItem_total item)%Qc) 0%Qc
    (filter (fun item => orderItem_vendorId item = vendorId) (order_items o)).

(** One turn of the loop of [getVendorOrderStats]; the accumulator holds
    [totalRevenue], [pending], [processing], [shipped], [delivered]. *)
Definition statsStep (vendorId : string) (acc : Qc * nat * nat * nat * nat)
    (o : Order) : Qc * nat * nat * nat * nat :=
  let '(revenue, pend, proc, ship, deliv) := acc in
  let revenue := (revenue + vendorRevenue vendorId o)%Qc in
  match order_status o with
  | PENDING => (revenue, S pend, proc, ship, deliv)
  | PROCESSING => (revenue, pend, S proc, ship, deliv)
  | SHIPPED => (revenue, pend, proc, S ship, deliv)
  | DELIVERED => (revenue, pend, proc, ship, S deliv)
  | _ => (revenue, pend, proc, ship, deliv)
  end.

(** [orderModel.find({ 'items.vendorId': vendorId })] *)
Definition findVendorOrders (vendorId : string) (os : list Order) : list Order :=
  filter (fun o => hasVendorProduct vendorId o = true) os.

Definition getVendorOrderStats (vendorId : string) : M VendorOrderStats :=
  (found <- gets (fun db => findVendorOrders vendorId (orders db)) ;;
   let '(revenue, pend, proc, ship, deliv) :=
     foldl (statsStep vendorId) (0%Qc, 0%nat, 0%nat, 0%nat, 0%nat) found in
   ret (mkStats (length found) revenue pend proc ship deliv))%svc.

(** ** CartService *)

Definition validLine (line : CartItem * option Product) : bool :=
  match line.2 with
  | Some p => product_isActive p && bool_decide (product_stock p > 0)
  | None => false
  end.

Definition getCart (userId : string) : M (list (CartItem * option Product)) :=
  (cart <- gets (fun db => populate (products db) <$> carts db !! userId) ;;
   match cart with
   | None => cartPut userId [] ;;; ret []
   | Some lines =>
     let validItems := List.filter validLine lines in
     (if negb (length validItems =? length lines)%nat
      then cartUpdateItems userId (map fst validItems)
      else ret tt) ;;;
     ret validItems
   end)%svc.

(** [productModel.findById(productId)] followed by the check
    [!product || !product.isActive] of [addItem] and [updateItemQuantity]. *)
Definition findActiveProduct (productId : string) : M Product :=
  (product <- gets (fun db => products db !! productId) ;;
   match product with
   | Some p =>
     if product_isActive p then ret p
     else throw (NotFoundException "Product not found or inactive")
   | None => throw (NotFoundException "Product not found or inactive")
   end)%svc.

Definition onlyAvailable (p : Product) : Exception :=
  BadRequestException ("Only " +:+ pretty (product_stock p) +:+ " items available in stock").

Definition setQuantity (item : CartItem) (quantity : Z) (price : Qc) : CartItem :=
  mkCartItem (cartItem_productId item) quantity price (cartItem_addedAt item).

(** [addItem]; a cart created here gets no [addedAt] from the service. *)
Definition addItem (userId productId : string) (quantity : Z) (now : Date)
  : M (list (CartItem * option Product)) :=
  (product <- findActiveProduct productId ;;
   if bool_decide (product_stock product < quantity) then throw (onlyAvailable product)
   else
     cart <- gets (fun db => carts db !! userId) ;;
     match cart with
     | None =>
       cartPut userId [mkCartItem productId quantity (product_price product) None]
     | Some items =>
       match list_find (fun item => cartItem_productId item = productId) items with
       | Some (existingItemIndex, existing) =>
         let newQuantity := cartItem_quantity existing + quantity in
         if bool_decide (product_stock product < newQuantity)
         then throw (onlyAvailable product)
         else cartPut userId
                (<[existingItemIndex :=
                     setQuantity existing newQuantity (product_price product)]> items)
       | None =>
         cartPut userId
           (items ++ [mkCartItem productId quantity (product_price product) (Some now)])
       end
     end ;;;
     getCart userId)%svc.

Definition removeItem (userId productId : string)
  : M (list (CartItem * option Product)) :=
  (cart <- gets (fun db => carts db !! userId) ;;
   match cart with
   | None => throw (NotFoundException "Cart not found")
   | Some items =>
     cartPut userId (filter (fun item => cartItem_productId item <> productId) items) ;;;
     getCart userId
   end)%svc.

Definition updateItemQuantity (userId productId : string) (quantity : Z)
  : M (list (CartItem * option Product)) :=
  if bool_decide (quantity < 1) then removeItem userId productId
  else
    (cart <- gets (fun db => carts db !! userId) ;;
     match cart with
     | None => throw (NotFoundException "Cart not found")
     | Some items =>
       match list_find (fun item => cartItem_productId item = productId) items with
       | None => throw (NotFoundException "Item not found in cart")
       | Some (itemIndex, existing) =>
         product <- findActiveProduct productId ;;
         if bool_decide (product_stock product < quantity)
         then throw (onlyAvailable product)
         else
           cartPut userId
             (<[itemIndex := setQuantity existing quantity (product_price product)]> items) ;;;
           getCart userId
       end
     end)%svc.

Definition clearCart (userId : string) : M string :=
  (cartUpdateItems userId [] ;;; ret "Cart cleared successfully")%svc.

(** One turn of the loop of [validateCartItems]. *)
Definition validateCartItem (ps : gmap string Product) (now : Date)
    (validItems : list CartItem) (item : GuestItem) : list CartItem :=
  match ps !! guest_productId item with
  | Some product =>
    if product_isActive product && bool_decide (product_stock product > 0)
    then validItems ++
           [mkCartItem (guest_productId item)
              (Z.min (guest_quantity item) (product_stock product))
              (product_price product) (Some now)]
    else validItems
  | None => validItems
  end.

Definition validateCartItems (items : list GuestItem) (now : Date) : M (list CartItem) :=
  gets (fun db => foldl (validateCartItem (products db) now) [] items).

(** One turn of the merging loop of [syncCart], on the items of the
    customer's cart document. *)
Definition mergeGuestItem (ps : gmap string Product) (now : Date)
    (items : list CartItem) (guestItem : GuestItem) : list CartItem :=
  match ps !! guest_productId guestItem with
  | None => items
  | Some product =>
    if negb (product_isActive product) || bool_decide (product_stock product < 1)
    then items
    else
      match list_find (fun item => cartItem_productId item = guest_productId guestItem) items with
      | Some (existingItemIndex, existing) =>
        let newQuantity := cartItem_quantity existing + guest_quantity guestItem in
        <[existingItemIndex :=
            mkCartItem (cartItem_productId existing)
              (Z.min newQuantity (product_stock product))
              (product_price product) (cartItem_addedAt existing)]> items
      | None =>
        items ++
          [mkCartItem (guest_productId guestItem)
             (Z.min (guest_quantity guestItem) (product_stock product))
             (product_price product) (Some now)]
      end
  end.

Definition syncCart (userId : string) (guestCartItems : list GuestItem) (now : Date)
  : M (list (CartItem * option Product)) :=
  (userCart <- gets (fun db => carts db !! userId) ;;
   match userCart with
   | None =>
     validItems <- validateCartItems guestCartItems now ;;
     cartPut userId validItems
   | Some items =>
     merged <- gets (fun db => foldl (mergeGuestItem (products db) now) items guestCartItems) ;;
     cartPut userId merged
   end ;;;
   getCart userId)%svc.

(** ** Definitions used to state the properties *)

(** A line is invalid when its product is missing or inactive, or when the
    product's stock is below the line's quantity; a cart is rejected when it
    is absent or empty or has an invalid line. *)
Definition lineInvalid (ps : gmap string Product) (it : CartItem) : bool :=
  match ps !! cartItem_productId it with
  | None => true
  | Some p => negb (product_isActive p)
              || bool_decide (product_stock p < cartItem_quantity it)
  end.

Definition cartInvalid (db : Db) (userId : string) : bool :=
  match carts db !! userId with
  | None | Some [] => true
  | Some items => existsb (lineInvalid (products db)) items
  end.

(** The order item the validation loop pushes for a valid line. *)
Definition orderItemOf (it : CartItem) (p : Product) : OrderItem :=
  mkOrderItem (cartItem_productId it) (product_vendorId p) (product_name p)
    (productImage p) (cartItem_quantity it) (cartItem_price it)
    (orZero (product_discount p))
    (Qc_of_Z (cartItem_quantity it) * cartItem_price it)%Qc.

Definition mintedItems (ps : gmap string Product) (items : list CartItem)
  : list OrderItem :=
  omap (fun it => orderItemOf it <$> ps !! cartItem_productId it) items.

(** A minted line repeats the quantity and the price snapshot of the cart
    line it comes from, and its total is their product. *)
Definition lineMinted (it : CartItem) (oi : OrderItem) : Prop :=
  orderItem_productId oi = cartItem_productId it /\
  orderItem_quantity oi = cartItem_quantity it /\
  orderItem_price oi = cartItem_price it /\
  orderItem_total oi = (Qc_of_Z (cartItem_quantity it) * cartItem_price it)%Qc.

(** The sum of a list of amounts, as the specification writes it. *)
Definition sumQc (l : list Qc) : Qc := foldr Qcplus 0%Qc l.

(** The product collection after a loop of [$inc] updates, one per item. *)
Definition applyIncs (ds dt : OrderItem -> Z) (items : list OrderItem)
    (ps : gmap string Product) : gmap string Product :=
  foldl (fun ps item => alter (incProduct (ds item) (dt item)) (orderItem_productId item) ps)
        ps items.

Definition sumFor (f : OrderItem -> Z) (productId : string) (items : list OrderItem) : Z :=
  foldr (fun item acc =>
           if decide (orderItem_productId item = productId) then f item + acc else acc)
        0 items.

(** The quantity an order holds of one product, summed over its lines. *)
Definition orderedQuantity (productId : string) (items : list OrderItem) : Z :=
  sumFor orderItem_quantity productId items.

(** The document [updateOrderStatus] saves. *)
Definition advanced (o : Order) (status : OrderStatus) (note : option string)
    (now : Date) : Order :=
  setStatus o status
    (mkStatusEntry status now
       (orString note ("Status updated to " +:+ OrderStatus_value status)))
    (if decide (status = DELIVERED) then Some now else order_deliveredAt o).

(** The document [cancelOrder] saves. *)
Definition cancelled (o : Order) (reason : option string) (now : Date) : Order :=
  setStatus o CANCELLED
    (mkStatusEntry CANCELLED now (orString reason "Cancelled by customer"))
    (order_deliveredAt o).

Definition cancellable (s : OrderStatus) : bool :=
  bool_decide (s = PENDING) || bool_decide (s = CONFIRMED).

(** The transition table of the specification. *)
Definition legalTransition (from to : OrderStatus) : bool :=
  match from, to with
  | PENDING, CONFIRMED | CONFIRMED, PROCESSING
  | PROCESSING, SHIPPED | SHIPPED, DELIVERED
  | PENDING, CANCELLED | CONFIRMED, CANCELLED => true
  | _, _ => false
  end.

(** ** Sequences of service calls *)

Inductive Op : Type :=
  | CreateOrder (userId : string) (dto : CreateOrderDto) (now : Date)
  | UpdateOrderStatus (orderId : nat) (vendorId : string) (status : OrderStatus)
      (note : option string) (now : Date)
  | CancelOrder (orderId : nat) (userId : string) (reason : option string) (now : Date)
  | GetCart (userId : string)
  | AddItem (userId productId : string) (quantity : Z) (now : Date)
  | UpdateItemQuantity (userId productId : string) (quantity : Z)
  | RemoveItem (userId productId : string)
  | ClearCart (userId : string)
  | SyncCart (userId : string) (guestCartItems : list GuestItem) (now : Date).

(** The store a call leaves, whether it returns or throws. *)
Definition exec (op : Op) (db : Db) : Db :=
  match op with
  | CreateOrder userId dto now => (createOrder userId dto now db).2
  | UpdateOrderStatus orderId vendorId status note now =>
      (updateOrderStatus orderId vendorId status note now db).2
  | CancelOrder orderId userId reason now => (cancelOrder orderId userId reason now db).2
  | GetCart userId => (getCart userId db).2
  | AddItem userId productId quantity now => (addItem userId productId quantity now db).2
  | UpdateItemQuantity userId productId quantity =>
      (updateItemQuantity userId productId quantity db).2
  | RemoveItem userId productId => (removeItem userId productId db).2
  | ClearCart userId => (clearCart userId db).2
  | SyncCart userId guestCartItems now => (syncCart userId guestCartItems now db).2
  end.

Definition run (ops : list Op) (db : Db) : Db :=
  foldl (fun db op => exec op db) db ops.

(** The last entry of the status history carries the order's status. *)
Definition historyConsistent (o : Order) : Prop :=
  entry_status <$> last (order_statusHistory o) = Some (order_status o).

(** ** Example data *)

Definition ex_now : Date := mkDate 2026 10 2 1793577600000.

Definition ex_product (name vendorId : string) (price stock : Z) : Product :=
  mkProduct name (Qc_of_Z price) stock true vendorId None [] None 0.

Definition ex_dto : CreateOrderDto :=
  mkCreateOrderDto "cash" "Douala" None (Some (Qc_of_Z 10)) None None.

Definition ex_item (productId vendorId : string) (quantity price : Z) : OrderItem :=
  mkOrderItem productId vendorId productId None quantity (Qc_of_Z price) 0%Qc
    (Qc_of_Z (quantity * price)).

(** An order of customer "u" with one line of vendor "X" (total 100) and
    one line of vendor "Y" (total 50), in a given status. *)
Definition ex_order (status : OrderStatus) (history : list OrderStatus) : Order :=
  mkOrder "ORD20261102000001" "u"
    [ex_item "A" "X" 1 100; ex_item "B" "Y" 1 50]
    (Qc_of_Z 150) (Qc_of_Z 12) taxRate 0%Qc 0%Qc (Qc_of_Z 162) "CFA"
    status PAYMENT_PENDING "cash" "Douala" "Douala" None
    (map (fun s => mkStatusEntry s ex_now "") history) None.

Definition ex_catalog : gmap string Product :=
  <["A" := ex_product "A" "X" 100 10]> {["B" := ex_product "B" "Y" 50 5]}.

(** Customer "u" holds 2 of A at 100 and 1 of B at 50; stock 10 and 5. *)
Definition ex_db_cart : Db :=
  mkDb {["u" := [mkCartItem "A" 2 (Qc_of_Z 100) None;
                 mkCartItem "B" 1 (Qc_of_Z 50) None]]}
       ex_catalog [].

(** Customer "u" holds 2 of A, of which 1 is in stock. *)
Definition ex_db_short : Db :=
  mkDb {["u" := [mkCartItem "A" 2 (Qc_of_Z 100) None]]}
       {["A" := ex_product "A" "X" 100 1]} [].

(** One pending order of customer "u", with lines of vendors "X" and "Y". *)
Definition ex_db_order : Db :=
  mkDb ∅ ex_catalog [ex_order PENDING [PENDING]].

(** A method of the cart service: it leaves products and orders alone. *)
Definition cartOnly {A} (m : M A) : Prop :=
  forall db, products (m db).2 = products db /\ orders (m db).2 = orders db.

(** How one service call may change the order collection: not at all, by
    appending a freshly minted order, or by saving one order with a new
    status and one more history entry. *)
Inductive ordersStep (os : list Order) : list Order -> Prop :=
  | ordersStep_same : ordersStep os os
  | ordersStep_create doc entry :
      order_status doc = PENDING ->
      order_statusHistory doc = [entry] ->
      entry_status entry = PENDING ->
      ordersStep os (os ++ [doc])
  | ordersStep_save id o status entry deliveredAt :
      os !! id = Some o ->
      entry_status entry = status ->
      ordersStep os (<[id := setStatus o status entry deliveredAt]> os).

(** Customer "u" holds 3 of A and 1 of B. *)
Definition ex_db_cart31 : Db :=
  mkDb {["u" := [mkCartItem "A" 3 (Qc_of_Z 100) None;
                 mkCartItem "B" 1 (Qc_of_Z 50) None]]}
       ex_catalog [].

(** Two [createOrder] calls of which both reading parts, up to and including
    [countDocuments], run before either call writes: a schedule the
    [await]s of the method allow. *)
Definition createOrderInterleaved (userA : string) (dtoA : CreateOrderDto)
    (userB : string) (dtoB : CreateOrderDto) (now : Date)
  : M ((nat * option Order) * (nat * option Order)) :=
  (docA <- prepareOrder userA dtoA now ;;
   docB <- prepareOrder userB dtoB now ;;
   a <- commitOrder userA docA ;;
   b <- commitOrder userB docB ;;
   ret (a, b))%svc.

(** Customers "u" and "v" each hold one line. *)
Definition ex_db_two : Db :=
  mkDb (<["u" := [mkCartItem "A" 1 (Qc_of_Z 100) None]]>
          {["v" := [mkCartItem "B" 2 (Qc_of_Z 50) None]]})
       ex_catalog [].

(** The cart line a guest item becomes when the customer has no cart:
    dropped unless the product is active and in stock, and clamped to the
    stock. *)
Definition guestLine (ps : gmap string Product) (now : Date) (g : GuestItem)
  : option CartItem :=
  match ps !! guest_productId g with
  | Some p =>
    if product_isActive p && bool_decide (0 < product_stock p)
    then Some (mkCartItem (guest_productId g)
                 (Z.min (guest_quantity g) (product_stock p))
                 (product_price p) (Some now))
    else None
  | None => None
  end.

(** A cart line [getCart] keeps: its product exists, is active and in stock. *)
Definition lineShown (ps : gmap string Product) (it : CartItem) : bool :=
  validLine (it, ps !! cartItem_productId it).

(** Customer "u" holds 1 of P, of which 3 are in stock. *)
Definition ex_db_merge : Db :=
  mkDb {["u" := [mkCartItem "P" 1 (Qc_of_Z 20) None]]}
       {["P" := ex_product "P" "X" 25 3]} [].

(** ** Seller statistics, in the specification's words *)

(** The line items of an order that a seller owns, and their line totals
    summed. *)
Definition ownItems (vendorId : string) (o : Order) : list OrderItem :=
  filter (fun item => orderItem_vendorId item = vendorId) (order_items o).

Definition ownLineTotals (vendorId : string) (o : Order) : Qc :=
  sumQc (map orderItem_total (ownItems vendorId o)).

(** The orders holding at least one line of the seller. *)
Definition ordersOf (vendorId : string) (os : list Order) : list Order :=
  filter (fun o => Exists (fun item => orderItem_vendorId item = vendorId) (order_items o)) os.

Definition countStatus (s : OrderStatus) (os : list Order) : nat :=
  length (filter (fun o => order_status o = s) os).

(** The statistics record a call returns; all zeros if it throws. *)
Definition statsOf (vendorId : string) (db : Db) : VendorOrderStats :=
  match (getVendorOrderStats vendorId db).1 with
  | inr stats => stats
  | inl _ => mkStats 0 0%Qc 0 0 0 0
  end.

(** Customer "u"'s order after it was cancelled. *)
Definition ex_db_cancelled : Db :=
  mkDb ∅ ex_catalog [ex_order CANCELLED [PENDING; CANCELLED]].

(** ** The rest of the cart service *)

Record CartTotal := mkCartTotal {
  cartTotal_subtotal : Qc;
  cartTotal_totalItems : Z;
  cartTotal_items : nat
}.

(** One turn of the loop of [getCartTotal]: a line whose product did not
    populate is skipped. *)
Definition cartTotalStep (acc : Qc * Z) (line : CartItem * option Product) : Qc * Z :=
  let '(subtotal, totalItems) := acc in
  match line.2 with
  | Some _ =>
      ((subtotal + Qc_of_Z (cartItem_quantity line.1) * cartItem_price line.1)%Qc,
       totalItems + cartItem_quantity line.1)
  | None => acc
  end.

Definition getCartTotal (userId : string) : M CartTotal :=
  (lines <- getCart userId ;;
   let '(subtotal, totalItems) := foldl cartTotalStep (0%Qc, 0) lines in
   ret (mkCartTotal subtotal totalItems (length lines)))%svc.

(** The lines of a cart that [getCart] keeps. *)
Definition shownItems (ps : gmap string Product) (items : list CartItem)
  : list CartItem :=
  List.filter (lineShown ps) items.

(** The store with one customer's cart replaced. *)
Definition withCart (db : Db) (userId : string) (items : list CartItem) : Db :=
  mkDb (<[userId := items]> (carts db)) (products db) (orders db).

(** The line [addItem] writes for a product not yet in the cart. *)
Definition newLine (productId : string) (quantity : Z) (p : Product)
    (addedAt : option Date) : CartItem :=
  mkCartItem productId quantity (product_price p) addedAt.

(** The first line a customer's cart holds of a product, and its quantity
    (0 when there is none). *)
Definition heldLine (db : Db) (userId productId : string) : option CartItem :=
  items ← carts db !! userId;
  snd <$> list_find (fun item => cartItem_productId item = productId) items.

Definition heldQuantity (db : Db) (userId productId : string) : Z :=
  from_option cartItem_quantity 0 (heldLine db userId productId).

(** The first line of a list of cart lines for a product. *)
Definition firstLine (productId : string) (items : list CartItem) : option CartItem :=
  snd <$> list_find (fun item => cartItem_productId item = productId) items.

(** Customer "u" holds 1 of A (stock 10); customer "w" has no cart. *)
Definition ex_db_one : Db :=
  mkDb {["u" := [mkCartItem "A" 1 (Qc_of_Z 90) None]]} ex_catalog [].

(** The amount of a cart line, and the sum of a list of integers. *)
Definition lineAmount (it : CartItem) : Qc :=
  (Qc_of_Z (cartItem_quantity it) * cartItem_price it)%Qc.

Definition sumZ (l : list Z) : Z := foldr Z.add 0 l.

(** ** What a service call may write to a cart *)

(** The edits the services make to the lines of one cart, with what the
    code has checked when it makes them: lines are dropped; a line gets a
    new quantity, not above the stock of its product; a line of a product
    is appended, with a quantity not above its stock.  [quantitiesOk] says
    that the quantities the caller passed are at least 1 and [distinctOk]
    that the guest items passed name distinct products. *)
Inductive cartWrite (ps : gmap string Product) (quantitiesOk distinctOk : Prop)
  : list CartItem -> list CartItem -> Prop :=
  | cartWrite_sub l l' :
      l' `sublist_of` l -> cartWrite ps quantitiesOk distinctOk l l'
  | cartWrite_set l i existing quantity p :
      l !! i = Some existing ->
      ps !! cartItem_productId existing = Some p ->
      quantity <= product_stock p ->
      (quantitiesOk -> 1 <= cartItem_quantity existing -> 1 <= quantity) ->
      cartWrite ps quantitiesOk distinctOk l
        (<[i := setQuantity existing quantity (product_price p)]> l)
  | cartWrite_add l productId quantity p addedAt :
      ps !! productId = Some p ->
      quantity <= product_stock p ->
      (quantitiesOk -> 1 <= quantity) ->
      (distinctOk -> Forall (fun it => cartItem_productId it <> productId) l) ->
      cartWrite ps quantitiesOk distinctOk l
        (l ++ [mkCartItem productId quantity (product_price p) addedAt])
  | cartWrite_trans l1 l2 l3 :
      cartWrite ps quantitiesOk distinctOk l1 l2 ->
      cartWrite ps quantitiesOk distinctOk l2 l3 ->
      cartWrite ps quantitiesOk distinctOk l1 l3.

Definition quantitiesPositive (l : list CartItem) : Prop :=
  Forall (fun it => 1 <= cartItem_quantity it) l.

Definition productsDistinct (l : list CartItem) : Prop :=
  NoDup (map cartItem_productId l).

Definition withinStock (ps : gmap string Product) (l : list CartItem) : Prop :=
  Forall (fun it => forall p, ps !! cartItem_productId it = Some p ->
                              cartItem_quantity it <= product_stock p) l.

(** The quantities a call passes are at least 1, as [AddToCartDto]
    validates them. *)
Definition quantitiesOk (op : Op) : Prop :=
  match op with
  | AddItem _ _ quantity _ => 1 <= quantity
  | SyncCart _ guestCartItems _ =>
      Forall (fun g => 1 <= guest_quantity g) guestCartItems
  | _ => True
  end.

(** The guest items a call passes name distinct products. *)
Definition guestsDistinct (op : Op) : Prop :=
  match op with
  | SyncCart _ guestCartItems _ => NoDup (map guest_productId guestCartItems)
  | _ => True
  end.

(** A call of the cart service. *)
Definition isCartOp (op : Op) : bool :=
  match op with
  | CreateOrder _ _ _ | UpdateOrderStatus _ _ _ _ _ | CancelOrder _ _ _ _ => false
  | _ => true
  end.

(** Every cart names each product once, in quantities of at least 1. *)
Definition cartsTidy (db : Db) : Prop :=
  map_Forall (fun _ l => productsDistinct l /\ quantitiesPositive l) (carts db).

(** No cart line asks for more than the stock of its product. *)
Definition cartsWithinStock (db : Db) : Prop :=
  map_Forall (fun _ l => withinStock (products db) l) (carts db).

(** ** What a service call may write to the orders *)

(** An order with other values in the three fields the services update. *)
Definition withStatus (o : Order) (status : OrderStatus)
    (statusHistory : list StatusEntry) (deliveredAt : option Date) : Order :=
  mkOrder (order_orderNumber o) (order_customerId o) (order_items o)
    (order_subtotal o) (order_tax o) (order_taxRate o) (order_shippingCost o)
    (order_discount o) (order_total o) (order_currency o) status
    (order_paymentStatus o) (order_paymentMethod o) (order_shippingAddress o)
    (order_billingAddress o) (order_notes o) statusHistory deliveredAt.

(** The three writes the order service makes: [createOrder] appends the
    document it minted, [updateOrderStatus] and [cancelOrder] save one
    order with its new status. *)
Inductive ordersWrite (os : list Order) : list Order -> Prop :=
  | ordersWrite_none : ordersWrite os os
  | ordersWrite_create userId dto now orderItems subtotal :
      ordersWrite os
        (os ++ [orderDocument userId dto now orderItems subtotal
                  (orderNumberOf now (length os))])
  | ordersWrite_advance id o status note now :
      os !! id = Some o ->
      ordersWrite os (<[id := advanced o status note now]> os)
  | ordersWrite_cancel id o reason now :
      os !! id = Some o ->
      cancellable (order_status o) = true ->
      ordersWrite os (<[id := cancelled o reason now]> os).

(** A delivered order carries its delivery date. *)
Definition deliveredStamped (o : Order) : Prop :=
  order_status o = DELIVERED -> is_Some (order_deliveredAt o).

(** ** Order listings *)

Record Pagination := mkPagination {
  pagination_total : nat;
  pagination_page : positive;
  pagination_limit : positive;
  pagination_pages : nat
}.

Record OrderPage := mkOrderPage {
  page_orders : list Order;
  page_pagination : Pagination
}.

(** [if (status) filter.status = status] *)
Definition matchesStatus (status : option OrderStatus) (o : Order) : bool :=
  match status with
  | Some s => bool_decide (order_status o = s)
  | None => true
  end.

(** [.skip((page - 1) * limit).limit(limit)] for a page and a limit of at
    least 1 (other values are outside the model). *)
Definition paginate (sorted : list Order) (page limit : positive) : list Order :=
  take (Pos.to_nat limit) (drop ((Pos.to_nat page - 1) * Pos.to_nat limit) sorted).

(** [Math.ceil(total / limit)] *)
Definition pageCount (total : nat) (limit : positive) : nat :=
  (total + Pos.to_nat limit - 1) / Pos.to_nat limit.

(** The listing methods sort by [createdAt], a field the schema's
    timestamps add and the sources do not show; the order in which the
    sorted query yields the matching documents is the argument
    [sortByCreatedAtDesc]. *)
Definition listPage (sortByCreatedAtDesc : list Order -> list Order)
    (found : list Order) (page limit : option positive) : OrderPage :=
  let page := default 1%positive page in
  let limit := default 10%positive limit in
  mkOrderPage (paginate (sortByCreatedAtDesc found) page limit)
    (mkPagination (length found) page limit (pageCount (length found) limit)).

Definition customerFilter (userId : string) (status : option OrderStatus)
    (o : Order) : bool :=
  bool_decide (order_customerId o = userId) && matchesStatus status o.

Definition getCustomerOrders (sortByCreatedAtDesc : list Order -> list Order)
    (userId : string) (page limit : option positive) (status : option OrderStatus)
  : M OrderPage :=
  (found <- gets (fun db => List.filter (customerFilter userId status) (orders db)) ;;
   ret (listPage sortByCreatedAtDesc found page limit))%svc.

Definition vendorFilter (vendorId : string) (status : option OrderStatus)
    (o : Order) : bool :=
  hasVendorProduct vendorId o && matchesStatus status o.

(** [{ ...order, items: order.items.filter(...) }] *)
Definition withItems (o : Order) (items : list OrderItem) : Order :=
  mkOrder (order_orderNumber o) (order_customerId o) items
    (order_subtotal o) (order_tax o) (order_taxRate o) (order_shippingCost o)
    (order_discount o) (order_total o) (order_currency o) (order_status o)
    (order_paymentStatus o) (order_paymentMethod o) (order_shippingAddress o)
    (order_billingAddress o) (order_notes o) (order_statusHistory o)
    (order_deliveredAt o).

Definition vendorView (vendorId : string) (o : Order) : Order :=
  withItems o (filter (fun item => orderItem_vendorId item = vendorId) (order_items o)).

Definition getVendorOrders (sortByCreatedAtDesc : list Order -> list Order)
    (vendorId : string) (page limit : option positive) (status : option OrderStatus)
  : M OrderPage :=
  (found <- gets (fun db => List.filter (vendorFilter vendorId status) (orders db)) ;;
   let listed := listPage sortByCreatedAtDesc found page limit in
   ret (mkOrderPage (map (vendorView vendorId) (page_orders listed))
          (page_pagination listed)))%svc.

(** [OrdersController.getOrders]: the caller's role picks the listing. *)
Definition getOrders (sortByCreatedAtDesc : list Order -> list Order)
    (userId role : string) (page limit : option positive) (status : option OrderStatus)
  : M OrderPage :=
  if bool_decide (role = "vendor")
  then getVendorOrders sortByCreatedAtDesc userId page limit status
  else getCustomerOrders sortByCreatedAtDesc userId page limit status.

(** All the pages of a listing, first to last. *)
Definition allPages (sorted : list Order) (limit : positive) : list (list Order) :=
  map (fun k => paginate sorted (Pos.of_nat (S k)) limit)
      (seq 0 (pageCount (length sorted) limit)).

(** Two orders of customer "u" and one of customer "v". *)
Definition ex_db_three : Db :=
  mkDb ∅ ex_catalog
    [ex_order PENDING [PENDING];
     withStatus (ex_order PENDING [PENDING]) PENDING [] None;
     mkOrder "ORD20261102000003" "v" [ex_item "A" "X" 2 100]
       (Qc_of_Z 200) (Qc_of_Z 16) taxRate 0%Qc 0%Qc (Qc_of_Z 216) "CFA"
       SHIPPED PAYMENT_PENDING "cash" "Yaounde" "Yaounde" None [] None].
(** ** The validation loop *)

Section ValidationLoop.
Variable ps : gmap string Product.

Lemma validateLine_invalid it acc :
  lineInvalid ps it = true ->
  exists msg, validateLine (it, ps !! cartItem_productId it) acc
              = inl (BadRequestException msg).
Proof.
  unfold lineInvalid, validateLine. destruct acc as [ois st].
  destruct (ps !! cartItem_productId it) as [p|]; [|eauto].
  destruct (product_isActive p); simpl; [|eauto].
  intros H. rewrite H. eauto.
Qed.

Lemma validateLine_valid it acc :
  lineInvalid ps it = false ->
  exists p, ps !! cartItem_productId it = Some p /\
    validateLine (it, ps !! cartItem_productId it) acc =
    inr (acc.1 ++
           [mkOrderItem (cartItem_productId it) (product_vendorId p)
              (product_name p) (productImage p) (cartItem_quantity it)
              (cartItem_price it) (orZero (product_discount p))
              (Qc_of_Z (cartItem_quantity it) * cartItem_price it)%Qc],
         (acc.2 + Qc_of_Z (cartItem_quantity it) * cartItem_price it)%Qc).
Proof.
  unfold lineInvalid, validateLine. destruct acc as [ois st].
  destruct (ps !! cartItem_productId it) as [p|]; [|done].
  intros H. apply orb_false_iff in H as [Ha Hs].
  apply negb_false_iff in Ha. exists p. split; [done|].
  rewrite Ha, Hs. reflexivity.
Qed.

Lemma validateLines_invalid items acc :
  existsb (lineInvalid ps) items = true ->
  exists msg, validateLines (populate ps items) acc = inl (BadRequestException msg).
Proof.
  revert acc. induction items as [|it rest IH]; intros acc;
    cbn [populate map validateLines existsb]; [done|].
  destruct (lineInvalid ps it) eqn:Hit; cbn [orb].
  - intros _. destruct (validateLine_invalid it acc Hit) as [msg ->]. eauto.
  - intros Hrest. destruct (validateLine_valid it acc Hit) as (p & _ & ->).
    apply IH, Hrest.
Qed.

(** On a cart without an invalid line the loop yields one order item per
    line, in order, and adds every line total to the subtotal. *)
Lemma validateLines_valid items acc :
  existsb (lineInvalid ps) items = false ->
  validateLines (populate ps items) acc =
  inr (acc.1 ++ mintedItems ps items,
       foldl (fun sum item => (sum + orderItem_total item)%Qc) acc.2 (mintedItems ps items)).
Proof.
  revert acc. induction items as [|it rest IH]; intros [ois st];
    cbn [populate map validateLines existsb].
  - intros _. simpl. by rewrite app_nil_r.
  - intros H. apply orb_false_iff in H as [Hit Hrest].
    destruct (validateLine_valid it (ois, st) Hit) as (p & Hp & ->).
    fold (populate ps rest). rewrite IH by done.
    unfold mintedItems. cbn [omap list_omap fst snd]. rewrite Hp. simpl.
    by rewrite <- app_assoc.
Qed.

End ValidationLoop.

(** ** Reading and writing phases of [createOrder] *)

Lemma prepareOrder_eq userId dto now db :
  prepareOrder userId dto now db =
  match carts db !! userId with
  | None | Some [] => (inl (BadRequestException "Cart is empty"), db)
  | Some items =>
    match validateLines (populate (products db) items) ([], 0%Qc) with
    | inl e => (inl e, db)
    | inr (orderItems, subtotal) =>
      (inr (orderDocument userId dto now orderItems subtotal
              (orderNumberOf now (length (orders db)))), db)
    end
  end.
Proof.
  unfold prepareOrder, bind, gets, throw, generateOrderNumber, ret. cbn beta iota.
  destruct (carts db !! userId) as [[|it items]|];
    cbn [fmap option_fmap option_map]; try reflexivity.
  destruct (validateLines (populate (products db) (it :: items)) _)
    as [e|[ois st]]; reflexivity.
Qed.

Lemma prepareOrder_readonly userId dto now db :
  (prepareOrder userId dto now db).2 = db.
Proof.
  rewrite prepareOrder_eq.
  destruct (carts db !! userId) as [[|it items]|]; try done.
  destruct (validateLines _ _) as [e|[ois st]]; done.
Qed.

Lemma prepareOrder_invalid userId dto now db :
  cartInvalid db userId = true ->
  exists msg, prepareOrder userId dto now db = (inl (BadRequestException msg), db).
Proof.
  rewrite prepareOrder_eq. unfold cartInvalid.
  destruct (carts db !! userId) as [[|it items]|]; eauto.
  intros H.
  destruct (validateLines_invalid (products db) (it :: items) ([], 0%Qc) H) as [msg ->].
  eauto.
Qed.

Lemma prepareOrder_valid userId dto now db :
  cartInvalid db userId = false ->
  exists items,
    carts db !! userId = Some items /\ items <> [] /\
    existsb (lineInvalid (products db)) items = false /\
    let ois := mintedItems (products db) items in
    prepareOrder userId dto now db =
    (inr (orderDocument userId dto now ois
            (foldl (fun sum item => (sum + orderItem_total item)%Qc) 0%Qc ois)
            (orderNumberOf now (length (orders db)))), db).
Proof.
  rewrite prepareOrder_eq. unfold cartInvalid.
  destruct (carts db !! userId) as [[|it items]|] eqn:Hc; try done.
  intros H. exists (it :: items). split; [done|]. split; [done|]. split; [done|].
  rewrite (validateLines_valid (products db) (it :: items) ([], 0%Qc) H).
  reflexivity.
Qed.

Lemma prepareOrder_error userId dto now db e db' :
  prepareOrder userId dto now db = (inl e, db') ->
  db' = db /\ cartInvalid db userId = true /\ exists msg, e = BadRequestException msg.
Proof.
  destruct (cartInvalid db userId) eqn:Hinv.
  - destruct (prepareOrder_invalid userId dto now db Hinv) as [msg ->].
    intros [= <- <-]. eauto.
  - destruct (prepareOrder_valid userId dto now db Hinv) as (items & _ & _ & _ & ->).
    done.
Qed.

(** ** Stock movements *)

Lemma incProduct_0 p : incProduct 0 0 p = p.
Proof. destruct p. unfold incProduct. simpl. f_equal; lia. Qed.

Lemma incProduct_incProduct a b c d p :
  incProduct a b (incProduct c d p) = incProduct (c + a) (d + b) p.
Proof. unfold incProduct. simpl. f_equal; lia. Qed.

Lemma forEach_productUpdateInc ds dt items db :
  forEach items
    (fun item => productUpdateInc (orderItem_productId item) (ds item) (dt item)) db
  = (inr tt, mkDb (carts db) (applyIncs ds dt items (products db)) (orders db)).
Proof.
  revert db. induction items as [|item rest IH]; intros db.
  - by destruct db.
  - cbn [forEach]. unfold bind at 1. unfold productUpdateInc at 1, modify.
    rewrite IH. reflexivity.
Qed.

Lemma applyIncs_lookup ds dt items ps productId :
  applyIncs ds dt items ps !! productId =
  incProduct (sumFor ds productId items) (sumFor dt productId items) <$> ps !! productId.
Proof.
  revert ps. induction items as [|item rest IH]; intros ps.
  - simpl. destruct (ps !! productId) as [p|]; simpl; [|done].
    by rewrite incProduct_0.
  - unfold applyIncs in *. cbn [foldl sumFor foldr]. rewrite IH.
    rewrite lookup_alter. case_decide as Hd.
    + subst productId.
      destruct (ps !! orderItem_productId item) as [p|]; simpl; [|done].
      by rewrite incProduct_incProduct.
    + reflexivity.
Qed.

Lemma sumFor_opp f productId items :
  sumFor (fun item => - f item) productId items = - sumFor f productId items.
Proof.
  induction items as [|item rest IH]; simpl; [done|].
  case_decide; lia.
Qed.

(** ** [createOrder] *)

Lemma commitOrder_eq userId doc db :
  commitOrder userId doc db =
  (inr (length (orders db), Some doc),
   mkDb (alter (fun _ => []) userId (carts db))
        (applyIncs (fun item => - orderItem_quantity item) orderItem_quantity
                   (order_items doc) (products db))
        (orders db ++ [doc])).
Proof.
  unfold commitOrder, bind, orderCreate.
  rewrite forEach_productUpdateInc.
  unfold cartUpdateItems, modify, gets, ret. cbn [carts products orders].
  rewrite lookup_app_r by done. by rewrite Nat.sub_diag.
Qed.

Lemma createOrder_eq userId dto now db :
  createOrder userId dto now db =
  match prepareOrder userId dto now db with
  | (inr doc, _) => commitOrder userId doc db
  | (inl e, _) => (inl e, db)
  end.
Proof.
  unfold createOrder, bind.
  pose proof (prepareOrder_readonly userId dto now db) as H.
  destruct (prepareOrder userId dto now db) as [[e|doc] db1]; simpl in H; by subst.
Qed.

Lemma createOrder_error userId dto now db e db' :
  createOrder userId dto now db = (inl e, db') ->
  db' = db /\ cartInvalid db userId = true /\ exists msg, e = BadRequestException msg.
Proof.
  rewrite createOrder_eq.
  destruct (prepareOrder userId dto now db) as [[e1|doc] db1] eqn:E.
  - intros [= <- <-]. destruct (prepareOrder_error _ _ _ _ _ _ E) as (_ & ? & ?). done.
  - by rewrite commitOrder_eq.
Qed.

Lemma createOrder_success userId dto now db r db' :
  createOrder userId dto now db = (inr r, db') ->
  exists items,
    carts db !! userId = Some items /\ items <> [] /\
    existsb (lineInvalid (products db)) items = false /\
    let ois := mintedItems (products db) items in
    let doc := orderDocument userId dto now ois
                 (foldl (fun sum item => (sum + orderItem_total item)%Qc) 0%Qc ois)
                 (orderNumberOf now (length (orders db))) in
    r = (length (orders db), Some doc) /\
    db' = mkDb (alter (fun _ => []) userId (carts db))
               (applyIncs (fun item => - orderItem_quantity item) orderItem_quantity
                          ois (products db))
               (orders db ++ [doc]).
Proof.
  rewrite createOrder_eq. destruct (cartInvalid db userId) eqn:Hinv.
  - by destruct (prepareOrder_invalid userId dto now db Hinv) as [msg ->].
  - destruct (prepareOrder_valid userId dto now db Hinv) as (items & Hc & Hne & Hv & ->).
    rewrite commitOrder_eq. intros [= <- <-]. exists items. done.
Qed.

(** C1. When validation fails (the cart is absent or empty, or some line's
    product is missing or inactive or has less stock than the line asks
    for), [createOrder] throws and the store it leaves is the store it
    found: the cart, every product's stock and the order collection are
    unchanged. *)
Theorem createOrder_validation_failure_no_mutation userId dto now db :
  cartInvalid db userId = true ->
  exists msg,
    (createOrder userId dto now db).1 = inl (BadRequestException msg) /\
    let db' := (createOrder userId dto now db).2 in
    carts db' = carts db /\ products db' = products db /\ orders db' = orders db.
Proof.
  intros Hinv. rewrite createOrder_eq.
  destruct (prepareOrder_invalid userId dto now db Hinv) as [msg ->].
  exists msg. done.
Qed.

Lemma createOrder_validation_failure_no_mutation_witness :
  cartInvalid ex_db_short "u" = true /\
  exists msg,
    (createOrder "u" ex_dto ex_now ex_db_short).1 = inl (BadRequestException msg) /\
    let db' := (createOrder "u" ex_dto ex_now ex_db_short).2 in
    carts db' = carts ex_db_short /\ products db' = products ex_db_short /\
    orders db' = orders ex_db_short.
Proof.
  split; [vm_compute; reflexivity|].
  apply createOrder_validation_failure_no_mutation. vm_compute. reflexivity.
Defined.

(** ** Totals of a minted order *)

Lemma foldl_total_sumQc (f : OrderItem -> Qc) items acc :
  foldl (fun sum item => (sum + f item)%Qc) acc items
  = (acc + sumQc (map f items))%Qc.
Proof.
  revert acc. induction items as [|item rest IH]; intros acc; simpl.
  - ring.
  - rewrite IH. ring.
Qed.

Lemma mintedItems_lines ps items :
  existsb (lineInvalid ps) items = false ->
  Forall2 lineMinted items (mintedItems ps items).
Proof.
  induction items as [|it rest IH]; cbn [existsb]; intros H.
  - constructor.
  - apply orb_false_iff in H as [Hit Hrest].
    unfold mintedItems. cbn [omap list_omap].
    unfold lineInvalid in Hit.
    destruct (ps !! cartItem_productId it) as [p|]; [|done].
    simpl. constructor; [by repeat split|by apply IH].
Qed.

(** C4. In an order minted by [createOrder], every line total is the cart
    line's quantity times its price snapshot, the subtotal is the sum of
    the line totals, the tax is the subtotal times the tax rate (8%), and
    the total is subtotal + tax + shipping cost - discount.  For a cart
    of 2 at 100 and 1 at 50 with shipping cost 10 and no discount, the
    subtotal is 250, the tax 20 and the total 280. *)
Theorem createOrder_totals userId dto now db id o db' :
  createOrder userId dto now db = (inr (id, Some o), db') ->
  (exists items, carts db !! userId = Some items /\
                 Forall2 lineMinted items (order_items o)) /\
  order_subtotal o = sumQc (map orderItem_total (order_items o)) /\
  order_taxRate o = Q2Qc (8 # 100) /\
  order_tax o = (order_subtotal o * order_taxRate o)%Qc /\
  order_shippingCost o = default 0%Qc (dto_shippingCost dto) /\
  order_discount o = default 0%Qc (dto_discount dto) /\
  order_total o =
    (order_subtotal o + order_tax o + order_shippingCost o - order_discount o)%Qc /\
  (forall a b,
     carts db !! userId = Some [a; b] ->
     cartItem_quantity a = 2 -> cartItem_price a = Qc_of_Z 100 ->
     cartItem_quantity b = 1 -> cartItem_price b = Qc_of_Z 50 ->
     dto_shippingCost dto = Some (Qc_of_Z 10) -> dto_discount dto = None ->
     order_subtotal o = Qc_of_Z 250 /\ order_tax o = Qc_of_Z 20 /\
     order_total o = Qc_of_Z 280).
Proof.
  intros Hc. apply createOrder_success in Hc as (items & Hcart & _ & Hv & Hr & _).
  injection Hr as -> ->. cbn [orderDocument order_items order_subtotal order_tax
    order_taxRate order_shippingCost order_discount order_total].
  pose proof (mintedItems_lines (products db) items Hv) as Hlines.
  assert (Hsub : foldl (fun sum item => (sum + orderItem_total item)%Qc) 0%Qc
                   (mintedItems (products db) items)
                 = sumQc (map orderItem_total (mintedItems (products db) items))).
  { rewrite foldl_total_sumQc. ring. }
  split; [by exists items|]. repeat (split; [done|]).
  intros a b Hab Hqa Hpa Hqb Hpb Hship Hdisc.
  rewrite Hcart in Hab. injection Hab as ->.
  rewrite Hsub, Hship, Hdisc. clear Hsub.
  remember (mintedItems (products db) [a; b]) as ois eqn:Hois. clear Hois.
  inversion Hlines as [|? oa ? l' (_ & _ & _ & Ha) Hl']; subst.
  inversion Hl' as [|? ob ? l'' (_ & _ & _ & Hb) Hl'']; subst.
  inversion Hl''; subst.
  cbn [map sumQc foldr orZero default]. rewrite Ha, Hb, Hqa, Hpa, Hqb, Hpb.
  unfold taxRate.
  repeat split; apply Qc_is_canon; reflexivity.
Qed.

Lemma createOrder_totals_witness :
  match createOrder "u" ex_dto ex_now ex_db_cart with
  | (inr (_, Some o), _) =>
      order_subtotal o = Qc_of_Z 250 /\ order_tax o = Qc_of_Z 20 /\
      order_total o = Qc_of_Z 280
  | _ => False
  end.
Proof.
  destruct (createOrder "u" ex_dto ex_now ex_db_cart) as [[e|[id [o|]]] db'] eqn:E;
    [vm_compute in E; discriminate| |vm_compute in E; discriminate].
  apply (createOrder_totals "u" ex_dto ex_now ex_db_cart id o db' E)
    with (a := mkCartItem "A" 2 (Qc_of_Z 100) None)
         (b := mkCartItem "B" 1 (Qc_of_Z 50) None);
    vm_compute; reflexivity.
Defined.

(** ** [updateOrderStatus] and [cancelOrder] *)

Lemma updateOrderStatus_eq orderId vendorId status note now db :
  updateOrderStatus orderId vendorId status note now db =
  match orders db !! orderId with
  | None => (inl (NotFoundException "Order not found"), db)
  | Some o =>
    if hasVendorProduct vendorId o
    then (inr (advanced o status note now),
          mkDb (carts db) (products db)
               (<[orderId := advanced o status note now]> (orders db)))
    else (inl (ForbiddenException "Access denied"), db)
  end.
Proof.
  unfold updateOrderStatus, bind, orderFindById.
  destruct (orders db !! orderId) as [o|] eqn:Ho; [|done].
  destruct (hasVendorProduct vendorId o) eqn:Hv; cbn [negb]; [|done].
  unfold orderSave, modify, getOrder, bind, orderFindById. cbn [orders].
  fold (advanced o status note now).
  rewrite list_lookup_insert_eq by (by eapply lookup_lt_Some).
  change (hasVendorProduct vendorId (advanced o status note now))
    with (hasVendorProduct vendorId o).
  rewrite Hv. reflexivity.
Qed.

Lemma cancelOrder_eq orderId userId reason now db :
  cancelOrder orderId userId reason now db =
  match orders db !! orderId with
  | None => (inl (NotFoundException "Order not found"), db)
  | Some o =>
    if negb (bool_decide (order_customerId o = userId))
    then (inl (ForbiddenException "Access denied"), db)
    else if cancellable (order_status o)
    then (inr (cancelled o reason now),
          mkDb (carts db)
               (applyIncs orderItem_quantity (fun item => - orderItem_quantity item)
                          (order_items o) (products db))
               (<[orderId := cancelled o reason now]> (orders db)))
    else (inl (BadRequestException "Order cannot be cancelled at this stage"), db)
  end.
Proof.
  unfold cancelOrder, bind, orderFindById, cancellable.
  destruct (orders db !! orderId) as [o|] eqn:Ho; [|done].
  destruct (bool_decide (order_customerId o = userId)); cbn [negb]; [|done].
  destruct (bool_decide (order_status o = PENDING));
    destruct (bool_decide (order_status o = CONFIRMED)); cbn [negb andb orb];
    try done; rewrite forEach_productUpdateInc; reflexivity.
Qed.

Lemma cancellable_legal s : cancellable s = legalTransition s CANCELLED.
Proof. by destruct s. Qed.

(** C2, as the code has it.  [updateOrderStatus] consults no transition
    table: for a vendor owning a line of the order every requested status
    is accepted, becomes the order's status and is appended to the
    history.  [cancelOrder] by the owning customer succeeds exactly from
    [PENDING] and [CONFIRMED]; from any other status it throws
    [BadRequestException] and leaves the store as it was. *)
Theorem status_change_guards db orderId o :
  orders db !! orderId = Some o ->
  (forall vendorId status note now,
     hasVendorProduct vendorId o = true ->
     exists o',
       updateOrderStatus orderId vendorId status note now db =
         (inr o', mkDb (carts db) (products db) (<[orderId := o']> (orders db))) /\
       order_status o' = status /\
       exists note',
         order_statusHistory o' =
           order_statusHistory o ++ [mkStatusEntry status now note']) /\
  (forall reason now,
     if legalTransition (order_status o) CANCELLED
     then exists o' db',
       cancelOrder orderId (order_customerId o) reason now db = (inr o', db') /\
       orders db' = <[orderId := o']> (orders db) /\
       order_status o' = CANCELLED /\
       exists note',
         order_statusHistory o' =
           order_statusHistory o ++ [mkStatusEntry CANCELLED now note']
     else
       cancelOrder orderId (order_customerId o) reason now db =
         (inl (BadRequestException "Order cannot be cancelled at this stage"), db)).
Proof.
  intros Ho. split.
  - intros vendorId status note now Hv. rewrite updateOrderStatus_eq, Ho, Hv.
    eexists. split; [reflexivity|]. split; [reflexivity|]. eexists. reflexivity.
  - intros reason now. rewrite cancelOrder_eq, Ho.
    rewrite bool_decide_eq_true_2 by done. cbn [negb].
    rewrite cancellable_legal.
    destruct (legalTransition (order_status o) CANCELLED); [|done].
    eexists _, _. split; [reflexivity|]. split; [reflexivity|].
    split; [reflexivity|]. eexists. reflexivity.
Qed.

Lemma status_change_guards_witness :
  exists o',
    (updateOrderStatus 0 "Y" SHIPPED None ex_now ex_db_order).1 = inr o' /\
    order_status o' = SHIPPED.
Proof.
  destruct (status_change_guards ex_db_order 0 (ex_order PENDING [PENDING]) eq_refl)
    as [Hadvance _].
  destruct (Hadvance "Y" SHIPPED None ex_now eq_refl) as (o' & Hrun & Hstatus & _).
  exists o'. rewrite Hrun. split; [reflexivity|exact Hstatus].
Defined.

(** C2, counterexample.  A vendor owning a line moves a [DELIVERED] order
    back to [PENDING]: the transition is not in the table, yet the call
    returns and the stored order is [PENDING]. *)
Lemma updateOrderStatus_leaves_terminal_state :
  let o := ex_order DELIVERED [PENDING; CONFIRMED; PROCESSING; SHIPPED; DELIVERED] in
  let db := mkDb ∅ ex_catalog [o] in
  legalTransition (order_status o) PENDING = false /\
  exists o',
    (updateOrderStatus 0 "X" PENDING None ex_now db).1 = inr o' /\
    orders (updateOrderStatus 0 "X" PENDING None ex_now db).2 !! 0%nat = Some o' /\
    order_status o' = PENDING /\
    length (order_statusHistory o') = 6%nat.
Proof.
  intros o db. split; [reflexivity|].
  rewrite updateOrderStatus_eq. cbn [orders db lookup list_lookup].
  change (hasVendorProduct "X" o) with true. cbn iota.
  eexists. repeat split.
Qed.

(** C9. A status change by an actor owning no line of the order, and a
    cancellation by anyone but the order's customer, throw
    [ForbiddenException] and leave the store as it was; a call that
    returns was made by an owner. *)
Theorem foreign_actor_forbidden db orderId o :
  orders db !! orderId = Some o ->
  (forall vendorId status note now,
     hasVendorProduct vendorId o = false ->
     updateOrderStatus orderId vendorId status note now db =
       (inl (ForbiddenException "Access denied"), db)) /\
  (forall vendorId status note now r db',
     updateOrderStatus orderId vendorId status note now db = (inr r, db') ->
     exists item, item ∈ order_items o /\ orderItem_vendorId item = vendorId) /\
  (forall userId reason now,
     order_customerId o <> userId ->
     cancelOrder orderId userId reason now db =
       (inl (ForbiddenException "Access denied"), db)) /\
  (forall userId reason now r db',
     cancelOrder orderId userId reason now db = (inr r, db') ->
     order_customerId o = userId).
Proof.
  intros Ho. repeat split.
  - intros vendorId status note now Hv. by rewrite updateOrderStatus_eq, Ho, Hv.
  - intros vendorId status note now r db'. rewrite updateOrderStatus_eq, Ho.
    destruct (hasVendorProduct vendorId o) eqn:Hv; [|done]. intros _.
    unfold hasVendorProduct in Hv. apply existsb_exists in Hv as (item & Hin & Hv).
    exists item. split; [by apply list_elem_of_In|]. by apply bool_decide_eq_true in Hv.
  - intros userId reason now Hne. rewrite cancelOrder_eq, Ho.
    by rewrite bool_decide_eq_false_2.
  - intros userId reason now r db'. rewrite cancelOrder_eq, Ho.
    case_bool_decide; done.
Qed.

Lemma foreign_actor_forbidden_witness :
  updateOrderStatus 0 "Z" SHIPPED None ex_now ex_db_order =
    (inl (ForbiddenException "Access denied"), ex_db_order) /\
  cancelOrder 0 "v" None ex_now ex_db_order =
    (inl (ForbiddenException "Access denied"), ex_db_order).
Proof.
  destruct (foreign_actor_forbidden ex_db_order 0 (ex_order PENDING [PENDING]) eq_refl)
    as (Hadvance & _ & Hcancel & _).
  split.
  - apply Hadvance. reflexivity.
  - apply Hcancel. discriminate.
Defined.

(** ** The cart service leaves products and orders alone *)

Lemma cartOnly_ret {A} (a : A) : cartOnly (ret a).
Proof. done. Qed.

Lemma cartOnly_throw {A} e : cartOnly (@throw A e).
Proof. done. Qed.

Lemma cartOnly_gets {A} (f : Db -> A) : cartOnly (gets f).
Proof. done. Qed.

Lemma cartOnly_cartPut userId items : cartOnly (cartPut userId items).
Proof. done. Qed.

Lemma cartOnly_cartUpdateItems userId items : cartOnly (cartUpdateItems userId items).
Proof. done. Qed.

Lemma cartOnly_bind {A B} (m : M A) (k : A -> M B) :
  cartOnly m -> (forall a, cartOnly (k a)) -> cartOnly (bind m k).
Proof.
  intros Hm Hk db. unfold bind. specialize (Hm db).
  destruct (m db) as [[e|a] db1]; cbn [snd] in *; [done|].
  destruct (Hk a db1) as [-> ->]. done.
Qed.

Create HintDb cart discriminated.
#[local] Hint Resolve cartOnly_ret cartOnly_throw cartOnly_gets cartOnly_cartPut
  cartOnly_cartUpdateItems : cart.

(** Walks down a method built from the primitives above. *)
Ltac cart_only :=
  repeat first
    [ progress eauto with cart
    | apply cartOnly_bind; [|intros ?]
    | match goal with
      | |- cartOnly (match ?x with _ => _ end) => destruct x
      | |- cartOnly (if ?b then _ else _) => destruct b
      end ].

Lemma cartOnly_getCart userId : cartOnly (getCart userId).
Proof. unfold getCart. cart_only. Qed.

#[local] Hint Resolve cartOnly_getCart : cart.

Lemma cartOnly_findActiveProduct productId : cartOnly (findActiveProduct productId).
Proof. unfold findActiveProduct. cart_only. Qed.

#[local] Hint Resolve cartOnly_findActiveProduct : cart.

Lemma cartOnly_addItem userId productId quantity now :
  cartOnly (addItem userId productId quantity now).
Proof. unfold addItem. cart_only. Qed.

Lemma cartOnly_removeItem userId productId : cartOnly (removeItem userId productId).
Proof. unfold removeItem. cart_only. Qed.

#[local] Hint Resolve cartOnly_removeItem : cart.

Lemma cartOnly_updateItemQuantity userId productId quantity :
  cartOnly (updateItemQuantity userId productId quantity).
Proof. unfold updateItemQuantity. cart_only. Qed.

Lemma cartOnly_clearCart userId : cartOnly (clearCart userId).
Proof. unfold clearCart. cart_only. Qed.

Lemma cartOnly_syncCart userId guestCartItems now :
  cartOnly (syncCart userId guestCartItems now).
Proof. unfold syncCart, validateCartItems. cart_only. Qed.

(** [syncCart] stores the merged items and then answers with [getCart]. *)
Lemma syncCart_eq userId guestCartItems now db :
  syncCart userId guestCartItems now db =
  getCart userId
    (mkDb (<[userId :=
              match carts db !! userId with
              | None => foldl (validateCartItem (products db) now) [] guestCartItems
              | Some items => foldl (mergeGuestItem (products db) now) items guestCartItems
              end]> (carts db))
          (products db) (orders db)).
Proof.
  unfold syncCart, bind, gets, validateCartItems, cartPut, modify. cbn beta iota.
  destruct (carts db !! userId) as [items|]; reflexivity.
Qed.

(** ** Effect of a service call on the order collection *)

Lemma exec_ordersStep op db : ordersStep (orders db) (orders (exec op db)).
Proof.
  destruct op as [userId dto now|orderId vendorId status note now
                 |orderId userId reason now|userId|userId productId quantity now
                 |userId productId quantity|userId productId|userId
                 |userId guest now];
    cbn [exec].
  - destruct (createOrder userId dto now db) as [[e|r] db'] eqn:E; cbn [snd].
    + apply createOrder_error in E as [-> _]. constructor.
    + apply createOrder_success in E as (items & _ & _ & _ & _ & ->). cbn [orders].
      by eapply ordersStep_create.
  - rewrite updateOrderStatus_eq.
    destruct (orders db !! orderId) as [o|] eqn:Ho; [|constructor].
    destruct (hasVendorProduct vendorId o); [|constructor].
    cbn [snd orders]. by apply ordersStep_save.
  - rewrite cancelOrder_eq.
    destruct (orders db !! orderId) as [o|] eqn:Ho; [|constructor].
    destruct (negb _); [constructor|].
    destruct (cancellable _); [|constructor].
    cbn [snd orders]. by apply ordersStep_save.
  - destruct (cartOnly_getCart userId db) as [_ ->]. constructor.
  - destruct (cartOnly_addItem userId productId quantity now db) as [_ ->]. constructor.
  - destruct (cartOnly_updateItemQuantity userId productId quantity db) as [_ ->].
    constructor.
  - destruct (cartOnly_removeItem userId productId db) as [_ ->]. constructor.
  - destruct (cartOnly_clearCart userId db) as [_ ->]. constructor.
  - destruct (cartOnly_syncCart userId guest now db) as [_ ->]. constructor.
Qed.

Lemma historyConsistent_setStatus o status entry deliveredAt :
  entry_status entry = status ->
  historyConsistent (setStatus o status entry deliveredAt).
Proof.
  intros <-. unfold historyConsistent. cbn [setStatus order_statusHistory order_status].
  by rewrite last_snoc.
Qed.

Lemma ordersStep_consistent os os' :
  ordersStep os os' -> Forall historyConsistent os -> Forall historyConsistent os'.
Proof.
  intros [|doc entry Hs Hh He|id o status entry d Ho He] Hall.
  - done.
  - apply Forall_app. split; [done|]. constructor; [|constructor].
    unfold historyConsistent. by rewrite Hh, Hs, <- He.
  - apply Forall_insert; [done|]. by apply historyConsistent_setStatus.
Qed.

(** What one call keeps of an order already stored: its place, its lines,
    its customer, and its history as a prefix of the new one. *)
Lemma ordersStep_keeps os os' id o :
  ordersStep os os' -> os !! id = Some o ->
  exists o', os' !! id = Some o' /\
             order_items o' = order_items o /\
             order_customerId o' = order_customerId o /\
             order_statusHistory o `prefix_of` order_statusHistory o'.
Proof.
  intros [|doc entry Hs Hh He|id' o1 status entry d Ho1 He] Ho.
  - by exists o.
  - exists o. by rewrite lookup_app_l by (by eapply lookup_lt_Some).
  - destruct (decide (id' = id)) as [->|Hne].
    + rewrite Ho in Ho1. injection Ho1 as <-.
      exists (setStatus o status entry d).
      rewrite list_lookup_insert_eq by (by eapply lookup_lt_Some).
      repeat split; try done. by apply prefix_app_r.
    + exists o. by rewrite list_lookup_insert_ne.
Qed.

Lemma run_cons op ops db : run (op :: ops) db = run ops (exec op db).
Proof. reflexivity. Qed.

Lemma run_consistent ops db :
  Forall historyConsistent (orders db) ->
  Forall historyConsistent (orders (run ops db)).
Proof.
  revert db. induction ops as [|op ops IH]; intros db Hall; [done|].
  rewrite run_cons. apply IH. eapply ordersStep_consistent; [|done].
  apply exec_ordersStep.
Qed.

Lemma run_keeps ops db id o :
  orders db !! id = Some o ->
  exists o', orders (run ops db) !! id = Some o' /\
             order_items o' = order_items o /\
             order_customerId o' = order_customerId o /\
             order_statusHistory o `prefix_of` order_statusHistory o'.
Proof.
  revert db o. induction ops as [|op ops IH]; intros db o Ho.
  - by exists o.
  - rewrite run_cons.
    destruct (ordersStep_keeps _ _ id o (exec_ordersStep op db) Ho)
      as (o1 & Ho1 & Hi1 & Hc1 & Hp1).
    destruct (IH _ _ Ho1) as (o' & Ho' & Hi & Hc & Hp).
    exists o'. repeat split; try congruence. by etrans.
Qed.

(** C7. Whatever sequence of service calls runs, an order already stored
    keeps its place and its status history only grows at the end (the old
    history is a prefix of the new one); and if in every stored order the
    last history entry carries the order's status, the same holds of every
    order stored afterwards, the newly minted ones included. *)
Theorem statusHistory_append_only ops db :
  Forall historyConsistent (orders db) ->
  Forall historyConsistent (orders (run ops db)) /\
  forall id o,
    orders db !! id = Some o ->
    exists o', orders (run ops db) !! id = Some o' /\
               order_statusHistory o `prefix_of` order_statusHistory o'.
Proof.
  intros Hall. split; [by apply run_consistent|].
  intros id o Ho. destruct (run_keeps ops db id o Ho) as (o' & ? & _ & _ & ?).
  by exists o'.
Qed.

Lemma statusHistory_append_only_witness :
  let ops := [UpdateOrderStatus 0 "X" CONFIRMED None ex_now;
              CancelOrder 0 "u" None ex_now;
              CreateOrder "u" ex_dto ex_now] in
  Forall historyConsistent (orders (run ops ex_db_order)) /\
  exists o', orders (run ops ex_db_order) !! 0%nat = Some o' /\
             order_statusHistory (ex_order PENDING [PENDING])
               `prefix_of` order_statusHistory o'.
Proof.
  intros ops.
  destruct (statusHistory_append_only ops ex_db_order) as [Hlast Hgrow].
  - repeat constructor.
  - split; [exact Hlast|]. apply (Hgrow 0%nat). reflexivity.
Defined.

(** ** Reservation at commit and release at cancellation *)

Lemma reserve_release_cancel q p :
  incProduct q (- q) (incProduct (- q) q p) = p.
Proof.
  rewrite incProduct_incProduct.
  replace (- q + q) with 0 by lia. replace (q + - q) with 0 by lia.
  apply incProduct_0.
Qed.

(** C3. [createOrder] lowers the stock of every product by the quantity
    the order holds of it and raises its sales counter by as much; a later
    [cancelOrder] of that order, after any sequence of service calls,
    raises the stock of every product by that same quantity and lowers the
    sales counter by as much.  When no product was touched in between, the
    product collection after the cancellation is the one before the
    commit. *)
Theorem cancel_restores_stock userId dto now db id o db1 ops reason now' r db2 :
  createOrder userId dto now db = (inr (id, Some o), db1) ->
  cancelOrder id userId reason now' (run ops db1) = (inr r, db2) ->
  (forall productId,
     products db1 !! productId =
       incProduct (- orderedQuantity productId (order_items o))
                  (orderedQuantity productId (order_items o))
         <$> products db !! productId) /\
  (forall productId,
     products db2 !! productId =
       incProduct (orderedQuantity productId (order_items o))
                  (- orderedQuantity productId (order_items o))
         <$> products (run ops db1) !! productId) /\
  (products (run ops db1) = products db1 -> products db2 = products db).
Proof.
  intros Hcreate Hcancel.
  apply createOrder_success in Hcreate as (items & _ & _ & _ & Hr & Hdb1).
  injection Hr as -> ->.
  set (o := orderDocument _ _ _ _ _ _) in *.
  assert (Ho : orders db1 !! length (orders db) = Some o).
  { rewrite Hdb1. cbn [orders]. rewrite lookup_app_r by done.
    by rewrite Nat.sub_diag. }
  destruct (run_keeps ops db1 _ o Ho) as (oc & Hoc & Hitems & _ & _).
  rewrite cancelOrder_eq, Hoc in Hcancel.
  destruct (negb _); [done|]. destruct (cancellable _); [|done].
  injection Hcancel as _ <-. cbn [products]. rewrite Hitems.
  assert (Hcommit : forall productId,
    products db1 !! productId =
      incProduct (- orderedQuantity productId (order_items o))
                 (orderedQuantity productId (order_items o))
        <$> products db !! productId).
  { intros productId. rewrite Hdb1. cbn [products].
    rewrite applyIncs_lookup. by rewrite sumFor_opp. }
  assert (Hrelease : forall productId,
    applyIncs orderItem_quantity (fun item => - orderItem_quantity item)
      (order_items o) (products (run ops db1)) !! productId =
      incProduct (orderedQuantity productId (order_items o))
                 (- orderedQuantity productId (order_items o))
        <$> products (run ops db1) !! productId).
  { intros productId. rewrite applyIncs_lookup. by rewrite sumFor_opp. }
  split; [done|]. split; [done|].
  intros Hsame. apply map_eq. intros productId.
  rewrite Hrelease, Hsame, Hcommit.
  destruct (products db !! productId) as [p|]; [|done].
  cbn [fmap option_fmap option_map]. by rewrite reserve_release_cancel.
Qed.

Lemma cancel_restores_stock_witness :
  match createOrder "u" ex_dto ex_now ex_db_cart31 with
  | (inr (id, Some o), db1) =>
    match cancelOrder id "u" None ex_now db1 with
    | (inr r, db2) =>
        product_stock <$> products db1 !! "A" = Some 7 /\
        product_stock <$> products db1 !! "B" = Some 4 /\
        product_stock <$> products db2 !! "A" = Some 10 /\
        product_stock <$> products db2 !! "B" = Some 5 /\
        products db2 = products ex_db_cart31 /\
        entry_status <$> last (order_statusHistory r) = Some CANCELLED
    | _ => False
    end
  | _ => False
  end.
Proof.
  destruct (createOrder "u" ex_dto ex_now ex_db_cart31)
    as [[e|[id [o|]]] db1] eqn:Hcreate;
    [vm_compute in Hcreate; discriminate| |vm_compute in Hcreate; discriminate].
  destruct (cancelOrder id "u" None ex_now db1) as [[e|r] db2] eqn:Hcancel.
  { assert (Hrun : (cancelOrder
        (match (createOrder "u" ex_dto ex_now ex_db_cart31).1 with
         | inr (i, _) => i | inl _ => 0%nat end) "u" None ex_now
        (createOrder "u" ex_dto ex_now ex_db_cart31).2).1 = inl e)
      by (rewrite Hcreate; cbn [fst snd]; by rewrite Hcancel).
    vm_compute in Hrun. discriminate. }
  destruct (cancel_restores_stock "u" ex_dto ex_now ex_db_cart31 id o db1 []
              None ex_now r db2 Hcreate Hcancel) as (Hcommit & Hrelease & Hrestore).
  assert (Ho : o = match (createOrder "u" ex_dto ex_now ex_db_cart31).1 with
                   | inr (_, Some o') => o' | _ => o end)
    by (by rewrite Hcreate).
  assert (Hr : entry_status <$> last (order_statusHistory r) = Some CANCELLED).
  { rewrite cancelOrder_eq in Hcancel.
    destruct (orders db1 !! id) as [oc|]; [|done].
    destruct (negb _); [done|]. destruct (cancellable _); [|done].
    injection Hcancel as <- _. cbn [cancelled setStatus order_statusHistory].
    by rewrite last_snoc. }
  cbn [run foldl] in Hrelease, Hrestore.
  rewrite !Hrelease, !Hcommit, Ho.
  repeat split; try (vm_compute; reflexivity); [by apply Hrestore|exact Hr].
Defined.

(** C3, counterexample.  Customer "u" commits an order of 3 of A, whose
    stock falls from 10 to 7.  When a vendor owning a line sets the order
    to [CANCELLED], the order is cancelled and the stock stays at 7.  When
    instead the customer cancels, the vendor sets the order back to
    [PENDING] and the customer cancels again, both cancellations return
    and the stock ends at 13, the sales counter at -3. *)
Lemma cancelled_order_stock_not_restored :
  let db1 := (createOrder "u" ex_dto ex_now ex_db_cart31).2 in
  let dbv := (updateOrderStatus 0 "X" CANCELLED None ex_now db1).2 in
  let db2 := (cancelOrder 0 "u" None ex_now db1).2 in
  let db3 := (updateOrderStatus 0 "X" PENDING None ex_now db2).2 in
  let db4 := (cancelOrder 0 "u" None ex_now db3).2 in
  product_stock <$> products ex_db_cart31 !! "A" = Some 10 /\
  product_stock <$> products db1 !! "A" = Some 7 /\
  order_status <$> orders dbv !! 0%nat = Some CANCELLED /\
  product_stock <$> products dbv !! "A" = Some 7 /\
  product_stock <$> products db2 !! "A" = Some 10 /\
  order_status <$> orders db3 !! 0%nat = Some PENDING /\
  order_status <$> orders db4 !! 0%nat = Some CANCELLED /\
  product_stock <$> products db4 !! "A" = Some 13 /\
  product_totalSales <$> products db4 !! "A" = Some (-3).
Proof. vm_compute. repeat split. Qed.

(** ** Order numbers *)

(** C5, as the code has it.  The sequence part of an order number is the
    value [countDocuments] returned plus one.  When two [createOrder] calls
    both read the count before either of them stores its order, both
    orders are stored under the same order number. *)
Theorem createOrder_interleaved_same_orderNumber userA dtoA userB dtoB now db :
  cartInvalid db userA = false ->
  cartInvalid db userB = false ->
  exists idA a idB b db',
    createOrderInterleaved userA dtoA userB dtoB now db =
      (inr ((idA, Some a), (idB, Some b)), db') /\
    idA <> idB /\
    orders db' = orders db ++ [a; b] /\
    order_orderNumber a = orderNumberOf now (length (orders db)) /\
    order_orderNumber b = order_orderNumber a.
Proof.
  intros HA HB. unfold createOrderInterleaved, bind.
  destruct (prepareOrder_valid userA dtoA now db HA) as (itemsA & _ & _ & _ & ->).
  destruct (prepareOrder_valid userB dtoB now db HB) as (itemsB & _ & _ & _ & ->).
  rewrite !commitOrder_eq. cbn [orders]. unfold ret.
  eexists _, _, _, _, _. split; [reflexivity|].
  rewrite length_app. cbn [length]. split; [lia|].
  split; [by rewrite <- app_assoc|]. done.
Qed.

Lemma createOrder_interleaved_same_orderNumber_witness :
  exists idA a idB b db',
    createOrderInterleaved "u" ex_dto "v" ex_dto ex_now ex_db_two =
      (inr ((idA, Some a), (idB, Some b)), db') /\
    idA <> idB /\
    orders db' = orders ex_db_two ++ [a; b] /\
    order_orderNumber a = "ORD20261102000001" /\
    order_orderNumber b = order_orderNumber a.
Proof.
  apply (createOrder_interleaved_same_orderNumber "u" ex_dto "v" ex_dto ex_now ex_db_two);
    vm_compute; reflexivity.
Defined.

(** ** Merging a guest cart *)

Lemma validateCartItems_guestLine ps now guest acc :
  foldl (validateCartItem ps now) acc guest = acc ++ omap (guestLine ps now) guest.
Proof.
  revert acc. induction guest as [|g rest IH]; intros acc; cbn [foldl omap list_omap].
  - by rewrite app_nil_r.
  - rewrite IH. unfold validateCartItem, guestLine.
    destruct (ps !! guest_productId g) as [p|]; [|done].
    replace (bool_decide (product_stock p > 0))
      with (bool_decide (0 < product_stock p))
      by (apply bool_decide_ext; lia).
    destruct (product_isActive p && bool_decide (0 < product_stock p)); [|done].
    by rewrite <- app_assoc.
Qed.

Lemma filter_length_same {A} (f : A -> bool) l :
  length (List.filter f l) = length l -> List.filter f l = l.
Proof.
  induction l as [|x l IH]; [done|]. cbn [List.filter].
  destruct (f x); cbn [length]; intros H.
  - f_equal. apply IH. lia.
  - pose proof (List.filter_length_le f l). lia.
Qed.

Lemma filter_populate ps items :
  map fst (List.filter validLine (populate ps items)) = List.filter (lineShown ps) items.
Proof.
  induction items as [|it rest IH]; [done|].
  cbn [populate map List.filter]. fold (populate ps rest). unfold lineShown at 1.
  destruct (validLine (it, ps !! cartItem_productId it)); cbn [map fst]; by rewrite IH.
Qed.

(** The cart [getCart] leaves stored is the stored cart without the lines
    whose product is missing, inactive or out of stock. *)
Lemma getCart_stored userId db items :
  carts db !! userId = Some items ->
  carts (getCart userId db).2 !! userId = Some (List.filter (lineShown (products db)) items).
Proof.
  intros Hc. unfold getCart, bind, gets. cbn beta iota. rewrite Hc.
  cbn [fmap option_fmap option_map].
  destruct (length (List.filter validLine (populate (products db) items))
            =? length (populate (products db) items))%nat eqn:Hlen; cbn [negb].
  - apply Nat.eqb_eq in Hlen. apply filter_length_same in Hlen.
    unfold ret. cbn [snd]. rewrite Hc. rewrite <- filter_populate, Hlen.
    unfold populate. rewrite map_map. cbn [fst]. by rewrite map_id.
  - unfold cartUpdateItems, modify, ret. cbn [snd carts].
    rewrite lookup_alter. case_decide; [|done]. rewrite Hc. cbn [fmap option_fmap option_map].
    by rewrite filter_populate.
Qed.

(** C6. A guest line whose product is missing, inactive or out of stock
    leaves the cart as it is.  Otherwise, when the cart has a line for the
    product, the first such line gets the quantity
    min(existing + guest, stock) and the product's current price, and no
    other line changes; the result is never below min(existing, stock)
    for a guest quantity that is not negative.  When the cart has no such
    line, the guest line is appended with quantity min(guest, stock).  For
    a customer without a cart, the guest lines of active, in-stock products
    become the cart, each clamped to the stock.  [syncCart] stores the
    lines so obtained, less those [getCart] filters out. *)
Theorem syncCart_merges_guest_items userId guestCartItems now db :
  let ps := products db in
  (forall items g,
     match ps !! guest_productId g with
     | None => mergeGuestItem ps now items g = items
     | Some p =>
       if negb (product_isActive p) || bool_decide (product_stock p < 1)
       then mergeGuestItem ps now items g = items
       else
         (forall i existing,
            items !! i = Some existing ->
            cartItem_productId existing = guest_productId g ->
            (forall j it, items !! j = Some it -> (j < i)%nat ->
                          cartItem_productId it <> guest_productId g) ->
            let merged :=
              Z.min (cartItem_quantity existing + guest_quantity g) (product_stock p) in
            mergeGuestItem ps now items g =
              <[i := mkCartItem (cartItem_productId existing) merged
                       (product_price p) (cartItem_addedAt existing)]> items /\
            (0 <= guest_quantity g ->
             Z.min (cartItem_quantity existing) (product_stock p) <= merged)) /\
         ((forall it, it ∈ items -> cartItem_productId it <> guest_productId g) ->
          mergeGuestItem ps now items g =
            items ++ [mkCartItem (guest_productId g)
                        (Z.min (guest_quantity g) (product_stock p))
                        (product_price p) (Some now)])
     end) /\
  carts (syncCart userId guestCartItems now db).2 !! userId =
    Some (List.filter (lineShown ps)
            match carts db !! userId with
            | Some items => foldl (mergeGuestItem ps now) items guestCartItems
            | None => omap (guestLine ps now) guestCartItems
            end).
Proof.
  intros ps. split.
  - intros items g. unfold mergeGuestItem.
    destruct (ps !! guest_productId g) as [p|]; [|done].
    destruct (negb (product_isActive p) || bool_decide (product_stock p < 1)); [done|].
    split.
    + intros i existing Hi Hpid Hfirst.
      assert (Hfind : list_find (fun item => cartItem_productId item = guest_productId g) items
                      = Some (i, existing)).
      { apply list_find_Some. split; [done|]. split; [done|].
        intros j it Hj Hlt. by apply (Hfirst j it). }
      rewrite Hfind. split; [done|]. lia.
    + intros Hnone.
      assert (Hfind : list_find (fun item => cartItem_productId item = guest_productId g) items
                      = None).
      { apply list_find_None. apply Forall_forall. intros it Hin. by apply Hnone. }
      by rewrite Hfind.
  - rewrite syncCart_eq.
    erewrite getCart_stored; [|cbn [carts]; apply lookup_insert_eq].
    cbn [products]. fold ps. do 2 f_equal.
    destruct (carts db !! userId) as [items|]; [done|].
    by rewrite validateCartItems_guestLine.
Qed.

Lemma syncCart_merges_guest_items_witness :
  carts (syncCart "u" [mkGuestItem "P" 5] ex_now ex_db_merge).2 !! "u" =
    Some [mkCartItem "P" 3 (Qc_of_Z 25) None].
Proof.
  destruct (syncCart_merges_guest_items "u" [mkGuestItem "P" 5] ex_now ex_db_merge)
    as [Hline Hstored].
  rewrite Hstored. cbn [foldl].
  change (carts ex_db_merge !! "u") with (Some [mkCartItem "P" 1 (Qc_of_Z 20) None]).
  specialize (Hline [mkCartItem "P" 1 (Qc_of_Z 20) None] (mkGuestItem "P" 5)).
  change (products ex_db_merge !! guest_productId (mkGuestItem "P" 5))
    with (Some (ex_product "P" "X" 25 3)) in Hline.
  cbn iota in Hline. destruct Hline as [Hexisting _].
  destruct (Hexisting 0%nat (mkCartItem "P" 1 (Qc_of_Z 20) None)) as [-> _].
  - reflexivity.
  - reflexivity.
  - intros j it _ Hj. lia.
  - vm_compute. reflexivity.
Defined.

(** ** Seller statistics *)

Lemma vendorRevenue_ownLineTotals vendorId o :
  vendorRevenue vendorId o = ownLineTotals vendorId o.
Proof.
  unfold vendorRevenue, ownLineTotals, ownItems.
  rewrite foldl_total_sumQc. ring.
Qed.

Lemma hasVendorProduct_spec vendorId o :
  hasVendorProduct vendorId o = true <->
  Exists (fun item => orderItem_vendorId item = vendorId) (order_items o).
Proof.
  unfold hasVendorProduct. rewrite existsb_exists, Exists_exists. split.
  - intros (item & Hin & Hv). exists item. split; [by apply list_elem_of_In|].
    by apply bool_decide_eq_true in Hv.
  - intros (item & Hin & Hv). exists item. split; [by apply list_elem_of_In|].
    by apply bool_decide_eq_true.
Qed.

Lemma findVendorOrders_ordersOf vendorId os :
  findVendorOrders vendorId os = ordersOf vendorId os.
Proof.
  unfold findVendorOrders, ordersOf. apply list_filter_iff.
  intros o. apply hasVendorProduct_spec.
Qed.

Lemma ownLineTotals_foreign vendorId o :
  hasVendorProduct vendorId o = false -> ownLineTotals vendorId o = 0%Qc.
Proof.
  unfold ownLineTotals, ownItems, hasVendorProduct.
  induction (order_items o) as [|item rest IH]; [done|]. cbn [existsb].
  intros H. apply orb_false_iff in H as [Hitem Hrest].
  apply bool_decide_eq_false in Hitem.
  rewrite filter_cons_False by done. by apply IH.
Qed.

(** Orders without a line of the seller add nothing to the sum. *)
Lemma ownLineTotals_all_orders vendorId os :
  sumQc (map (ownLineTotals vendorId) (findVendorOrders vendorId os)) =
  sumQc (map (ownLineTotals vendorId) os).
Proof.
  unfold findVendorOrders. induction os as [|o rest IH]; [done|].
  destruct (hasVendorProduct vendorId o) eqn:Hv.
  - rewrite filter_cons_True by done. cbn [map sumQc foldr]. fold (sumQc).
    unfold sumQc in *. by rewrite IH.
  - rewrite filter_cons_False by congruence. cbn [map sumQc foldr].
    unfold sumQc in *. rewrite IH, ownLineTotals_foreign by done. ring.
Qed.

Lemma statsStep_foldl vendorId os revenue pend proc ship deliv :
  foldl (statsStep vendorId) (revenue, pend, proc, ship, deliv) os =
  ((revenue + sumQc (map (ownLineTotals vendorId) os))%Qc,
   (pend + countStatus PENDING os)%nat,
   (proc + countStatus PROCESSING os)%nat,
   (ship + countStatus SHIPPED os)%nat,
   (deliv + countStatus DELIVERED os)%nat).
Proof.
  revert revenue pend proc ship deliv.
  induction os as [|o rest IH]; intros revenue pend proc ship deliv.
  - cbn [foldl map sumQc foldr]. unfold countStatus. cbn.
    rewrite !Nat.add_0_r. f_equal. f_equal. f_equal. f_equal. ring.
  - cbn [foldl]. unfold statsStep at 2. rewrite vendorRevenue_ownLineTotals.
    unfold countStatus in *. cbn [map sumQc foldr]. fold (sumQc).
    destruct (order_status o) eqn:Hs; rewrite IH;
      repeat (rewrite filter_cons_True by congruence)
      || (rewrite filter_cons_False by congruence);
      cbn [length];
      repeat match goal with
             | |- (_, _) = (_, _) => f_equal
             end; try lia; unfold sumQc; ring.
Qed.

Lemma getVendorOrderStats_eq vendorId db :
  getVendorOrderStats vendorId db =
  (inr (let found := findVendorOrders vendorId (orders db) in
        mkStats (length found)
                (sumQc (map (ownLineTotals vendorId) found))
                (countStatus PENDING found) (countStatus PROCESSING found)
                (countStatus SHIPPED found) (countStatus DELIVERED found)), db).
Proof.
  unfold getVendorOrderStats, bind, gets. cbn beta iota.
  rewrite statsStep_foldl. unfold ret. cbn zeta. do 3 f_equal. ring.
Qed.

Lemma statsOf_eq vendorId db :
  statsOf vendorId db =
  let found := findVendorOrders vendorId (orders db) in
  mkStats (length found)
          (sumQc (map (ownLineTotals vendorId) found))
          (countStatus PENDING found) (countStatus PROCESSING found)
          (countStatus SHIPPED found) (countStatus DELIVERED found).
Proof. unfold statsOf. by rewrite getVendorOrderStats_eq. Qed.

Lemma getVendorOrderStats_returns vendorId db :
  getVendorOrderStats vendorId db = (inr (statsOf vendorId db), db).
Proof. rewrite statsOf_eq. apply getVendorOrderStats_eq. Qed.

Lemma ownLineTotals_ownItems vendorId o1 o2 :
  ownItems vendorId o1 = ownItems vendorId o2 ->
  ownLineTotals vendorId o1 = ownLineTotals vendorId o2.
Proof. unfold ownLineTotals. by intros ->. Qed.

Lemma sum_ownLineTotals_ownItems vendorId os1 os2 :
  map (ownItems vendorId) os1 = map (ownItems vendorId) os2 ->
  sumQc (map (ownLineTotals vendorId) os1) = sumQc (map (ownLineTotals vendorId) os2).
Proof.
  revert os2. induction os1 as [|o1 r1 IH]; intros [|o2 r2]; cbn [map]; try done.
  intros [= Ho Hr]. cbn [sumQc foldr]. fold (sumQc).
  unfold sumQc in *. by rewrite (IH r2 Hr), (ownLineTotals_ownItems _ _ _ Ho).
Qed.

(** C8. [getVendorOrderStats] returns, changing nothing, and its
    [totalRevenue] is the sum, over the orders holding a line of the
    seller, of the line totals of the seller's own lines.  It depends on
    nothing but the seller's own lines: two order collections that agree
    on them, whatever the other sellers' lines are, give the same
    revenue. *)
Theorem sellerStats_own_revenue vendorId db :
  getVendorOrderStats vendorId db = (inr (statsOf vendorId db), db) /\
  totalRevenue (statsOf vendorId db) =
    sumQc (map (ownLineTotals vendorId) (ordersOf vendorId (orders db))) /\
  (forall db2,
     map (ownItems vendorId) (orders db2) = map (ownItems vendorId) (orders db) ->
     totalRevenue (statsOf vendorId db2) = totalRevenue (statsOf vendorId db)).
Proof.
  split; [apply getVendorOrderStats_returns|]. split.
  - rewrite statsOf_eq. cbn [totalRevenue]. by rewrite findVendorOrders_ordersOf.
  - intros db2 Hsame. rewrite !statsOf_eq. cbn [totalRevenue].
    rewrite !ownLineTotals_all_orders. by apply sum_ownLineTotals_ownItems.
Qed.

Lemma sellerStats_own_revenue_witness :
  totalRevenue (statsOf "X" ex_db_order) = Qc_of_Z 100 /\
  totalRevenue (statsOf "Y" ex_db_order) = Qc_of_Z 50.
Proof.
  destruct (sellerStats_own_revenue "X" ex_db_order) as (_ & -> & _).
  destruct (sellerStats_own_revenue "Y" ex_db_order) as (_ & -> & _).
  split; apply Qc_is_canon; vm_compute; reflexivity.
Defined.

Lemma countStatus_partition os :
  length os =
  (countStatus PENDING os + countStatus PROCESSING os + countStatus SHIPPED os
   + countStatus DELIVERED os + countStatus CONFIRMED os + countStatus CANCELLED os)%nat.
Proof.
  unfold countStatus. induction os as [|o rest IH]; [done|].
  destruct (order_status o) eqn:Hs;
    repeat (rewrite filter_cons_True by congruence)
    || (rewrite filter_cons_False by congruence);
    cbn [length]; lia.
Qed.

Lemma countStatus_snoc s os o :
  countStatus s (os ++ [o]) =
  (countStatus s os + if decide (order_status o = s) then 1 else 0)%nat.
Proof.
  unfold countStatus. rewrite filter_app, length_app. f_equal.
  case_decide; [by rewrite filter_cons_True|by rewrite filter_cons_False].
Qed.

Lemma sumQc_snoc l x : sumQc (l ++ [x]) = (sumQc l + x)%Qc.
Proof.
  unfold sumQc. induction l as [|y l IH]; cbn [app foldr]; [ring|].
  rewrite IH. ring.
Qed.

(** C10. The statistics count every order holding a line of the seller in
    [totalOrders] and add its own line totals to [totalRevenue] whatever
    its status, but have buckets for [PENDING], [PROCESSING], [SHIPPED] and
    [DELIVERED] only, so the four buckets fall short of [totalOrders] by
    the number of [CONFIRMED] and [CANCELLED] orders.  Storing one more
    order of the seller that is [CONFIRMED] or [CANCELLED] raises
    [totalOrders] by one and [totalRevenue] by the seller's line totals in
    it, and leaves the four buckets as they were. *)
Theorem sellerStats_status_buckets vendorId db :
  let found := ordersOf vendorId (orders db) in
  let stats := statsOf vendorId db in
  totalOrders stats = length found /\
  totalRevenue stats = sumQc (map (ownLineTotals vendorId) found) /\
  pending stats = countStatus PENDING found /\
  processing stats = countStatus PROCESSING found /\
  shipped stats = countStatus SHIPPED found /\
  delivered stats = countStatus DELIVERED found /\
  totalOrders stats =
    (pending stats + processing stats + shipped stats + delivered stats
     + countStatus CONFIRMED found + countStatus CANCELLED found)%nat /\
  (forall o,
     hasVendorProduct vendorId o = true ->
     order_status o = CONFIRMED \/ order_status o = CANCELLED ->
     let stats' :=
       statsOf vendorId (mkDb (carts db) (products db) (orders db ++ [o])) in
     totalOrders stats' = S (totalOrders stats) /\
     totalRevenue stats' = (totalRevenue stats + ownLineTotals vendorId o)%Qc /\
     pending stats' = pending stats /\
     processing stats' = processing stats /\
     shipped stats' = shipped stats /\
     delivered stats' = delivered stats).
Proof.
  intros found stats. subst found stats. rewrite statsOf_eq.
  rewrite <- findVendorOrders_ordersOf.
  cbn [totalOrders totalRevenue pending processing shipped delivered].
  repeat (split; [reflexivity|]).
  split; [apply countStatus_partition|].
  intros o Hv Hs. cbn zeta. rewrite statsOf_eq.
  cbn [totalOrders totalRevenue pending processing shipped delivered orders].
  unfold findVendorOrders. rewrite filter_app, filter_cons_True by done.
  rewrite filter_nil, length_app, map_app. cbn [length map].
  rewrite sumQc_snoc, !countStatus_snoc.
  fold (findVendorOrders vendorId (orders db)).
  destruct Hs as [Hs|Hs]; rewrite Hs;
    repeat case_decide; try discriminate; repeat split; try lia; try ring.
Qed.

Lemma sellerStats_status_buckets_witness :
  let stats := statsOf "X" ex_db_cancelled in
  totalOrders stats = 1%nat /\ totalRevenue stats = Qc_of_Z 100 /\
  pending stats = 0%nat /\ processing stats = 0%nat /\
  shipped stats = 0%nat /\ delivered stats = 0%nat.
Proof.
  intros stats.
  destruct (sellerStats_status_buckets "X" (mkDb ∅ ex_catalog []))
    as (_ & _ & _ & _ & _ & _ & _ & Hmore).
  destruct (Hmore (ex_order CANCELLED [PENDING; CANCELLED])) as (Ht & Hr & Hp & Hq & Hs & Hd).
  - reflexivity.
  - by right.
  - subst stats.
    split; [etrans; [exact Ht|]; vm_compute; reflexivity|].
    split; [etrans; [exact Hr|]; apply Qc_is_canon; vm_compute; reflexivity|].
    split; [etrans; [exact Hp|]; vm_compute; reflexivity|].
    split; [etrans; [exact Hq|]; vm_compute; reflexivity|].
    split; [etrans; [exact Hs|]; vm_compute; reflexivity|].
    etrans; [exact Hd|]; vm_compute; reflexivity.
Defined.

(** * Further properties of the cart service *)

(** ** [getCart] *)

Lemma filter_validLine_populate ps items :
  List.filter validLine (populate ps items) = populate ps (shownItems ps items).
Proof.
  induction items as [|it rest IH]; [done|].
  cbn [populate map List.filter shownItems]. fold (populate ps rest).
  unfold lineShown at 1.
  destruct (validLine (it, ps !! cartItem_productId it)); cbn [populate map];
    fold (populate ps (shownItems ps rest)); by rewrite IH.
Qed.

Lemma populate_fst ps items : map fst (populate ps items) = items.
Proof. unfold populate. rewrite map_map. cbn [fst]. apply map_id. Qed.

Lemma alter_const_insert {A} (m : gmap string A) i x y :
  m !! i = Some x -> alter (fun _ => y) i m = <[i := y]> m.
Proof.
  intros Hi. apply map_eq. intros j. rewrite lookup_alter, lookup_insert.
  case_decide; [by rewrite Hi|done].
Qed.

Lemma alter_absent {A} (f : A -> A) (m : gmap string A) i :
  m !! i = None -> alter f i m = m.
Proof.
  intros Hi. apply map_eq. intros j. rewrite lookup_alter.
  case_decide; [subst; by rewrite Hi|done].
Qed.

Lemma shownItems_idemp ps items :
  shownItems ps (shownItems ps items) = shownItems ps items.
Proof.
  unfold shownItems. induction items as [|it rest IH]; [done|].
  cbn [List.filter]. destruct (lineShown ps it) eqn:Hit; [|done].
  cbn [List.filter]. by rewrite Hit, IH.
Qed.

Lemma shownItems_all ps items :
  Forall (fun it => lineShown ps it = true) (shownItems ps items).
Proof.
  unfold shownItems. induction items as [|it rest IH]; [constructor|].
  cbn [List.filter]. destruct (lineShown ps it) eqn:Hit; [|done].
  by constructor.
Qed.

(** [getCart] stores and returns the lines of the customer's cart whose
    product exists, is active and is in stock; a missing cart counts as
    empty. *)
Lemma getCart_eq userId db :
  getCart userId db =
  let kept := shownItems (products db) (default [] (carts db !! userId)) in
  (inr (populate (products db) kept), withCart db userId kept).
Proof.
  unfold getCart, bind, gets, withCart. cbn beta iota zeta.
  destruct (carts db !! userId) as [items|] eqn:Hc;
    cbn [fmap option_fmap option_map default]; [|done].
  change (id items) with items.
  rewrite filter_validLine_populate.
  destruct (length (populate (products db) (shownItems (products db) items))
            =? length (populate (products db) items))%nat eqn:Hlen; cbn [negb].
  - apply Nat.eqb_eq in Hlen. unfold populate in Hlen. rewrite !length_map in Hlen.
    apply filter_length_same in Hlen. fold (shownItems (products db) items) in Hlen.
    rewrite !Hlen. unfold ret. rewrite insert_id by done. by destruct db.
  - unfold cartUpdateItems, modify, ret. rewrite populate_fst.
    by rewrite (alter_const_insert _ _ items).
Qed.

Lemma getCart_withCart userId db items :
  getCart userId (withCart db userId items) =
  (inr (populate (products db) (shownItems (products db) items)),
   withCart db userId (shownItems (products db) items)).
Proof.
  rewrite getCart_eq. unfold withCart. cbn [carts products orders].
  rewrite lookup_insert_eq. cbn [default]. by rewrite insert_insert_eq.
Qed.

(** ** Equations of the cart methods *)

Lemma findActiveProduct_eq productId db :
  findActiveProduct productId db =
  match products db !! productId with
  | Some p =>
    if product_isActive p then (inr p, db)
    else (inl (NotFoundException "Product not found or inactive"), db)
  | None => (inl (NotFoundException "Product not found or inactive"), db)
  end.
Proof.
  unfold findActiveProduct, bind, gets. cbn beta iota.
  destruct (products db !! productId) as [p|]; [|done].
  by destruct (product_isActive p).
Qed.

Lemma addItem_eq userId productId quantity now db :
  addItem userId productId quantity now db =
  match products db !! productId with
  | None => (inl (NotFoundException "Product not found or inactive"), db)
  | Some p =>
    if negb (product_isActive p)
    then (inl (NotFoundException "Product not found or inactive"), db)
    else if bool_decide (product_stock p < quantity) then (inl (onlyAvailable p), db)
    else
      match carts db !! userId with
      | None => getCart userId (withCart db userId [newLine productId quantity p None])
      | Some items =>
        match list_find (fun item => cartItem_productId item = productId) items with
        | Some (i, existing) =>
          if bool_decide (product_stock p < cartItem_quantity existing + quantity)
          then (inl (onlyAvailable p), db)
          else getCart userId
                 (withCart db userId
                    (<[i := setQuantity existing (cartItem_quantity existing + quantity)
                              (product_price p)]> items))
        | None =>
          getCart userId
            (withCart db userId (items ++ [newLine productId quantity p (Some now)]))
        end
      end
  end.
Proof.
  unfold addItem, bind. rewrite findActiveProduct_eq.
  destruct (products db !! productId) as [p|]; [|done].
  destruct (product_isActive p); cbn [negb]; [|done].
  destruct (bool_decide (product_stock p < quantity)); [done|].
  unfold gets. cbn beta iota.
  destruct (carts db !! userId) as [items|]; [|done].
  destruct (list_find _ items) as [[i existing]|]; [|done].
  by destruct (bool_decide (product_stock p < cartItem_quantity existing + quantity)).
Qed.

Lemma removeItem_eq userId productId db :
  removeItem userId productId db =
  match carts db !! userId with
  | None => (inl (NotFoundException "Cart not found"), db)
  | Some items =>
    getCart userId
      (withCart db userId
         (filter (fun item => cartItem_productId item <> productId) items))
  end.
Proof.
  unfold removeItem, bind, gets. cbn beta iota.
  by destruct (carts db !! userId).
Qed.

Lemma updateItemQuantity_eq userId productId quantity db :
  updateItemQuantity userId productId quantity db =
  if bool_decide (quantity < 1) then removeItem userId productId db
  else
    match carts db !! userId with
    | None => (inl (NotFoundException "Cart not found"), db)
    | Some items =>
      match list_find (fun item => cartItem_productId item = productId) items with
      | None => (inl (NotFoundException "Item not found in cart"), db)
      | Some (i, existing) =>
        match products db !! productId with
        | None => (inl (NotFoundException "Product not found or inactive"), db)
        | Some p =>
          if negb (product_isActive p)
          then (inl (NotFoundException "Product not found or inactive"), db)
          else if bool_decide (product_stock p < quantity)
          then (inl (onlyAvailable p), db)
          else getCart userId
                 (withCart db userId
                    (<[i := setQuantity existing quantity (product_price p)]> items))
        end
      end
    end.
Proof.
  unfold updateItemQuantity. destruct (bool_decide (quantity < 1)); [done|].
  unfold bind, gets. cbn beta iota.
  destruct (carts db !! userId) as [items|]; [|done].
  destruct (list_find _ items) as [[i existing]|]; [|done].
  rewrite findActiveProduct_eq.
  destruct (products db !! productId) as [p|]; [|done].
  destruct (product_isActive p); cbn [negb]; [|done].
  by destruct (bool_decide (product_stock p < quantity)).
Qed.

Lemma clearCart_eq userId db :
  clearCart userId db =
  (inr "Cart cleared successfully",
   match carts db !! userId with
   | Some _ => withCart db userId []
   | None => db
   end).
Proof.
  unfold clearCart, bind, cartUpdateItems, modify, ret, withCart.
  destruct (carts db !! userId) as [items|] eqn:Hc.
  - by rewrite (alter_const_insert _ _ items).
  - rewrite alter_absent by done. by destruct db.
Qed.

(** ** The first line of a product in a cart *)

Lemma firstLine_cons productId it items :
  firstLine productId (it :: items) =
  if decide (cartItem_productId it = productId) then Some it
  else firstLine productId items.
Proof.
  unfold firstLine. cbn [list_find]. case_decide; [done|].
  by destruct (list_find _ items) as [[i x]|].
Qed.

Lemma firstLine_filter productId (f : CartItem -> bool) items :
  (forall it, cartItem_productId it = productId -> f it = true) ->
  firstLine productId (List.filter f items) = firstLine productId items.
Proof.
  intros Hf. induction items as [|it rest IH]; [done|].
  cbn [List.filter]. rewrite firstLine_cons.
  destruct (f it) eqn:Hit.
  - rewrite firstLine_cons. by rewrite IH.
  - rewrite IH. case_decide as Hpid; [|done]. apply Hf in Hpid. congruence.
Qed.

Lemma firstLine_insert productId items i existing x :
  list_find (fun item => cartItem_productId item = productId) items = Some (i, existing) ->
  cartItem_productId x = productId ->
  firstLine productId (<[i := x]> items) = Some x.
Proof.
  intros Hfind Hx. apply list_find_Some in Hfind as (Hi & _ & Hfirst).
  unfold firstLine.
  assert (list_find (fun item => cartItem_productId item = productId) (<[i := x]> items)
          = Some (i, x)) as ->; [|done].
  apply list_find_Some. split; [|split; [done|]].
  - apply list_lookup_insert_eq. by eapply lookup_lt_Some.
  - intros j y Hj Hlt. rewrite list_lookup_insert_ne in Hj by lia. by eapply Hfirst.
Qed.

Lemma firstLine_snoc productId items x :
  list_find (fun item => cartItem_productId item = productId) items = None ->
  cartItem_productId x = productId ->
  firstLine productId (items ++ [x]) = Some x.
Proof.
  intros Hnone Hx. induction items as [|it rest IH].
  - cbn [app]. rewrite firstLine_cons. by rewrite decide_True.
  - cbn [app]. rewrite firstLine_cons. cbn [list_find] in Hnone.
    case_decide; [done|]. apply IH.
    by destruct (list_find _ rest) as [[i y]|].
Qed.

Lemma heldLine_withCart db userId productId items :
  heldLine (withCart db userId items) userId productId = firstLine productId items.
Proof. unfold heldLine, withCart. cbn [carts]. by rewrite lookup_insert_eq. Qed.

Lemma lineShown_in_stock ps p it :
  ps !! cartItem_productId it = Some p ->
  product_isActive p = true -> 0 < product_stock p ->
  lineShown ps it = true.
Proof.
  intros Hp Ha Hs. unfold lineShown, validLine. cbn [snd]. rewrite Hp, Ha.
  apply andb_true_iff. split; [done|]. apply bool_decide_eq_true. lia.
Qed.

(** ** [addItem] *)

(** X1. When [addItem] throws, the store is as it was.  It throws
    [NotFoundException] exactly for a missing or inactive product, and
    otherwise [BadRequestException] naming the stock, because the stock is
    below the requested quantity or below the quantity already held plus
    the requested one. *)
Theorem addItem_failure_no_mutation userId productId quantity now db e db' :
  addItem userId productId quantity now db = (inl e, db') ->
  db' = db /\
  match products db !! productId with
  | None => e = NotFoundException "Product not found or inactive"
  | Some p =>
    if product_isActive p
    then e = BadRequestException
               ("Only " +:+ pretty (product_stock p) +:+ " items available in stock") /\
         (product_stock p < quantity \/
          product_stock p < heldQuantity db userId productId + quantity)
    else e = NotFoundException "Product not found or inactive"
  end.
Proof.
  rewrite addItem_eq. unfold heldQuantity, heldLine.
  destruct (products db !! productId) as [p|]; [|by intros [= <- <-]].
  destruct (product_isActive p); cbn [negb]; [|by intros [= <- <-]].
  case_bool_decide as Hq; [intros [= <- <-]; auto|].
  destruct (carts db !! userId) as [items|]; cbn [mbind option_bind];
    [|by rewrite getCart_withCart].
  destruct (list_find _ items) as [[i existing]|];
    cbn [fmap option_fmap option_map snd from_option];
    [|by rewrite getCart_withCart].
  case_bool_decide as Hsum; [intros [= <- <-]; auto|].
  by rewrite getCart_withCart.
Qed.

Lemma addItem_failure_no_mutation_witness :
  addItem "u" "A" 10 ex_now ex_db_one =
    (inl (BadRequestException "Only 10 items available in stock"), ex_db_one).
Proof.
  destruct (addItem "u" "A" 10 ex_now ex_db_one) as [[e|r] db'] eqn:E;
    [|vm_compute in E; discriminate].
  destruct (addItem_failure_no_mutation "u" "A" 10 ex_now ex_db_one e db' E)
    as [-> He].
  change (products ex_db_one !! "A") with (Some (ex_product "A" "X" 100 10)) in He.
  cbn [ex_product product_isActive product_stock] in He.
  destruct He as [-> _]. reflexivity.
Defined.

(** X2. After [addItem] returned for a requested quantity of at least 1,
    the product is active, the cart's line for it holds the quantity held
    before plus the requested one, which does not exceed the stock, at the
    product's current price; products and orders are untouched, and the
    answer is the stored cart. *)
Theorem addItem_success userId productId quantity now db r db' :
  1 <= quantity ->
  addItem userId productId quantity now db = (inr r, db') ->
  exists p line stored,
    products db !! productId = Some p /\ product_isActive p = true /\
    heldLine db' userId productId = Some line /\
    cartItem_quantity line = heldQuantity db userId productId + quantity /\
    cartItem_quantity line <= product_stock p /\
    cartItem_price line = product_price p /\
    carts db' !! userId = Some stored /\ r = populate (products db) stored /\
    products db' = products db /\ orders db' = orders db.
Proof.
  intros Hq. rewrite addItem_eq. unfold heldQuantity, heldLine at 2.
  destruct (products db !! productId) as [p|] eqn:Hp; [|done].
  destruct (product_isActive p) eqn:Ha; cbn [negb]; [|done].
  case_bool_decide as Hstock; [done|].
  assert (Hshown : forall it, cartItem_productId it = productId ->
                              lineShown (products db) it = true).
  { intros it <-. eapply lineShown_in_stock; [done..|lia]. }
  destruct (carts db !! userId) as [items|]; cbn [mbind option_bind].
  - destruct (list_find _ items) as [[i existing]|] eqn:Hfind;
      cbn [fmap option_fmap option_map snd from_option].
    + case_bool_decide as Hsum; [done|].
      rewrite getCart_withCart. intros [= <- <-].
      eexists p, _, _. split; [done|]. split; [done|].
      rewrite heldLine_withCart. unfold shownItems.
      rewrite firstLine_filter by done.
      apply list_find_Some in Hfind as Hspec. destruct Hspec as (_ & Hpid & _).
      rewrite (firstLine_insert _ _ _ _ _ Hfind) by done.
      split; [done|]. cbn [setQuantity cartItem_quantity cartItem_price].
      split; [done|]. split; [lia|]. split; [done|].
      unfold withCart. cbn [carts products orders]. by rewrite lookup_insert_eq.
    + rewrite getCart_withCart. intros [= <- <-].
      eexists p, _, _. split; [done|]. split; [done|].
      rewrite heldLine_withCart. unfold shownItems.
      rewrite firstLine_filter by done.
      rewrite (firstLine_snoc _ _ _ Hfind) by done.
      split; [done|]. cbn [newLine cartItem_quantity cartItem_price].
      split; [lia|]. split; [lia|]. split; [done|].
      unfold withCart. cbn [carts products orders]. by rewrite lookup_insert_eq.
  - cbn [from_option]. rewrite getCart_withCart. intros [= <- <-].
    eexists p, _, _. split; [done|]. split; [done|].
    rewrite heldLine_withCart. unfold shownItems. cbn [List.filter].
    rewrite Hshown by done. rewrite firstLine_cons, decide_True by done.
    split; [done|]. cbn [newLine cartItem_quantity cartItem_price].
    split; [lia|]. split; [lia|]. split; [done|].
    unfold withCart. cbn [carts products orders]. by rewrite lookup_insert_eq.
Qed.

Lemma addItem_success_witness :
  heldQuantity (addItem "u" "A" 4 ex_now ex_db_one).2 "u" "A" = 5.
Proof.
  destruct (addItem "u" "A" 4 ex_now ex_db_one) as [[e|r] db'] eqn:E;
    [vm_compute in E; discriminate|].
  destruct (addItem_success "u" "A" 4 ex_now ex_db_one r db' ltac:(lia) E)
    as (p & line & stored & _ & _ & Hline & Hq & _).
  cbn [snd]. unfold heldQuantity at 1. rewrite Hline. cbn [from_option].
  rewrite Hq. vm_compute. reflexivity.
Defined.

(** ** [updateItemQuantity] and [removeItem] *)

Lemma filter_all {A} (P : A -> Prop) `{!forall x, Decision (P x)} (l : list A) :
  Forall P l -> filter P l = l.
Proof.
  induction 1 as [|x l Hx _ IH]; [done|]. rewrite filter_cons_True by done.
  by rewrite IH.
Qed.

Lemma shownItems_Forall (P : CartItem -> Prop) ps items :
  Forall P items -> Forall P (shownItems ps items).
Proof.
  unfold shownItems. induction 1 as [|it rest Hit _ IH]; [constructor|].
  cbn [List.filter]. destruct (lineShown ps it); [by constructor|done].
Qed.

Lemma shownItems_elem_of ps items it :
  it ∈ shownItems ps items <-> it ∈ items /\ lineShown ps it = true.
Proof. unfold shownItems. rewrite !list_elem_of_In. apply filter_In. Qed.

(** X3. [removeItem] on an existing cart never throws, also when the cart
    holds no line of the product.  Afterwards the cart holds exactly the
    lines it held of other products whose product exists, is active and is
    in stock; products and orders are untouched; removing the same product
    again changes nothing. *)
Theorem removeItem_removes userId productId db items :
  carts db !! userId = Some items ->
  exists stored,
    removeItem userId productId db =
      (inr (populate (products db) stored), withCart db userId stored) /\
    (forall it, it ∈ stored <->
                it ∈ items /\ cartItem_productId it <> productId /\
                lineShown (products db) it = true) /\
    heldLine (withCart db userId stored) userId productId = None /\
    removeItem userId productId (withCart db userId stored) =
      (inr (populate (products db) stored), withCart db userId stored).
Proof.
  intros Hc. rewrite removeItem_eq, Hc, getCart_withCart.
  set (rest := filter (fun item => cartItem_productId item <> productId) items).
  exists (shownItems (products db) rest). split; [done|].
  assert (Hrest : Forall (fun item => cartItem_productId item <> productId)
                    (shownItems (products db) rest)).
  { apply shownItems_Forall. subst rest. apply Forall_forall.
    intros it Hit. by apply list_elem_of_filter in Hit as [? _]. }
  split; [|split].
  - intros it. rewrite shownItems_elem_of. subst rest.
    rewrite list_elem_of_filter. tauto.
  - rewrite heldLine_withCart. unfold firstLine.
    rewrite (proj2 (list_find_None _ _)); [done|].
    eapply Forall_impl; [exact Hrest|]. by intros it Hit.
  - rewrite removeItem_eq. unfold withCart at 1. cbn [carts].
    rewrite lookup_insert_eq, getCart_withCart.
    cbn [products]. rewrite filter_all by done. rewrite shownItems_idemp.
    unfold withCart. cbn [carts products orders]. by rewrite insert_insert_eq.
Qed.

Lemma removeItem_removes_witness :
  exists stored,
    removeItem "u" "B" ex_db_cart =
      (inr (populate (products ex_db_cart) stored), withCart ex_db_cart "u" stored) /\
    stored = [mkCartItem "A" 2 (Qc_of_Z 100) None].
Proof.
  destruct (removeItem_removes "u" "B" ex_db_cart
              [mkCartItem "A" 2 (Qc_of_Z 100) None; mkCartItem "B" 1 (Qc_of_Z 50) None]
              eq_refl) as (stored & Hrun & _).
  exists stored. split; [exact Hrun|].
  assert (Hc : carts (removeItem "u" "B" ex_db_cart).2 !! "u" = Some stored).
  { rewrite Hrun. unfold withCart. cbn [snd carts]. apply lookup_insert_eq. }
  vm_compute in Hc. by injection Hc as <-.
Defined.

(** X4. When [updateItemQuantity] or [removeItem] throws, the store is as it
    was; [updateItemQuantity] throws [BadRequestException] only for a
    quantity of at least 1 of an active product already in the cart whose
    stock is below it, and [NotFoundException] in every other failure. *)
Theorem updateItemQuantity_failure_no_mutation userId productId quantity db e db' :
  updateItemQuantity userId productId quantity db = (inl e, db') ->
  db' = db /\
  ((exists msg, e = NotFoundException msg) \/
   (exists p, products db !! productId = Some p /\ product_isActive p = true /\
              1 <= quantity /\ product_stock p < quantity /\
              is_Some (heldLine db userId productId) /\
              e = BadRequestException
                    ("Only " +:+ pretty (product_stock p) +:+ " items available in stock"))).
Proof.
  rewrite updateItemQuantity_eq. unfold heldLine.
  case_bool_decide as Hq.
  { rewrite removeItem_eq. destruct (carts db !! userId) as [items|].
    - by rewrite getCart_withCart.
    - intros [= <- <-]. eauto. }
  destruct (carts db !! userId) as [items|]; cbn [mbind option_bind];
    [|intros [= <- <-]; eauto].
  destruct (list_find _ items) as [[i existing]|]; [|intros [= <- <-]; eauto].
  destruct (products db !! productId) as [p|]; [|intros [= <- <-]; eauto].
  destruct (product_isActive p) eqn:Ha; cbn [negb]; [|intros [= <- <-]; eauto].
  case_bool_decide as Hstock; [|by rewrite getCart_withCart].
  intros [= <- <-]. split; [done|]. right. exists p.
  repeat split; try done; try lia; by eexists.
Qed.

Lemma updateItemQuantity_failure_no_mutation_witness :
  updateItemQuantity "u" "A" 11 ex_db_one =
    (inl (BadRequestException "Only 10 items available in stock"), ex_db_one) /\
  updateItemQuantity "w" "A" 1 ex_db_one =
    (inl (NotFoundException "Cart not found"), ex_db_one).
Proof.
  split.
  - destruct (updateItemQuantity "u" "A" 11 ex_db_one) as [[e|r] db'] eqn:E;
      [|vm_compute in E; discriminate].
    destruct (updateItemQuantity_failure_no_mutation "u" "A" 11 ex_db_one e db' E)
      as [-> _].
    vm_compute in E. injection E as <-. reflexivity.
  - destruct (updateItemQuantity "w" "A" 1 ex_db_one) as [[e|r] db'] eqn:E;
      [|vm_compute in E; discriminate].
    destruct (updateItemQuantity_failure_no_mutation "w" "A" 1 ex_db_one e db' E)
      as [-> _].
    vm_compute in E. injection E as <-. reflexivity.
Defined.

(** X5. After [updateItemQuantity] returned for a quantity of at least 1,
    the cart's line of the product holds exactly that quantity, which does
    not exceed the stock, at the product's current price; products and
    orders are untouched. *)
Theorem updateItemQuantity_success userId productId quantity db r db' :
  1 <= quantity ->
  updateItemQuantity userId productId quantity db = (inr r, db') ->
  exists p line stored,
    products db !! productId = Some p /\ product_isActive p = true /\
    is_Some (heldLine db userId productId) /\
    heldLine db' userId productId = Some line /\
    cartItem_quantity line = quantity /\ quantity <= product_stock p /\
    cartItem_price line = product_price p /\
    carts db' !! userId = Some stored /\ r = populate (products db) stored /\
    products db' = products db /\ orders db' = orders db.
Proof.
  intros Hq. rewrite updateItemQuantity_eq. unfold heldLine at 1.
  rewrite bool_decide_eq_false_2 by lia.
  destruct (carts db !! userId) as [items|]; cbn [mbind option_bind]; [|done].
  destruct (list_find _ items) as [[i existing]|] eqn:Hfind; [|done].
  destruct (products db !! productId) as [p|] eqn:Hp; [|done].
  destruct (product_isActive p) eqn:Ha; cbn [negb]; [|done].
  case_bool_decide as Hstock; [done|].
  rewrite getCart_withCart. intros [= <- <-].
  eexists p, _, _. split; [done|]. split; [done|]. split; [by eexists|].
  rewrite heldLine_withCart. unfold shownItems.
  rewrite firstLine_filter.
  2:{ intros it <-. eapply lineShown_in_stock; [done..|lia]. }
  apply list_find_Some in Hfind as Hspec. destruct Hspec as (_ & Hpid & _).
  rewrite (firstLine_insert _ _ _ _ _ Hfind) by done.
  split; [done|]. cbn [setQuantity cartItem_quantity cartItem_price].
  split; [done|]. split; [lia|]. split; [done|].
  unfold withCart. cbn [carts products orders]. by rewrite lookup_insert_eq.
Qed.

Lemma updateItemQuantity_success_witness :
  heldQuantity (updateItemQuantity "u" "A" 7 ex_db_one).2 "u" "A" = 7.
Proof.
  destruct (updateItemQuantity "u" "A" 7 ex_db_one) as [[e|r] db'] eqn:E;
    [vm_compute in E; discriminate|].
  destruct (updateItemQuantity_success "u" "A" 7 ex_db_one r db' ltac:(lia) E)
    as (p & line & stored & _ & _ & _ & Hline & Hq & _).
  cbn [snd]. unfold heldQuantity. rewrite Hline. exact Hq.
Defined.

(** ** [getCart], [clearCart] and [getCartTotal] *)

Lemma lineShown_product ps it :
  lineShown ps it = true ->
  exists p, ps !! cartItem_productId it = Some p /\
            product_isActive p = true /\ 0 < product_stock p.
Proof.
  unfold lineShown, validLine. cbn [snd].
  destruct (ps !! cartItem_productId it) as [p|]; [|done].
  intros [Ha Hs]%andb_true_iff. apply bool_decide_eq_true in Hs.
  exists p. repeat split; [done|lia].
Qed.

(** X6. [getCart] never throws and touches neither products, orders nor
    another customer's cart.  What it returns is what it leaves stored:
    the customer's lines, unchanged and in order, whose product exists, is
    active and is in stock (none for a customer without a cart, for whom
    an empty cart is created).  A second call returns the same and
    changes nothing. *)
Theorem getCart_heals userId db :
  exists kept,
    getCart userId db = (inr (populate (products db) kept), withCart db userId kept) /\
    kept = List.filter (lineShown (products db)) (default [] (carts db !! userId)) /\
    Forall (fun it => exists p, products db !! cartItem_productId it = Some p /\
                                product_isActive p = true /\ 0 < product_stock p) kept /\
    (forall other, other <> userId ->
                   carts (withCart db userId kept) !! other = carts db !! other) /\
    getCart userId (withCart db userId kept) =
      (inr (populate (products db) kept), withCart db userId kept).
Proof.
  exists (shownItems (products db) (default [] (carts db !! userId))).
  split; [apply getCart_eq|]. split; [done|]. split; [|split].
  - eapply Forall_impl; [apply shownItems_all|]. intros it. apply lineShown_product.
  - intros other Hne. unfold withCart. cbn [carts]. by apply lookup_insert_ne.
  - by rewrite getCart_withCart, shownItems_idemp.
Qed.

(** X7. [clearCart] never throws and never creates a cart: an existing
    cart becomes empty, a missing one stays missing, products and orders
    are untouched.  A [createOrder] that follows it throws
    [BadRequestException] "Cart is empty" and changes nothing. *)
Theorem clearCart_then_createOrder userId dto now db :
  let db1 := (clearCart userId db).2 in
  (clearCart userId db).1 = inr "Cart cleared successfully" /\
  carts db1 !! userId = (fun _ => []) <$> carts db !! userId /\
  (forall other, other <> userId -> carts db1 !! other = carts db !! other) /\
  products db1 = products db /\ orders db1 = orders db /\
  createOrder userId dto now db1 = (inl (BadRequestException "Cart is empty"), db1).
Proof.
  intros db1. subst db1. rewrite clearCart_eq. cbn [fst snd].
  destruct (carts db !! userId) as [items|] eqn:Hc; cbn [fmap option_fmap option_map].
  - unfold withCart. cbn [carts products orders].
    rewrite lookup_insert_eq. repeat split; try done.
    + intros other Hne. by rewrite lookup_insert_ne.
    + rewrite createOrder_eq, prepareOrder_eq. cbn [carts].
      by rewrite lookup_insert_eq.
  - repeat split; try done.
    rewrite createOrder_eq, prepareOrder_eq. by rewrite Hc.
Qed.

Lemma cartTotalStep_foldl ps kept subtotal totalItems :
  Forall (fun it => lineShown ps it = true) kept ->
  foldl cartTotalStep (subtotal, totalItems) (populate ps kept) =
  ((subtotal + sumQc (map lineAmount kept))%Qc,
   totalItems + sumZ (map cartItem_quantity kept)).
Proof.
  intros Hall. revert subtotal totalItems.
  induction Hall as [|it rest Hit _ IH]; intros subtotal totalItems.
  - cbn. f_equal; [ring|lia].
  - cbn [populate map foldl]. fold (populate ps rest).
    apply lineShown_product in Hit as (p & Hp & _).
    unfold cartTotalStep at 2. cbn [fst snd]. rewrite Hp. rewrite IH.
    cbn [sumQc sumZ foldr]. fold (sumQc (map lineAmount rest)).
    fold (sumZ (map cartItem_quantity rest)). unfold lineAmount at 2.
    f_equal; [ring|lia].
Qed.

Lemma getCartTotal_eq userId db :
  getCartTotal userId db =
  let kept := shownItems (products db) (default [] (carts db !! userId)) in
  (inr (mkCartTotal (sumQc (map lineAmount kept))
                    (sumZ (map cartItem_quantity kept)) (length kept)),
   withCart db userId kept).
Proof.
  unfold getCartTotal, bind. rewrite getCart_eq. cbn beta iota zeta.
  rewrite cartTotalStep_foldl by apply shownItems_all.
  unfold ret, populate. rewrite length_map. do 3 f_equal. ring.
Qed.

(** X8. [getCartTotal] never throws.  Its [subtotal] is the sum of quantity
    times price snapshot, its [totalItems] the sum of the quantities and
    its [items] the number of the lines [getCart] keeps (no line is
    skipped by the loop); for a customer without a cart all three are
    zero.  It leaves the store as [getCart] does. *)
Theorem getCartTotal_sums userId db :
  exists total,
    getCartTotal userId db = (inr total, (getCart userId db).2) /\
    let kept := List.filter (lineShown (products db)) (default [] (carts db !! userId)) in
    cartTotal_subtotal total = sumQc (map lineAmount kept) /\
    cartTotal_totalItems total = sumZ (map cartItem_quantity kept) /\
    cartTotal_items total = length kept /\
    (carts db !! userId = None ->
     total = mkCartTotal 0%Qc 0 0).
Proof.
  rewrite getCartTotal_eq, getCart_eq. cbn zeta. eexists. split; [reflexivity|].
  cbn [cartTotal_subtotal cartTotal_totalItems cartTotal_items].
  repeat split. intros ->. reflexivity.
Qed.

Lemma mintedItems_totals ps items :
  existsb (lineInvalid ps) items = false ->
  map orderItem_total (mintedItems ps items) = map lineAmount items /\
  map orderItem_quantity (mintedItems ps items) = map cartItem_quantity items /\
  map orderItem_productId (mintedItems ps items) = map cartItem_productId items.
Proof.
  induction items as [|it rest IH]; cbn [existsb]; [done|].
  intros [Hit Hrest]%orb_false_iff. destruct (IH Hrest) as (IH1 & IH2 & IH3).
  unfold mintedItems in *. cbn [omap list_omap]. unfold lineInvalid in Hit.
  destruct (ps !! cartItem_productId it) as [p|]; [|done].
  cbn [fmap option_fmap option_map map orderItemOf orderItem_total
       orderItem_quantity orderItem_productId].
  by rewrite IH1, IH2, IH3.
Qed.

Lemma shownItems_valid ps items :
  existsb (lineInvalid ps) items = false ->
  Forall (fun it => 1 <= cartItem_quantity it) items ->
  shownItems ps items = items.
Proof.
  unfold shownItems. induction items as [|it rest IH]; cbn [existsb]; [done|].
  intros [Hit Hrest]%orb_false_iff Hq. apply Forall_cons in Hq as [Hq1 Hq].
  cbn [List.filter]. rewrite IH by done.
  unfold lineInvalid in Hit. unfold lineShown, validLine. cbn [snd].
  destruct (ps !! cartItem_productId it) as [p|]; [|done].
  apply orb_false_iff in Hit as [Ha Hs]. apply negb_false_iff in Ha.
  apply bool_decide_eq_false in Hs. rewrite Ha.
  rewrite bool_decide_eq_true_2 by lia. done.
Qed.

Lemma withCart_same db userId items :
  carts db !! userId = Some items -> withCart db userId items = db.
Proof. intros Hc. unfold withCart. rewrite insert_id by done. by destruct db. Qed.

(** X9. When [createOrder] succeeds on a cart whose quantities are all at
    least 1, the [getCartTotal] of the same store changes nothing and
    shows the subtotal the order is minted with, as many units and as many
    lines as the order holds. *)
Theorem cartTotal_is_order_subtotal userId dto now db items id o db1 :
  carts db !! userId = Some items ->
  Forall (fun it => 1 <= cartItem_quantity it) items ->
  createOrder userId dto now db = (inr (id, Some o), db1) ->
  exists total,
    getCartTotal userId db = (inr total, db) /\
    cartTotal_subtotal total = order_subtotal o /\
    cartTotal_totalItems total = sumZ (map orderItem_quantity (order_items o)) /\
    cartTotal_items total = length (order_items o).
Proof.
  intros Hc Hq Hcreate.
  apply createOrder_success in Hcreate as (items' & Hc' & _ & Hv & Hr & _).
  rewrite Hc in Hc'. injection Hc' as <-. injection Hr as _ ->.
  destruct (mintedItems_totals _ _ Hv) as (Ht & Hqs & _).
  rewrite getCartTotal_eq, Hc. cbn [default]. cbn zeta. unfold Datatypes.id.
  rewrite shownItems_valid by done. rewrite withCart_same by done.
  eexists. split; [reflexivity|].
  cbn [cartTotal_subtotal cartTotal_totalItems cartTotal_items orderDocument
       order_subtotal order_items].
  rewrite foldl_total_sumQc, Ht, Hqs. split; [ring|]. split; [done|].
  by rewrite <- (length_map orderItem_total), Ht, length_map.
Qed.

Lemma cartTotal_is_order_subtotal_witness :
  exists total,
    getCartTotal "u" ex_db_cart = (inr total, ex_db_cart) /\
    cartTotal_subtotal total = Qc_of_Z 250 /\ cartTotal_totalItems total = 3 /\
    cartTotal_items total = 2%nat.
Proof.
  destruct (createOrder "u" ex_dto ex_now ex_db_cart) as [[e|[id [o|]]] db1] eqn:E;
    [vm_compute in E; discriminate| |vm_compute in E; discriminate].
  destruct (cartTotal_is_order_subtotal "u" ex_dto ex_now ex_db_cart
              [mkCartItem "A" 2 (Qc_of_Z 100) None; mkCartItem "B" 1 (Qc_of_Z 50) None]
              id o db1 eq_refl) as (total & Hrun & Hs & Ht & Hn).
  - repeat constructor; cbn; lia.
  - exact E.
  - exists total. split; [exact Hrun|].
    assert (Ho : o = match (createOrder "u" ex_dto ex_now ex_db_cart).1 with
                     | inr (_, Some o') => o' | _ => o end) by (by rewrite E).
    rewrite Hs, Ht, Hn, Ho.
    split; [apply Qc_is_canon; vm_compute; reflexivity|].
    split; vm_compute; reflexivity.
Defined.

(** ** Invariants of the carts *)

Lemma sublist_List_filter {A} (f : A -> bool) (l : list A) :
  List.filter f l `sublist_of` l.
Proof.
  induction l as [|x l IH]; [constructor|]. cbn [List.filter].
  destruct (f x); by constructor.
Qed.

Lemma Forall_sublist_of {A} (P : A -> Prop) (l l' : list A) :
  l' `sublist_of` l -> Forall P l -> Forall P l'.
Proof.
  induction 1 as [|x l1 l2 _ IH|x l1 l2 _ IH]; intros Hall; [done|..].
  - apply Forall_cons in Hall as [? ?]. constructor; auto.
  - apply Forall_cons in Hall as [? ?]. auto.
Qed.

Section CartWrite.
Variable ps : gmap string Product.
Variables quantitiesArg distinctArg : Prop.

Lemma cartWrite_refl l : cartWrite ps quantitiesArg distinctArg l l.
Proof. by apply cartWrite_sub. Qed.

Lemma cartWrite_shown l l' :
  cartWrite ps quantitiesArg distinctArg l l' ->
  cartWrite ps quantitiesArg distinctArg l (shownItems ps l').
Proof.
  intros H. eapply cartWrite_trans; [exact H|].
  apply cartWrite_sub, sublist_List_filter.
Qed.

Lemma cartWrite_positive l l' :
  cartWrite ps quantitiesArg distinctArg l l' ->
  quantitiesArg -> quantitiesPositive l -> quantitiesPositive l'.
Proof.
  unfold quantitiesPositive.
  induction 1 as [l l' Hsub|l i ex q p Hi Hp Hs Hq|l pid q p d Hp Hs Hq Hd
                 |l1 l2 l3 _ IH1 _ IH2]; intros Hok Hall.
  - by eapply Forall_sublist_of.
  - apply Forall_insert; [done|]. cbn [setQuantity cartItem_quantity].
    apply Hq; [done|]. by eapply (Forall_lookup_1 _ _ _ _ Hall Hi).
  - apply Forall_app. split; [done|]. constructor; [|constructor]. by apply Hq.
  - auto.
Qed.

Lemma cartWrite_distinct l l' :
  cartWrite ps quantitiesArg distinctArg l l' ->
  distinctArg -> productsDistinct l -> productsDistinct l'.
Proof.
  unfold productsDistinct.
  induction 1 as [l l' Hsub|l i ex q p Hi Hp Hs Hq|l pid q p d Hp Hs Hq Hd
                 |l1 l2 l3 _ IH1 _ IH2]; intros Hok Hnd.
  - exact (sublist_NoDup _ _ Hnd (fmap_sublist cartItem_productId _ _ Hsub)).
  - change (map cartItem_productId) with (fmap (M:=list) cartItem_productId).
    rewrite list_fmap_insert. cbn [setQuantity cartItem_productId].
    rewrite list_insert_id; [done|]. by rewrite list_lookup_fmap, Hi.
  - rewrite map_app. cbn [map cartItem_productId]. apply NoDup_app.
    split; [done|]. split; [|apply NoDup_singleton].
    intros x Hx Hx'. apply list_elem_of_singleton in Hx' as ->.
    apply list_elem_of_In, in_map_iff in Hx as (it & Hpid & Hin).
    specialize (Hd Hok). rewrite Forall_forall in Hd.
    by apply (Hd it); [apply list_elem_of_In|].
  - auto.
Qed.

Lemma cartWrite_withinStock l l' :
  cartWrite ps quantitiesArg distinctArg l l' ->
  withinStock ps l -> withinStock ps l'.
Proof.
  unfold withinStock.
  induction 1 as [l l' Hsub|l i ex q p Hi Hp Hs Hq|l pid q p d Hp Hs Hq Hd
                 |l1 l2 l3 _ IH1 _ IH2]; intros Hall.
  - by eapply Forall_sublist_of.
  - apply Forall_insert; [done|]. cbn [setQuantity cartItem_quantity cartItem_productId].
    intros p' Hp'. rewrite Hp in Hp'. by injection Hp' as <-.
  - apply Forall_app. split; [done|]. constructor; [|constructor].
    cbn [cartItem_quantity cartItem_productId].
    intros p' Hp'. rewrite Hp in Hp'. by injection Hp' as <-.
  - auto.
Qed.

End CartWrite.

Section GuestLoops.
Variable ps : gmap string Product.
Variables quantitiesArg distinctArg : Prop.
Variable now : Date.

Lemma mergeGuestItem_cartWrite l g :
  (quantitiesArg -> 1 <= guest_quantity g) ->
  cartWrite ps quantitiesArg distinctArg l (mergeGuestItem ps now l g).
Proof.
  intros Hg. unfold mergeGuestItem.
  destruct (ps !! guest_productId g) as [p|] eqn:Hp; [|apply cartWrite_refl].
  destruct (negb (product_isActive p)); cbn [orb]; [apply cartWrite_refl|].
  case_bool_decide as Hstock; [apply cartWrite_refl|].
  destruct (list_find _ l) as [[i existing]|] eqn:Hfind.
  - apply list_find_Some in Hfind as (Hi & Hpid & _).
    apply (cartWrite_set ps _ _ l i existing
             (Z.min (cartItem_quantity existing + guest_quantity g) (product_stock p)) p);
      [done|by rewrite Hpid|lia|].
    intros Hok Hex. specialize (Hg Hok). lia.
  - apply list_find_None in Hfind. apply cartWrite_add; [done|lia| |done].
    intros Hok. specialize (Hg Hok). lia.
Qed.

Lemma mergeLoop_cartWrite guest l :
  (quantitiesArg -> Forall (fun g => 1 <= guest_quantity g) guest) ->
  cartWrite ps quantitiesArg distinctArg l (foldl (mergeGuestItem ps now) l guest).
Proof.
  revert l. induction guest as [|g rest IH]; intros l Hq; [apply cartWrite_refl|].
  cbn [foldl]. eapply cartWrite_trans.
  - apply mergeGuestItem_cartWrite. intros Hok. by apply Forall_cons in Hq as [? _].
  - apply IH. intros Hok. by apply Forall_cons in Hq as [_ ?].
Qed.

Lemma validateLoop_cartWrite guest acc :
  (quantitiesArg -> Forall (fun g => 1 <= guest_quantity g) guest) ->
  (distinctArg ->
   NoDup (map guest_productId guest) /\
   Forall (fun g => Forall (fun it => cartItem_productId it <> guest_productId g) acc)
          guest) ->
  cartWrite ps quantitiesArg distinctArg acc (foldl (validateCartItem ps now) acc guest).
Proof.
  revert acc. induction guest as [|g rest IH]; intros acc Hq Hd;
    [apply cartWrite_refl|].
  cbn [foldl].
  assert (Hrest : quantitiesArg -> Forall (fun g => 1 <= guest_quantity g) rest).
  { intros Hok. by apply Forall_cons in Hq as [_ ?]. }
  unfold validateCartItem at 2.
  destruct (ps !! guest_productId g) as [p|] eqn:Hp.
  2:{ apply IH; [done|]. intros Hok. destruct (Hd Hok) as [Hnd Hacc].
      apply NoDup_cons in Hnd as [_ ?]. by apply Forall_cons in Hacc as [_ ?]. }
  destruct (product_isActive p && bool_decide (product_stock p > 0)) eqn:Hvalid.
  2:{ apply IH; [done|]. intros Hok. destruct (Hd Hok) as [Hnd Hacc].
      apply NoDup_cons in Hnd as [_ ?]. by apply Forall_cons in Hacc as [_ ?]. }
  apply andb_true_iff in Hvalid as [_ Hs]. apply bool_decide_eq_true in Hs.
  apply cartWrite_trans
    with (l2 := acc ++ [mkCartItem (guest_productId g)
                          (Z.min (guest_quantity g) (product_stock p))
                          (product_price p) (Some now)]).
  - apply cartWrite_add; [done|lia| |].
    + intros Hok. apply Forall_cons in Hq as [? _]; [lia|done].
    + intros Hok. destruct (Hd Hok) as [_ Hacc]. by apply Forall_cons in Hacc as [? _].
  - apply IH; [done|]. intros Hok. destruct (Hd Hok) as [Hnd Hacc].
    change (map guest_productId (g :: rest))
      with (guest_productId g :: map guest_productId rest) in Hnd.
    apply NoDup_cons in Hnd as [Hg Hnd]. apply Forall_cons in Hacc as [_ Hacc].
    split; [done|]. apply Forall_forall. intros g' Hg'.
    apply Forall_app. split.
    + rewrite Forall_forall in Hacc. by apply Hacc.
    + constructor; [|constructor]. cbn [cartItem_productId]. intros Heq.
      apply Hg. rewrite Heq. apply list_elem_of_In, in_map, list_elem_of_In, Hg'.
Qed.

End GuestLoops.

(** Every call leaves the carts as they were or replaces one customer's
    cart by lines obtained from it through the edits of [cartWrite]. *)
Lemma exec_cartWrite op db :
  carts (exec op db) = carts db \/
  exists userId l1,
    cartWrite (products db) (quantitiesOk op) (guestsDistinct op)
      (default [] (carts db !! userId)) l1 /\
    carts (exec op db) = <[userId := l1]> (carts db).
Proof.
  destruct op as [userId dto now|orderId vendorId status note now
                 |orderId userId reason now|userId|userId productId quantity now
                 |userId productId quantity|userId productId|userId
                 |userId guest now];
    cbn [exec quantitiesOk guestsDistinct].
  - destruct (createOrder userId dto now db) as [[e|r] db'] eqn:E; cbn [snd].
    + apply createOrder_error in E as [-> _]. by left.
    + apply createOrder_success in E as (items & Hc & _ & _ & _ & ->).
      cbn [carts]. right. exists userId, []. rewrite Hc. cbn [default].
      split; [apply cartWrite_sub, sublist_nil_l|].
      by apply alter_const_insert with (x := items).
  - left. rewrite updateOrderStatus_eq.
    destruct (orders db !! orderId) as [o|]; [|done].
    by destruct (hasVendorProduct vendorId o).
  - left. rewrite cancelOrder_eq.
    destruct (orders db !! orderId) as [o|]; [|done].
    destruct (negb _); [done|]. by destruct (cancellable _).
  - right. rewrite getCart_eq. cbn zeta. eexists userId, _.
    split; [apply cartWrite_shown, cartWrite_refl|done].
  - rewrite addItem_eq.
    destruct (products db !! productId) as [p|] eqn:Hp; [|by left].
    destruct (negb (product_isActive p)); [by left|].
    case_bool_decide as Hstock; [by left|].
    destruct (carts db !! userId) as [items|] eqn:Hc.
    + destruct (list_find _ items) as [[i existing]|] eqn:Hfind.
      * case_bool_decide as Hsum; [by left|].
        right. rewrite getCart_withCart. eexists userId, _. rewrite Hc.
        split; [|done]. apply cartWrite_shown.
        apply list_find_Some in Hfind as (Hi & Hpid & _).
        apply cartWrite_set; [done|by rewrite Hpid|lia|]. intros; lia.
      * right. rewrite getCart_withCart. eexists userId, _. rewrite Hc.
        split; [|done]. apply cartWrite_shown.
        apply list_find_None in Hfind. apply cartWrite_add; [done|lia|done|done].
    + right. rewrite getCart_withCart. eexists userId, _. rewrite Hc.
      split; [|done]. apply cartWrite_shown.
      apply (cartWrite_add _ _ _ [] productId quantity p None); [done|lia|done|done].
  - rewrite updateItemQuantity_eq. case_bool_decide as Hq.
    + rewrite removeItem_eq.
      destruct (carts db !! userId) as [items|] eqn:Hc; [|by left].
      right. rewrite getCart_withCart. eexists userId, _. rewrite Hc.
      split; [|done]. apply cartWrite_shown, cartWrite_sub, sublist_filter.
    + destruct (carts db !! userId) as [items|] eqn:Hc; [|by left].
      destruct (list_find _ items) as [[i existing]|] eqn:Hfind; [|by left].
      destruct (products db !! productId) as [p|] eqn:Hp; [|by left].
      destruct (negb (product_isActive p)); [by left|].
      case_bool_decide as Hstock; [by left|].
      right. rewrite getCart_withCart. eexists userId, _. rewrite Hc.
      split; [|done]. apply cartWrite_shown.
      apply list_find_Some in Hfind as (Hi & Hpid & _).
      apply cartWrite_set; [done|by rewrite Hpid|lia|]. intros; lia.
  - rewrite removeItem_eq.
    destruct (carts db !! userId) as [items|] eqn:Hc; [|by left].
    right. rewrite getCart_withCart. eexists userId, _. rewrite Hc.
    split; [|done]. apply cartWrite_shown, cartWrite_sub, sublist_filter.
  - rewrite clearCart_eq. cbn [snd].
    destruct (carts db !! userId) as [items|] eqn:Hc; [|by left].
    right. exists userId, []. rewrite Hc. split; [|done].
    apply cartWrite_sub, sublist_nil_l.
  - right. rewrite syncCart_eq.
    change (mkDb (<[userId := ?x]> (carts db)) (products db) (orders db))
      with (withCart db userId x).
    rewrite getCart_withCart. eexists userId, _. split; [|done].
    apply cartWrite_shown.
    destruct (carts db !! userId) as [items|]; cbn [default].
    + by apply mergeLoop_cartWrite.
    + apply validateLoop_cartWrite; [done|]. intros Hnd. split; [done|].
      apply Forall_forall. by intros.
Qed.

Lemma default_cart_Forall (P : list CartItem -> Prop) (cs : gmap string (list CartItem)) u :
  P [] -> map_Forall (fun _ l => P l) cs -> P (default [] (cs !! u)).
Proof.
  intros Hnil Hall. destruct (cs !! u) as [l|] eqn:Hl; [|done].
  by apply (Hall u l).
Qed.

Lemma exec_cartsTidy op db :
  quantitiesOk op -> guestsDistinct op -> cartsTidy db -> cartsTidy (exec op db).
Proof.
  intros Hq Hd Htidy. unfold cartsTidy in *.
  destruct (exec_cartWrite op db) as [->|(userId & l1 & Hw & ->)]; [done|].
  apply map_Forall_insert_2; [|done].
  pose proof (default_cart_Forall
                (fun l => productsDistinct l /\ quantitiesPositive l)
                (carts db) userId) as [Hdist Hpos]; [|done|].
  { split; [apply NoDup_nil_2|constructor]. }
  split.
  - by eapply cartWrite_distinct.
  - by eapply cartWrite_positive.
Qed.

(** X10. If every cart names each product once in quantities of at least
    1, this stays so after any sequence of service calls whose requested
    quantities are at least 1 and whose guest carts name each product
    once. *)
Theorem run_cartsTidy ops db :
  Forall quantitiesOk ops -> Forall guestsDistinct ops ->
  cartsTidy db -> cartsTidy (run ops db).
Proof.
  revert db. induction ops as [|op ops IH]; intros db Hq Hd Htidy; [done|].
  apply Forall_cons in Hq as [Hq1 Hq]. apply Forall_cons in Hd as [Hd1 Hd].
  rewrite run_cons. apply IH; [done..|]. by apply exec_cartsTidy.
Qed.

Lemma run_cartsTidy_witness :
  cartsTidy
    (run [AddItem "u" "A" 2 ex_now;
          SyncCart "u" [mkGuestItem "B" 3; mkGuestItem "A" 1] ex_now;
          SyncCart "w" [mkGuestItem "B" 9] ex_now;
          UpdateItemQuantity "u" "B" 1] ex_db_one).
Proof.
  apply run_cartsTidy.
  - repeat constructor; cbn; lia.
  - repeat (apply Forall_cons; split); try apply Forall_nil;
      cbn [guestsDistinct]; try exact I;
      apply (bool_decide_unpack _); vm_compute; exact I.
  - apply map_Forall_singleton. split.
    + apply NoDup_singleton.
    + repeat constructor. cbn. lia.
Defined.

Lemma exec_cartOp_products op db :
  isCartOp op = true -> products (exec op db) = products db.
Proof.
  destruct op as [userId dto now|orderId vendorId status note now
                 |orderId userId reason now|userId|userId productId quantity now
                 |userId productId quantity|userId productId|userId
                 |userId guest now];
    cbn [isCartOp exec]; intros Hop; try discriminate.
  - apply cartOnly_getCart.
  - apply cartOnly_addItem.
  - apply cartOnly_updateItemQuantity.
  - apply cartOnly_removeItem.
  - apply cartOnly_clearCart.
  - apply cartOnly_syncCart.
Qed.

Lemma exec_cartsWithinStock op db :
  isCartOp op = true -> cartsWithinStock db -> cartsWithinStock (exec op db).
Proof.
  intros Hop Hin. unfold cartsWithinStock in *.
  rewrite exec_cartOp_products by done.
  destruct (exec_cartWrite op db) as [->|(userId & l1 & Hw & ->)]; [done|].
  apply map_Forall_insert_2; [|done].
  eapply cartWrite_withinStock; [exact Hw|].
  by apply (default_cart_Forall (withinStock (products db))); [constructor|].
Qed.

(** X11. The calls of the cart service change no product, and if no cart
    line asks for more than the stock of its product, this stays so after
    any sequence of them, whatever quantities they are passed. *)
Theorem run_cartsWithinStock ops db :
  Forall (fun op => isCartOp op = true) ops ->
  cartsWithinStock db ->
  products (run ops db) = products db /\ cartsWithinStock (run ops db).
Proof.
  revert db. induction ops as [|op ops IH]; intros db Hops Hin; [done|].
  apply Forall_cons in Hops as [Hop Hops]. rewrite run_cons.
  destruct (IH (exec op db)) as [Hps Hws]; [done|by apply exec_cartsWithinStock|].
  split; [|done]. by rewrite Hps, exec_cartOp_products.
Qed.

Lemma run_cartsWithinStock_witness :
  cartsWithinStock
    (run [AddItem "u" "A" 9 ex_now;
          SyncCart "u" [mkGuestItem "B" 30; mkGuestItem "A" 0] ex_now;
          UpdateItemQuantity "u" "B" 5] ex_db_one).
Proof.
  apply run_cartsWithinStock.
  - repeat constructor.
  - apply map_Forall_singleton. repeat constructor.
    cbn [cartItem_productId cartItem_quantity]. intros p Hp.
    vm_compute in Hp. injection Hp as <-. cbn. lia.
Defined.

(** ** Stock after [createOrder] *)

Lemma sumFor_absent f productId items :
  productId ∉ map orderItem_productId items -> sumFor f productId items = 0.
Proof.
  induction items as [|item rest IH]; [done|]. cbn [map sumFor foldr].
  intros Hnot. apply not_elem_of_cons in Hnot as [Hne Hrest].
  rewrite decide_False by congruence. by apply IH.
Qed.

Lemma orderedQuantity_distinct ps items productId :
  existsb (lineInvalid ps) items = false ->
  productsDistinct items ->
  orderedQuantity productId (mintedItems ps items) =
  from_option cartItem_quantity 0 (firstLine productId items).
Proof.
  unfold productsDistinct, orderedQuantity.
  induction items as [|it rest IH]; cbn [existsb map]; [done|].
  intros [Hit Hrest]%orb_false_iff [Hnotin Hnd]%NoDup_cons.
  rewrite firstLine_cons. unfold mintedItems in *. cbn [omap list_omap].
  unfold lineInvalid in Hit.
  destruct (ps !! cartItem_productId it) as [p|]; [|done].
  cbn [fmap option_fmap option_map sumFor foldr orderItemOf orderItem_productId
       orderItem_quantity].
  fold (sumFor orderItem_quantity productId
          (omap (fun it0 => orderItemOf it0 <$> ps !! cartItem_productId it0) rest)).
  destruct (decide (cartItem_productId it = productId)) as [Hpid|Hpid].
  - cbn [from_option]. rewrite sumFor_absent; [lia|].
    destruct (mintedItems_totals ps rest Hrest) as (_ & _ & Hpids).
    unfold mintedItems in Hpids. rewrite Hpids. by rewrite <- Hpid.
  - by apply IH.
Qed.

Lemma lineValid_stock ps items it :
  existsb (lineInvalid ps) items = false -> it ∈ items ->
  exists p, ps !! cartItem_productId it = Some p /\ product_isActive p = true /\
            cartItem_quantity it <= product_stock p.
Proof.
  intros Hv Hin. destruct (existsb_exists (lineInvalid ps) items) as [_ Hex].
  destruct (lineInvalid ps it) eqn:Hit.
  { rewrite Hex in Hv; [done|]. exists it. split; [by apply list_elem_of_In|done]. }
  unfold lineInvalid in Hit.
  destruct (ps !! cartItem_productId it) as [p|]; [|done].
  apply orb_false_iff in Hit as [Ha Hs]. apply negb_false_iff in Ha.
  apply bool_decide_eq_false in Hs. exists p. repeat split; [done|lia].
Qed.

Lemma firstLine_elem_of productId items line :
  firstLine productId items = Some line ->
  line ∈ items /\ cartItem_productId line = productId.
Proof.
  unfold firstLine. destruct (list_find _ items) as [[i x]|] eqn:Hfind; [|done].
  intros [= <-]. apply list_find_Some in Hfind as (Hi & Hpid & _).
  split; [by eapply list_elem_of_lookup_2|done].
Qed.

(** X12. When [createOrder] succeeds on a cart that names each product
    once, the stock of every product falls by exactly the quantity the
    cart held of it, which was not above the stock: a stock that was not
    negative is not negative afterwards. *)
Theorem createOrder_no_oversell userId dto now db items r db1 :
  carts db !! userId = Some items ->
  productsDistinct items ->
  createOrder userId dto now db = (inr r, db1) ->
  forall productId p,
    products db !! productId = Some p ->
    let held := heldQuantity db userId productId in
    products db1 !! productId = Some (incProduct (- held) held p) /\
    (is_Some (heldLine db userId productId) -> held <= product_stock p) /\
    (0 <= product_stock p -> 0 <= product_stock (incProduct (- held) held p)).
Proof.
  intros Hc Hnd Hcreate productId p Hp held.
  apply createOrder_success in Hcreate as (items' & Hc' & _ & Hv & _ & ->).
  rewrite Hc in Hc'. injection Hc' as <-. cbn [products].
  rewrite applyIncs_lookup, sumFor_opp, Hp. cbn [fmap option_fmap option_map].
  fold (orderedQuantity productId (mintedItems (products db) items)).
  rewrite orderedQuantity_distinct by done.
  subst held. unfold heldQuantity, heldLine. rewrite Hc. cbn [mbind option_bind].
  fold (firstLine productId items). split; [done|].
  assert (Hheld : is_Some (firstLine productId items) ->
                  from_option cartItem_quantity 0 (firstLine productId items)
                  <= product_stock p).
  { intros [line Hline]. rewrite Hline. cbn [from_option].
    apply firstLine_elem_of in Hline as [Hin Hpid].
    destruct (lineValid_stock _ _ _ Hv Hin) as (p' & Hp' & _ & Hq).
    rewrite Hpid, Hp in Hp'. by injection Hp' as <-. }
  split; [done|]. intros Hs. cbn [incProduct product_stock].
  destruct (firstLine productId items) as [line|] eqn:Hline; cbn [from_option] in *.
  - specialize (Hheld ltac:(by eexists)). lia.
  - lia.
Qed.

Lemma createOrder_no_oversell_witness :
  product_stock <$> products (createOrder "u" ex_dto ex_now ex_db_cart).2 !! "A" = Some 8.
Proof.
  destruct (createOrder "u" ex_dto ex_now ex_db_cart) as [[e|r] db1] eqn:E;
    [vm_compute in E; discriminate|].
  destruct (createOrder_no_oversell "u" ex_dto ex_now ex_db_cart
              [mkCartItem "A" 2 (Qc_of_Z 100) None; mkCartItem "B" 1 (Qc_of_Z 50) None]
              r db1 eq_refl) with (productId := "A") (p := ex_product "A" "X" 100 10)
    as (Hafter & _).
  - unfold productsDistinct. apply (bool_decide_unpack _). vm_compute. exact I.
  - exact E.
  - reflexivity.
  - cbn [snd]. rewrite Hafter. vm_compute. reflexivity.
Defined.




(** * Further properties of the order service *)

Lemma exec_ordersWrite op db : ordersWrite (orders db) (orders (exec op db)).
Proof.
  destruct op as [userId dto now|orderId vendorId status note now
                 |orderId userId reason now|userId|userId productId quantity now
                 |userId productId quantity|userId productId|userId
                 |userId guest now];
    cbn [exec].
  - destruct (createOrder userId dto now db) as [[e|r] db'] eqn:E; cbn [snd].
    + apply createOrder_error in E as [-> _]. constructor.
    + apply createOrder_success in E as (items & _ & _ & _ & _ & ->). cbn [orders].
      constructor.
  - rewrite updateOrderStatus_eq.
    destruct (orders db !! orderId) as [o|] eqn:Ho; [|constructor].
    destruct (hasVendorProduct vendorId o); [|constructor].
    cbn [snd orders]. by constructor.
  - rewrite cancelOrder_eq.
    destruct (orders db !! orderId) as [o|] eqn:Ho; [|constructor].
    destruct (negb _); [constructor|].
    destruct (cancellable _) eqn:Hs; [|constructor].
    cbn [snd orders]. by constructor.
  - destruct (cartOnly_getCart userId db) as [_ ->]. constructor.
  - destruct (cartOnly_addItem userId productId quantity now db) as [_ ->]. constructor.
  - destruct (cartOnly_updateItemQuantity userId productId quantity db) as [_ ->].
    constructor.
  - destruct (cartOnly_removeItem userId productId db) as [_ ->]. constructor.
  - destruct (cartOnly_clearCart userId db) as [_ ->]. constructor.
  - destruct (cartOnly_syncCart userId guest now db) as [_ ->]. constructor.
Qed.

Lemma withStatus_self o :
  o = withStatus o (order_status o) (order_statusHistory o) (order_deliveredAt o).
Proof. by destruct o. Qed.

Lemma ordersWrite_frozen os os' id o :
  ordersWrite os os' -> os !! id = Some o ->
  (length os <= length os')%nat /\
  exists o', os' !! id = Some o' /\
    o' = withStatus o (order_status o') (order_statusHistory o') (order_deliveredAt o') /\
    (is_Some (order_deliveredAt o) -> is_Some (order_deliveredAt o')).
Proof.
  intros [|userId dto now ois st|id' o1 status note now Ho1
         |id' o1 reason now Ho1 Hs] Ho.
  - split; [done|]. exists o. split; [done|]. split; [apply withStatus_self|done].
  - rewrite length_app. split; [lia|]. exists o.
    rewrite lookup_app_l by (by eapply lookup_lt_Some).
    split; [done|]. split; [apply withStatus_self|done].
  - rewrite length_insert. split; [done|].
    destruct (decide (id' = id)) as [->|Hne].
    + rewrite Ho in Ho1. injection Ho1 as <-.
      exists (advanced o status note now).
      rewrite list_lookup_insert_eq by (by eapply lookup_lt_Some).
      split; [done|]. split; [done|].
      cbn [advanced setStatus order_deliveredAt]. by case_decide.
    + exists o. rewrite list_lookup_insert_ne by done.
      split; [done|]. split; [apply withStatus_self|done].
  - rewrite length_insert. split; [done|].
    destruct (decide (id' = id)) as [->|Hne].
    + rewrite Ho in Ho1. injection Ho1 as <-.
      exists (cancelled o reason now).
      rewrite list_lookup_insert_eq by (by eapply lookup_lt_Some).
      done.
    + exists o. rewrite list_lookup_insert_ne by done.
      split; [done|]. split; [apply withStatus_self|done].
Qed.

Lemma withStatus_withStatus o s h d s' h' d' :
  withStatus (withStatus o s h d) s' h' d' = withStatus o s' h' d'.
Proof. reflexivity. Qed.

(** X14. Whatever sequence of service calls runs, no order is removed and
    an order already stored keeps its place and every field but [status],
    [statusHistory] and [deliveredAt]: its number, customer, lines, amounts,
    currency, payment fields, addresses and notes are those it was minted
    with.  A delivery date, once set, is never removed. *)
Theorem run_orders_frozen ops db id o :
  orders db !! id = Some o ->
  (length (orders db) <= length (orders (run ops db)))%nat /\
  exists o', orders (run ops db) !! id = Some o' /\
    o' = withStatus o (order_status o') (order_statusHistory o') (order_deliveredAt o') /\
    (is_Some (order_deliveredAt o) -> is_Some (order_deliveredAt o')).
Proof.
  revert db o. induction ops as [|op ops IH]; intros db o Ho.
  - split; [done|]. exists o. split; [done|]. split; [apply withStatus_self|done].
  - rewrite run_cons.
    destruct (ordersWrite_frozen _ _ id o (exec_ordersWrite op db) Ho)
      as (Hlen1 & o1 & Ho1 & Heq1 & Hd1).
    destruct (IH _ _ Ho1) as (Hlen & o' & Ho' & Heq & Hd).
    split; [lia|]. exists o'. split; [done|]. split; [|auto].
    rewrite Heq at 1. rewrite Heq1. apply withStatus_withStatus.
Qed.

Lemma run_orders_frozen_witness :
  exists o',
    orders (run [UpdateOrderStatus 0 "X" DELIVERED None ex_now;
                 UpdateOrderStatus 0 "Y" PENDING (Some "again") ex_now;
                 CreateOrder "u" ex_dto ex_now] ex_db_order) !! 0%nat = Some o' /\
    order_total o' = Qc_of_Z 162 /\ order_items o' = order_items (ex_order PENDING [PENDING]) /\
    is_Some (order_deliveredAt o') /\ order_status o' = PENDING.
Proof.
  destruct (run_orders_frozen
              [UpdateOrderStatus 0 "X" DELIVERED None ex_now;
               UpdateOrderStatus 0 "Y" PENDING (Some "again") ex_now;
               CreateOrder "u" ex_dto ex_now] ex_db_order 0%nat
              (ex_order PENDING [PENDING]) eq_refl) as (_ & o' & Ho' & Heq & _).
  exists o'. split; [exact Ho'|].
  split; [by rewrite Heq|]. split; [by rewrite Heq|].
  vm_compute in Ho'. injection Ho' as <-. split; [by eexists|reflexivity].
Defined.

Lemma ordersWrite_deliveredStamped os os' :
  ordersWrite os os' -> Forall deliveredStamped os -> Forall deliveredStamped os'.
Proof.
  intros [|userId dto now ois st|id o status note now Ho|id o reason now Ho Hs] Hall.
  - done.
  - apply Forall_app. split; [done|]. constructor; [|constructor]. by intros ?.
  - apply Forall_insert; [done|]. unfold deliveredStamped.
    cbn [advanced setStatus order_status order_deliveredAt].
    intros ->. by rewrite decide_True.
  - apply Forall_insert; [done|]. by intros ?.
Qed.

(** X15. If every stored order in status [DELIVERED] carries a delivery
    date, this stays so after any sequence of service calls: an order
    reaches [DELIVERED] only through [updateOrderStatus], which stamps
    it. *)
Theorem run_deliveredStamped ops db :
  Forall deliveredStamped (orders db) ->
  Forall deliveredStamped (orders (run ops db)).
Proof.
  revert db. induction ops as [|op ops IH]; intros db Hall; [done|].
  rewrite run_cons. apply IH.
  eapply ordersWrite_deliveredStamped; [apply exec_ordersWrite|done].
Qed.

Lemma run_deliveredStamped_witness :
  Forall deliveredStamped
    (orders (run [UpdateOrderStatus 0 "X" SHIPPED None ex_now;
                  UpdateOrderStatus 0 "X" DELIVERED None ex_now] ex_db_order)).
Proof.
  apply run_deliveredStamped. repeat constructor. intros Hs. discriminate Hs.
Defined.

(** ** Failures of the order methods *)

Lemma String_length_app (s1 s2 : string) :
  String.length (s1 +:+ s2) = (String.length s1 + String.length s2)%nat.
Proof.
  induction s1 as [|c s1 IH]; [done|].
  change (S (String.length (s1 +:+ s2)) = S (String.length s1 + String.length s2)).
  by rewrite IH.
Qed.

(** The printed form of a document is never its bare identifier. *)
Lemma Document_toString_not_id (id : string) : Document_toString id <> id.
Proof.
  intros Heq. apply (f_equal String.length) in Heq. unfold Document_toString in Heq.
  rewrite !String_length_app in Heq. cbn [String.length] in Heq. lia.
Qed.

Lemma getOrder_eq orderId userId role db :
  getOrder orderId userId role db =
  match orders db !! orderId with
  | None => (inl (NotFoundException "Order not found"), db)
  | Some o =>
    if bool_decide (role = "customer")
       && negb (bool_decide (Document_toString (order_customerId o) = userId))
    then (inl (ForbiddenException "Access denied"), db)
    else if bool_decide (role = "vendor") && negb (hasVendorProduct userId o)
    then (inl (ForbiddenException "Access denied"), db)
    else (inr o, db)
  end.
Proof.
  unfold getOrder, bind, orderFindById.
  destruct (orders db !! orderId) as [o|]; [|done].
  destruct (bool_decide (role = "customer") && _); [done|].
  by destruct (bool_decide (role = "vendor") && _).
Qed.

(** X16. [updateOrderStatus], [cancelOrder] and [getOrder] leave the store
    as it was whenever they throw, and [getOrder] always does; on an
    identifier that names no order all three throw [NotFoundException],
    whoever calls. *)
Theorem order_calls_failure_no_mutation orderId db :
  (forall vendorId status note now e db',
     updateOrderStatus orderId vendorId status note now db = (inl e, db') -> db' = db) /\
  (forall userId reason now e db',
     cancelOrder orderId userId reason now db = (inl e, db') -> db' = db) /\
  (forall userId role, (getOrder orderId userId role db).2 = db) /\
  (orders db !! orderId = None ->
   (forall vendorId status note now,
      updateOrderStatus orderId vendorId status note now db =
        (inl (NotFoundException "Order not found"), db)) /\
   (forall userId reason now,
      cancelOrder orderId userId reason now db =
        (inl (NotFoundException "Order not found"), db)) /\
   (forall userId role,
      getOrder orderId userId role db =
        (inl (NotFoundException "Order not found"), db))).
Proof.
  split; [|split; [|split]].
  - intros vendorId status note now e db'. rewrite updateOrderStatus_eq.
    destruct (orders db !! orderId) as [o|]; [|by intros [= _ <-]].
    destruct (hasVendorProduct vendorId o); [done|by intros [= _ <-]].
  - intros userId reason now e db'. rewrite cancelOrder_eq.
    destruct (orders db !! orderId) as [o|]; [|by intros [= _ <-]].
    destruct (negb _); [by intros [= _ <-]|].
    destruct (cancellable _); [done|by intros [= _ <-]].
  - intros userId role. rewrite getOrder_eq.
    destruct (orders db !! orderId) as [o|]; [|done].
    destruct (bool_decide (role = "customer") && _); [done|].
    by destruct (bool_decide (role = "vendor") && _).
  - intros Ho. split; [|split].
    + intros. by rewrite updateOrderStatus_eq, Ho.
    + intros. by rewrite cancelOrder_eq, Ho.
    + intros. by rewrite getOrder_eq, Ho.
Qed.

(** X17. [getOrder] returns an order only if it is stored under the
    identifier.  In role "customer" the check compares the printed customer
    document with the caller's identifier: an order is returned only when
    the two are equal, which they never are for the customer who placed it,
    so the owner of an order is refused it with [ForbiddenException].  In
    role "vendor" exactly the orders holding a line of the caller are
    returned.  For any other role no ownership check is applied: every
    stored order is returned. *)
Theorem getOrder_access orderId userId role db :
  (forall o db',
     getOrder orderId userId role db = (inr o, db') ->
     orders db !! orderId = Some o /\
     (role = "customer" ->
      Document_toString (order_customerId o) = userId /\
      order_customerId o <> userId) /\
     (role = "vendor" ->
      exists item, item ∈ order_items o /\ orderItem_vendorId item = userId)) /\
  (forall o,
     orders db !! orderId = Some o ->
     role = "customer" -> order_customerId o = userId ->
     getOrder orderId userId role db =
       (inl (ForbiddenException "Access denied"), db)) /\
  (forall o,
     orders db !! orderId = Some o ->
     role = "vendor" -> hasVendorProduct userId o = true ->
     getOrder orderId userId role db = (inr o, db)) /\
  (forall o,
     orders db !! orderId = Some o ->
     role <> "customer" -> role <> "vendor" ->
     getOrder orderId userId role db = (inr o, db)).
Proof.
  split; [|split; [|split]].
  - intros o db'. rewrite getOrder_eq.
    destruct (orders db !! orderId) as [o1|]; [|done].
    destruct (decide (role = "customer")) as [->|Hc].
    + rewrite (bool_decide_eq_true_2 ("customer" = "customer")) by done. cbn [andb].
      destruct (decide (Document_toString (order_customerId o1) = userId))
        as [Hown|Hown].
      * rewrite (bool_decide_eq_true_2 _ Hown). cbn [negb].
        rewrite (bool_decide_eq_false_2 ("customer" = "vendor")) by done. cbn [andb].
        intros [= <- _]. split; [done|]. split; [|done]. intros _.
        split; [exact Hown|]. intros Hsame. rewrite Hsame in Hown.
        by apply Document_toString_not_id in Hown.
      * by rewrite (bool_decide_eq_false_2 _ Hown).
    + rewrite (bool_decide_eq_false_2 _ Hc). cbn [andb].
      destruct (decide (role = "vendor")) as [->|Hv].
      * rewrite (bool_decide_eq_true_2 ("vendor" = "vendor")) by done. cbn [andb].
        destruct (hasVendorProduct userId o1) eqn:Hhas; cbn [negb]; [|done].
        intros [= <- _]. split; [done|]. split; [done|]. intros _.
        apply hasVendorProduct_spec, Exists_exists in Hhas.
        destruct Hhas as (item & Hin & Hitem). by exists item.
      * rewrite (bool_decide_eq_false_2 _ Hv). cbn [andb].
        intros [= <- _]. done.
  - intros o Ho -> Hown. rewrite getOrder_eq, Ho.
    rewrite (bool_decide_eq_true_2 ("customer" = "customer")) by done.
    rewrite bool_decide_eq_false_2; [done|].
    rewrite Hown. apply Document_toString_not_id.
  - intros o Ho -> Hhas. rewrite getOrder_eq, Ho, Hhas.
    by rewrite (bool_decide_eq_false_2 ("vendor" = "customer")).
  - intros o Ho Hc Hv. rewrite getOrder_eq, Ho.
    rewrite (bool_decide_eq_false_2 _ Hc), (bool_decide_eq_false_2 _ Hv). done.
Qed.

Lemma getOrder_access_witness :
  getOrder 0 "u" "customer" ex_db_order =
    (inl (ForbiddenException "Access denied"), ex_db_order) /\
  getOrder 0 "X" "vendor" ex_db_order = (inr (ex_order PENDING [PENDING]), ex_db_order) /\
  getOrder 0 "w" "admin" ex_db_order = (inr (ex_order PENDING [PENDING]), ex_db_order).
Proof.
  split; [|split].
  - destruct (getOrder_access 0 "u" "customer" ex_db_order) as (_ & Hown & _).
    apply (Hown (ex_order PENDING [PENDING])); reflexivity.
  - destruct (getOrder_access 0 "X" "vendor" ex_db_order) as (_ & _ & Hvendor & _).
    apply (Hvendor (ex_order PENDING [PENDING])); reflexivity.
  - destruct (getOrder_access 0 "w" "admin" ex_db_order) as (_ & _ & _ & Hother).
    apply (Hother (ex_order PENDING [PENDING])); [reflexivity|done|done].
Defined.

(** X18. After [cancelOrder] returned, the stored order is [CANCELLED], and
    cancelling it again throws [BadRequestException] and changes nothing:
    stock is released once per cancellation and a cancelled order cannot
    be cancelled. *)
Theorem cancelOrder_once orderId userId reason now db r db1 :
  cancelOrder orderId userId reason now db = (inr r, db1) ->
  orders db1 !! orderId = Some r /\ order_status r = CANCELLED /\
  forall reason' now',
    cancelOrder orderId userId reason' now' db1 =
      (inl (BadRequestException "Order cannot be cancelled at this stage"), db1).
Proof.
  rewrite cancelOrder_eq.
  destruct (orders db !! orderId) as [o|] eqn:Ho; [|done].
  case_bool_decide as Hown; cbn [negb]; [|done].
  destruct (cancellable (order_status o)); [|done].
  intros [= <- <-]. cbn [orders].
  assert (Hr : <[orderId := cancelled o reason now]> (orders db) !! orderId
               = Some (cancelled o reason now)).
  { apply list_lookup_insert_eq. by eapply lookup_lt_Some. }
  split; [done|]. split; [done|].
  intros reason' now'. rewrite cancelOrder_eq. cbn [orders]. rewrite Hr.
  cbn [cancelled setStatus order_customerId order_status].
  by rewrite bool_decide_eq_true_2.
Qed.

Lemma cancelOrder_once_witness :
  let db1 := (cancelOrder 0 "u" None ex_now ex_db_order).2 in
  cancelOrder 0 "u" (Some "twice") ex_now db1 =
    (inl (BadRequestException "Order cannot be cancelled at this stage"), db1).
Proof.
  intros db1. subst db1.
  destruct (cancelOrder 0 "u" None ex_now ex_db_order) as [[e|r] db1] eqn:E;
    [vm_compute in E; discriminate|].
  destruct (cancelOrder_once 0 "u" None ex_now ex_db_order r db1 E) as (_ & _ & Hagain).
  apply Hagain.
Defined.

(** ** Listings *)

Lemma pageCount_covers total limit :
  (total <= pageCount total limit * Pos.to_nat limit)%nat.
Proof.
  unfold pageCount. pose proof (Pos2Nat.is_pos limit) as Hpos.
  set (n := Pos.to_nat limit) in *.
  pose proof (Nat.div_mod (total + n - 1) n) as Hdiv.
  pose proof (Nat.mod_upper_bound (total + n - 1) n) as Hmod.
  specialize (Hdiv ltac:(lia)). specialize (Hmod ltac:(lia)). nia.
Qed.

Lemma pageCount_tight total limit :
  (0 < total -> (pageCount total limit - 1) * Pos.to_nat limit < total)%nat.
Proof.
  unfold pageCount. pose proof (Pos2Nat.is_pos limit) as Hpos.
  set (n := Pos.to_nat limit) in *. intros Htotal.
  pose proof (Nat.div_mod (total + n - 1) n) as Hdiv.
  pose proof (Nat.mod_upper_bound (total + n - 1) n) as Hmod.
  specialize (Hdiv ltac:(lia)). specialize (Hmod ltac:(lia)). nia.
Qed.

Lemma chunks_concat {A} (l : list A) (n count : nat) :
  (0 < n)%nat -> (length l <= count * n)%nat ->
  concat (map (fun k => take n (drop (k * n) l)) (seq 0 count)) = l.
Proof.
  intros Hn. revert l. induction count as [|count IH]; intros l Hlen.
  - destruct l; [done|]. cbn in Hlen. lia.
  - cbn [seq map concat]. rewrite <- seq_shift, map_map.
    cbn [Nat.mul Nat.add drop].
    assert (Hrest := IH (drop n l) ltac:(rewrite length_drop; lia)).
    etrans; [|apply (take_drop n l)]. f_equal.
    etrans; [|exact Hrest]. f_equal. apply map_ext. intros k.
    rewrite drop_drop. f_equal; lia.
Qed.

Lemma allPages_concat sorted limit : concat (allPages sorted limit) = sorted.
Proof.
  unfold allPages, paginate.
  rewrite <- (chunks_concat sorted (Pos.to_nat limit)
                (pageCount (length sorted) limit)) at 2;
    [|apply Pos2Nat.is_pos|apply pageCount_covers].
  f_equal. apply map_ext. intros k. rewrite Nat2Pos.id by done.
  by replace (S k - 1)%nat with k by lia.
Qed.

Lemma List_filter_elem_of {A} (f : A -> bool) (l : list A) x :
  x ∈ List.filter f l <-> x ∈ l /\ f x = true.
Proof. rewrite !list_elem_of_In. apply filter_In. Qed.

Lemma paginate_sublist sorted page limit :
  paginate sorted page limit `sublist_of` sorted.
Proof.
  unfold paginate. etrans; [apply sublist_take|apply sublist_drop].
Qed.

Lemma paginate_length sorted page limit :
  (length (paginate sorted page limit) <= Pos.to_nat limit)%nat.
Proof. unfold paginate. rewrite length_take. lia. Qed.

Lemma paginate_beyond sorted page limit :
  (pageCount (length sorted) limit < Pos.to_nat page)%nat ->
  paginate sorted page limit = [].
Proof.
  intros Hpage. unfold paginate. rewrite drop_ge; [by rewrite take_nil|].
  pose proof (pageCount_covers (length sorted) limit). nia.
Qed.

Section Listings.
Variable sortByCreatedAtDesc : list Order -> list Order.
Hypothesis sorted_rearranges : forall l, sortByCreatedAtDesc l ≡ₚ l.

Lemma listPage_elem_of found page limit o :
  o ∈ page_orders (listPage sortByCreatedAtDesc found page limit) -> o ∈ found.
Proof.
  cbn [listPage page_orders]. intros Hin.
  eapply elem_of_sublist in Hin; [|apply paginate_sublist].
  by rewrite sorted_rearranges in Hin.
Qed.

(** X19. [getCustomerOrders] never throws and changes nothing.  Every order
    on the page is a stored order of the customer, in the requested status
    when one is given; the page holds at most [limit] orders; [total] is
    the number of matching orders, [pages] is the least number of pages of
    [limit] orders that hold them all, and a page beyond [pages] is
    empty.  Page and limit default to 1 and 10. *)
Theorem getCustomerOrders_page userId page limit status db :
  let found := List.filter (customerFilter userId status) (orders db) in
  let size := Pos.to_nat (default 10%positive limit) in
  exists listed,
    getCustomerOrders sortByCreatedAtDesc userId page limit status db = (inr listed, db) /\
    (forall o, o ∈ page_orders listed ->
               o ∈ orders db /\ order_customerId o = userId /\
               forall s, status = Some s -> order_status o = s) /\
    (length (page_orders listed) <= size)%nat /\
    pagination_total (page_pagination listed) = length found /\
    (length found <= pagination_pages (page_pagination listed) * size)%nat /\
    (0 < length found ->
     (pagination_pages (page_pagination listed) - 1) * size < length found)%nat /\
    (pagination_pages (page_pagination listed)
       < Pos.to_nat (default 1%positive page) ->
     page_orders listed = [])%nat.
Proof.
  intros found size. eexists. split; [reflexivity|].
  fold found. split; [|split; [|split; [|split; [|split]]]].
  - intros o Hin. apply listPage_elem_of in Hin.
    apply List_filter_elem_of in Hin as [Hin Hf].
    unfold customerFilter in Hf. apply andb_true_iff in Hf as [Hc Hs].
    apply bool_decide_eq_true in Hc. split; [done|]. split; [done|].
    intros s ->. by apply bool_decide_eq_true in Hs.
  - apply paginate_length.
  - reflexivity.
  - apply pageCount_covers.
  - apply pageCount_tight.
  - cbn [listPage page_orders page_pagination pagination_pages]. intros Hpage.
    apply paginate_beyond.
    by rewrite (Permutation_length (sorted_rearranges _)).
Qed.

(** X20. Read page after page with the same limit, from page 1 to the
    last, the listing of [getCustomerOrders] holds every matching order
    exactly once: the pages together are a rearrangement of the stored
    orders of the customer in the requested status. *)
Theorem getCustomerOrders_complete userId limit status db :
  let found := List.filter (customerFilter userId status) (orders db) in
  concat
    (map (fun k =>
            match (getCustomerOrders sortByCreatedAtDesc userId
                     (Some (Pos.of_nat (S k))) (Some limit) status db).1 with
            | inr listed => page_orders listed
            | inl _ => []
            end)
         (seq 0 (pageCount (length found) limit)))
  ≡ₚ found.
Proof.
  intros found.
  etrans; [|apply (sorted_rearranges found)].
  rewrite <- (allPages_concat (sortByCreatedAtDesc found) limit).
  unfold allPages.
  rewrite (Permutation_length (sorted_rearranges found)).
  reflexivity.
Qed.

Lemma vendorView_items vendorId o :
  order_items (vendorView vendorId o) = ownItems vendorId o.
Proof. reflexivity. Qed.

(** X21. [getVendorOrders] never throws and changes nothing.  Every order
    on the page is a stored order holding a line of the vendor, shown with
    the vendor's own lines only (at least one) and otherwise as stored,
    the order's full amounts included; the page holds at most [limit]
    orders and [total] counts the matching orders. *)
Theorem getVendorOrders_view vendorId page limit status db :
  exists listed,
    getVendorOrders sortByCreatedAtDesc vendorId page limit status db = (inr listed, db) /\
    (forall shown, shown ∈ page_orders listed ->
       exists o, o ∈ orders db /\
         shown = withItems o (ownItems vendorId o) /\
         ownItems vendorId o <> [] /\
         Forall (fun item => orderItem_vendorId item = vendorId) (order_items shown) /\
         forall s, status = Some s -> order_status shown = s) /\
    (length (page_orders listed) <= Pos.to_nat (default 10%positive limit))%nat /\
    pagination_total (page_pagination listed) =
      length (List.filter (vendorFilter vendorId status) (orders db)).
Proof.
  eexists. split; [reflexivity|]. cbn [page_orders page_pagination].
  split; [|split].
  - intros shown Hin. apply list_elem_of_fmap in Hin as (o & -> & Hin).
    apply listPage_elem_of in Hin.
    apply List_filter_elem_of in Hin as [Hin Hf].
    unfold vendorFilter in Hf. apply andb_true_iff in Hf as [Hv Hs].
    exists o. split; [done|]. split; [done|]. split; [|split].
    + apply hasVendorProduct_spec, Exists_exists in Hv as (item & Hitem & Hown).
      intros Hnil. assert (Hin' : item ∈ ownItems vendorId o).
      { unfold ownItems. apply list_elem_of_filter. done. }
      rewrite Hnil in Hin'. by apply not_elem_of_nil in Hin'.
    + rewrite vendorView_items. unfold ownItems. apply Forall_forall.
      intros item Hitem. by apply list_elem_of_filter in Hitem as [? _].
    + intros s ->. by apply bool_decide_eq_true in Hs.
  - rewrite length_map. apply paginate_length.
  - reflexivity.
Qed.

(** X22. [OrdersController.getOrders] lists for a caller in role "vendor"
    only lines owned by the caller, and for a caller in any other role only
    stored orders whose customer is the caller. *)
Theorem getOrders_scope userId role page limit status db :
  exists listed,
    getOrders sortByCreatedAtDesc userId role page limit status db = (inr listed, db) /\
    (role = "vendor" ->
     forall shown item, shown ∈ page_orders listed -> item ∈ order_items shown ->
                        orderItem_vendorId item = userId) /\
    (role <> "vendor" ->
     forall o, o ∈ page_orders listed -> o ∈ orders db /\ order_customerId o = userId).
Proof.
  unfold getOrders. destruct (decide (role = "vendor")) as [->|Hrole].
  - rewrite bool_decide_eq_true_2 by done.
    destruct (getVendorOrders_view userId page limit status db)
      as (listed & Hrun & Hview & _).
    exists listed. split; [done|]. split; [|done].
    intros _ shown item Hshown Hitem.
    destruct (Hview shown Hshown) as (o & _ & _ & _ & Hall & _).
    rewrite Forall_forall in Hall. by apply Hall.
  - rewrite bool_decide_eq_false_2 by done.
    destruct (getCustomerOrders_page userId page limit status db)
      as (listed & Hrun & Hown & _).
    exists listed. split; [done|]. split; [done|].
    intros _ o Ho. destruct (Hown o Ho) as (? & ? & _). done.
Qed.

End Listings.

Lemma getCustomerOrders_page_witness :
  exists listed,
    getCustomerOrders reverse "u" (Some 2%positive) (Some 1%positive) None ex_db_three
      = (inr listed, ex_db_three) /\
    page_orders listed = [ex_order PENDING [PENDING]] /\
    pagination_total (page_pagination listed) = 2%nat /\
    pagination_pages (page_pagination listed) = 2%nat.
Proof.
  destruct (getCustomerOrders_page reverse reverse_Permutation "u"
              (Some 2%positive) (Some 1%positive) None ex_db_three)
    as (listed & Hrun & _).
  exists listed. split; [exact Hrun|].
  injection Hrun as <-. repeat split.
Defined.

Lemma getCustomerOrders_complete_witness :
  concat
    (map (fun k =>
            match (getCustomerOrders reverse "u" (Some (Pos.of_nat (S k)))
                     (Some 1%positive) None ex_db_three).1 with
            | inr listed => page_orders listed
            | inl _ => []
            end)
         (seq 0 2))
  ≡ₚ [ex_order PENDING [PENDING];
      withStatus (ex_order PENDING [PENDING]) PENDING [] None].
Proof.
  exact (getCustomerOrders_complete reverse reverse_Permutation "u" 1%positive None
           ex_db_three).
Defined.

Lemma getVendorOrders_view_witness :
  exists listed,
    getVendorOrders reverse "Y" None None None ex_db_three = (inr listed, ex_db_three) /\
    map order_items (page_orders listed) =
      [[ex_item "B" "Y" 1 50]; [ex_item "B" "Y" 1 50]] /\
    map order_total (page_orders listed) = [Qc_of_Z 162; Qc_of_Z 162].
Proof.
  destruct (getVendorOrders_view reverse reverse_Permutation "Y" None None None
              ex_db_three) as (listed & Hrun & _).
  exists listed. split; [exact Hrun|].
  injection Hrun as <-. split; reflexivity.
Defined.

Lemma getOrders_scope_witness :
  exists listed,
    getOrders reverse "v" "customer" None None None ex_db_three
      = (inr listed, ex_db_three) /\
    map order_orderNumber (page_orders listed) = ["ORD20261102000003"].
Proof.
  destruct (getOrders_scope reverse reverse_Permutation "v" "customer" None None None
              ex_db_three) as (listed & Hrun & _).
  exists listed. split; [exact Hrun|].
  injection Hrun as <-. reflexivity.
Defined.

Lemma List_filter_stdpp {A} (f : A -> bool) (l : list A) :
  List.filter f l = filter (fun x => f x = true) l.
Proof.
  induction l as [|x l IH]; [done|]. cbn [List.filter].
  destruct (f x) eqn:Hx.
  - rewrite filter_cons_True by done. by rewrite IH.
  - rewrite filter_cons_False by congruence. done.
Qed.

(** The revenue the loop of [getVendorOrderStats] accumulates, order by
    order as the query returns them. *)
Lemma statsStep_revenue vendorId os acc :
  (foldl (statsStep vendorId) acc os).1.1.1.1 =
  foldl (fun revenue o => (revenue + vendorRevenue vendorId o)%Qc) acc.1.1.1.1 os.
Proof.
  revert acc. induction os as [|o rest IH]; intros acc; [done|].
  cbn [foldl]. rewrite IH. f_equal.
  destruct acc as [[[[revenue pend] proc] ship] deliv]. unfold statsStep.
  by destruct (order_status o).
Qed.

Lemma statsOf_totalRevenue vendorId db :
  totalRevenue (statsOf vendorId db) =
  foldl (fun revenue o => (revenue + vendorRevenue vendorId o)%Qc) 0%Qc
    (findVendorOrders vendorId (orders db)).
Proof.
  rewrite <- (statsStep_revenue vendorId _ (0%Qc, 0%nat, 0%nat, 0%nat, 0%nat)).
  unfold statsOf, getVendorOrderStats, bind, gets.
  by destruct (foldl _ _ _) as [[[[revenue pend] proc] ship] deliv].
Qed.

Lemma vendorFilter_unfiltered vendorId os :
  List.filter (vendorFilter vendorId None) os = findVendorOrders vendorId os.
Proof.
  unfold findVendorOrders. rewrite List_filter_stdpp.
  apply list_filter_iff. intros o. unfold vendorFilter. cbn [matchesStatus].
  by rewrite andb_true_r.
Qed.

Section ListingStats.
Variable sortByCreatedAtDesc : list Order -> list Order.
Hypothesis sorted_rearranges : forall l, sortByCreatedAtDesc l ≡ₚ l.

(** X23. Read page after page, from page 1 to the last of [totalOrders]
    orders, the unfiltered listing of [getVendorOrders] shows exactly the
    orders [getVendorOrderStats] reads, each once and reduced to the
    vendor's lines: as many orders as [totalOrders] counts, and the line
    totals shown for each order add up, line by line, to the very terms the
    statistics accumulate into [totalRevenue], up to the order of the
    listing. *)
Theorem vendor_listing_matches_stats vendorId limit db :
  let counted := findVendorOrders vendorId (orders db) in
  let stats := statsOf vendorId db in
  let shown :=
    concat
      (map (fun k =>
              match (getVendorOrders sortByCreatedAtDesc vendorId
                       (Some (Pos.of_nat (S k))) (Some limit) None db).1 with
              | inr listed => page_orders listed
              | inl _ => []
              end)
           (seq 0 (pageCount (totalOrders stats) limit))) in
  shown ≡ₚ map (vendorView vendorId) counted /\
  length shown = totalOrders stats /\
  totalRevenue stats =
    foldl (fun revenue o => (revenue + vendorRevenue vendorId o)%Qc) 0%Qc counted /\
  map (fun o => foldl (fun sum item => (sum + orderItem_total item)%Qc) 0%Qc
                  (order_items o)) shown
    ≡ₚ map (vendorRevenue vendorId) counted.
Proof.
  intros counted stats shown.
  assert (Htotal : totalOrders stats = length counted).
  { subst stats. by rewrite statsOf_eq. }
  assert (Hshown : shown = map (vendorView vendorId) (sortByCreatedAtDesc counted)).
  { subst shown. rewrite Htotal.
    rewrite <- (allPages_concat (sortByCreatedAtDesc counted) limit).
    rewrite concat_map. unfold allPages. rewrite map_map.
    rewrite (Permutation_length (sorted_rearranges counted)).
    f_equal. apply map_ext. intros k.
    unfold getVendorOrders, bind, gets, ret. cbn [fst page_orders].
    by rewrite vendorFilter_unfiltered. }
  assert (Hperm : shown ≡ₚ map (vendorView vendorId) counted).
  { rewrite Hshown. apply Permutation_map, sorted_rearranges. }
  split; [exact Hperm|]. split; [|split].
  - by rewrite (Permutation_length Hperm), length_map.
  - apply statsOf_totalRevenue.
  - etrans; [apply Permutation_map, Hperm|]. by rewrite map_map.
Qed.

End ListingStats.

Lemma vendor_listing_matches_stats_witness :
  let shown :=
    concat
      (map (fun k =>
              match (getVendorOrders reverse "X" (Some (Pos.of_nat (S k)))
                       (Some 2%positive) None ex_db_three).1 with
              | inr listed => page_orders listed
              | inl _ => []
              end)
           (seq 0 (pageCount (totalOrders (statsOf "X" ex_db_three)) 2))) in
  shown ≡ₚ map (vendorView "X") (findVendorOrders "X" (orders ex_db_three)) /\
  length shown = 3%nat.
Proof.
  intros shown.
  destruct (vendor_listing_matches_stats reverse reverse_Permutation "X" 2%positive
              ex_db_three) as (Hperm & Hlen & _).
  split; [exact Hperm|]. subst shown. rewrite Hlen. vm_compute. reflexivity.
Defined.

(** ** More on [createOrder] *)

(** X24. After [createOrder] returned, the order collection has grown by
    exactly the returned document, stored under the returned identifier:
    an order of the caller in status [PENDING] with payment status pending,
    currency "CFA", the one history entry "Order placed", and the shipping
    address as billing address when none was given.  The caller's cart is
    empty and no other cart has changed; submitting again at once throws
    "Cart is empty" and changes nothing. *)
Theorem createOrder_commits userId dto now db id o db1 :
  createOrder userId dto now db = (inr (id, o), db1) ->
  exists doc,
    o = Some doc /\ id = length (orders db) /\
    orders db1 = orders db ++ [doc] /\ orders db1 !! id = Some doc /\
    order_customerId doc = userId /\ order_status doc = PENDING /\
    order_paymentStatus doc = PAYMENT_PENDING /\ order_currency doc = "CFA" /\
    order_statusHistory doc = [mkStatusEntry PENDING now "Order placed"] /\
    order_deliveredAt doc = None /\
    order_billingAddress doc =
      default (dto_shippingAddress dto) (dto_billingAddress dto) /\
    carts db1 !! userId = Some [] /\
    (forall other, other <> userId -> carts db1 !! other = carts db !! other) /\
    forall dto' now',
      createOrder userId dto' now' db1 =
        (inl (BadRequestException "Cart is empty"), db1).
Proof.
  intros Hcreate.
  apply createOrder_success in Hcreate as (items & Hc & _ & _ & Hr & ->).
  injection Hr as -> ->. eexists. split; [reflexivity|]. split; [done|].
  cbn [orders carts]. split; [done|].
  split; [rewrite lookup_app_r by done; by rewrite Nat.sub_diag|].
  do 7 (split; [reflexivity|]).
  assert (Hcart : alter (fun _ : list CartItem => []) userId (carts db) !! userId
                  = Some []).
  { by rewrite lookup_alter_eq, Hc. }
  split; [done|]. split.
  - intros other Hne. by rewrite lookup_alter_ne.
  - intros dto' now'. rewrite createOrder_eq, prepareOrder_eq. cbn [carts].
    by rewrite Hcart.
Qed.

Lemma createOrder_commits_witness :
  let db1 := (createOrder "u" ex_dto ex_now ex_db_cart).2 in
  length (orders db1) = 1%nat /\
  createOrder "u" ex_dto ex_now db1 =
    (inl (BadRequestException "Cart is empty"), db1).
Proof.
  intros db1. subst db1.
  destruct (createOrder "u" ex_dto ex_now ex_db_cart) as [[e|[id o]] db1] eqn:E;
    [vm_compute in E; discriminate|].
  destruct (createOrder_commits "u" ex_dto ex_now ex_db_cart id o db1 E)
    as (doc & _ & _ & Horders & _ & _ & _ & _ & _ & _ & _ & _ & _ & _ & Hagain).
  cbn [snd]. split; [by rewrite Horders|apply Hagain].
Defined.

(** ** Order numbers of sequential calls *)

Lemma pretty_N_go_first x s :
  (0 < x)%N ->
  exists c rest, pretty_N_go x s = String c rest /\ String c "" <> "0".
Proof.
  revert s. induction (N.lt_wf_0 x) as [x _ IH]. intros s Hx.
  rewrite pretty_N_go_step by done.
  destruct (decide (x < 10)%N) as [Hsmall|Hbig].
  - rewrite N.div_small by done. rewrite pretty_N_go_0, N.mod_small by done.
    eexists _, _. split; [reflexivity|].
    assert (x = 1 \/ x = 2 \/ x = 3 \/ x = 4 \/ x = 5 \/ x = 6
            \/ x = 7 \/ x = 8 \/ x = 9)%N as Hcases by lia.
    destruct Hcases as [->|[->|[->|[->|[->|[->|[->|[->| ->]]]]]]]]; done.
  - apply IH.
    + apply N.div_lt; lia.
    + apply N.div_str_pos. lia.
Qed.

Lemma pretty_succ_first (count : nat) :
  exists c rest, pretty (count + 1)%nat = String c rest /\ String c "" <> "0".
Proof.
  unfold pretty, pretty_nat, pretty, pretty_N.
  rewrite decide_False by lia. apply pretty_N_go_first. lia.
Qed.

Lemma zeros_S k :
  String.concat "" (replicate (S k) "0") = "0" +:+ String.concat "" (replicate k "0").
Proof. destruct k; reflexivity. Qed.

Lemma zeros_app_inj ka kb a b ca ra cb rb :
  a = String ca ra -> String ca "" <> "0" ->
  b = String cb rb -> String cb "" <> "0" ->
  String.concat "" (replicate ka "0") +:+ a = String.concat "" (replicate kb "0") +:+ b ->
  a = b.
Proof.
  intros -> Ha -> Hb. revert kb. induction ka as [|ka IH]; intros [|kb].
  - done.
  - rewrite zeros_S. cbn. intros [= -> _]. done.
  - rewrite zeros_S. cbn. intros [= <- _]. done.
  - rewrite !zeros_S. cbn. intros [= Heq]. by apply (IH kb).
Qed.

Lemma padStart_succ_inj n c1 c2 :
  padStart (pretty (c1 + 1)%nat) n = padStart (pretty (c2 + 1)%nat) n -> c1 = c2.
Proof.
  unfold padStart. intros Heq.
  destruct (pretty_succ_first c1) as (ca & ra & Ha & Hca).
  destruct (pretty_succ_first c2) as (cb & rb & Hb & Hcb).
  assert (Hp : pretty (c1 + 1)%nat = pretty (c2 + 1)%nat).
  { eapply zeros_app_inj; [exact Ha|exact Hca|exact Hb|exact Hcb|exact Heq]. }
  apply (inj pretty) in Hp. lia.
Qed.

Lemma orderNumberOf_injective date date' c1 c2 :
  getFullYear date = getFullYear date' ->
  getMonth date = getMonth date' ->
  getDate date = getDate date' ->
  orderNumberOf date c1 = orderNumberOf date' c2 -> c1 = c2.
Proof.
  unfold orderNumberOf. intros -> -> -> Heq. cbn zeta in Heq.
  do 4 apply (inj (String.app _)) in Heq. by apply padStart_succ_inj in Heq.
Qed.

(** X25. Called one after the other on the same date, [createOrder] never
    gives two orders the same number: whatever service calls run between
    two successful calls, the second reads a larger count. *)
Theorem sequential_order_numbers_differ
    userA dtoA now db idA a db1 ops userB dtoB now' idB b db2 :
  createOrder userA dtoA now db = (inr (idA, Some a), db1) ->
  createOrder userB dtoB now' (run ops db1) = (inr (idB, Some b), db2) ->
  getFullYear now = getFullYear now' ->
  getMonth now = getMonth now' ->
  getDate now = getDate now' ->
  idA <> idB /\ order_orderNumber a <> order_orderNumber b.
Proof.
  intros HA HB Hy Hm Hd.
  apply createOrder_success in HA as (itemsA & _ & _ & _ & HrA & Hdb1).
  apply createOrder_success in HB as (itemsB & _ & _ & _ & HrB & _).
  injection HrA as -> ->. injection HrB as -> ->.
  assert (Hlen : (length (orders db) < length (orders (run ops db1)))%nat).
  { assert (Ho : orders db1 !! length (orders db) = Some
                   (orderDocument userA dtoA now (mintedItems (products db) itemsA)
                      (foldl (fun sum item => (sum + orderItem_total item)%Qc) 0%Qc
                         (mintedItems (products db) itemsA))
                      (orderNumberOf now (length (orders db))))).
    { rewrite Hdb1. cbn [orders]. rewrite lookup_app_r by done.
      by rewrite Nat.sub_diag. }
    destruct (run_keeps ops db1 _ _ Ho) as (o' & Ho' & _).
    by apply lookup_lt_Some in Ho'. }
  split; [lia|]. cbn [orderDocument order_orderNumber]. intros Heq.
  apply orderNumberOf_injective in Heq; [lia|done..].
Qed.

Lemma sequential_order_numbers_differ_witness :
  match createOrder "u" ex_dto ex_now ex_db_two with
  | (inr (_, Some a), db1) =>
    match createOrder "v" ex_dto ex_now db1 with
    | (inr (_, Some b), _) =>
        order_orderNumber a = "ORD20261102000001" /\
        order_orderNumber b = "ORD20261102000002" /\
        order_orderNumber a <> order_orderNumber b
    | _ => False
    end
  | _ => False
  end.
Proof.
  destruct (createOrder "u" ex_dto ex_now ex_db_two) as [[e|[idA [a|]]] db1] eqn:HA;
    [vm_compute in HA; discriminate| |vm_compute in HA; discriminate].
  assert (Hsecond : (createOrder "v" ex_dto ex_now
                       (createOrder "u" ex_dto ex_now ex_db_two).2).1
                    = (createOrder "v" ex_dto ex_now db1).1) by (by rewrite HA).
  assert (Ha : order_orderNumber a = "ORD20261102000001").
  { assert (H : (createOrder "u" ex_dto ex_now ex_db_two).1 = inr (idA, Some a))
      by (by rewrite HA).
    vm_compute in H. by injection H as _ <-. }
  destruct (createOrder "v" ex_dto ex_now db1) as [[e|[idB [b|]]] db2] eqn:HB;
    [vm_compute in Hsecond; discriminate| |vm_compute in Hsecond; discriminate].
  assert (Hb : order_orderNumber b = "ORD20261102000002").
  { vm_compute in Hsecond. by injection Hsecond as _ <-. }
  split; [exact Ha|]. split; [exact Hb|].
  apply (sequential_order_numbers_differ "u" ex_dto ex_now ex_db_two idA a db1 []
           "v" ex_dto ex_now idB b db2 HA HB); reflexivity.
Defined.

(** ** Cancelling an order that was reopened *)

Lemma applyIncs_twice ds dt items ps productId :
  applyIncs ds dt items (applyIncs ds dt items ps) !! productId =
  incProduct (sumFor ds productId items + sumFor ds productId items)
             (sumFor dt productId items + sumFor dt productId items)
    <$> ps !! productId.
Proof.
  rewrite !applyIncs_lookup. destruct (ps !! productId) as [p|]; [|done].
  cbn [fmap option_fmap option_map]. by rewrite incProduct_incProduct.
Qed.

(** X26. The release of stock at cancellation is tied to the order's status
    alone.  When a vendor owning a line sets a cancelled order back to
    [PENDING] and the customer cancels it again, the stock of every
    product is raised a second time: after the two cancellations it
    stands above the stock before them by twice the ordered quantity, and
    the sales counter below by as much. *)
Theorem cancel_reopen_cancel_releases_twice
    orderId userId vendorId o db reason1 now1 note now2 reason2 now3 :
  orders db !! orderId = Some o ->
  order_customerId o = userId ->
  cancellable (order_status o) = true ->
  hasVendorProduct vendorId o = true ->
  let db1 := (cancelOrder orderId userId reason1 now1 db).2 in
  let db2 := (updateOrderStatus orderId vendorId PENDING note now2 db1).2 in
  exists r db3,
    cancelOrder orderId userId reason2 now3 db2 = (inr r, db3) /\
    forall productId,
      products db3 !! productId =
        incProduct (2 * orderedQuantity productId (order_items o))
                   (- (2 * orderedQuantity productId (order_items o)))
          <$> products db !! productId.
Proof.
  intros Ho Hown Hs Hv db1 db2. subst db1 db2.
  rewrite (cancelOrder_eq orderId userId reason1 now1 db), Ho.
  rewrite bool_decide_eq_true_2 by done. cbn [negb]. rewrite Hs. cbn [snd].
  rewrite updateOrderStatus_eq. cbn [orders].
  rewrite list_lookup_insert_eq by (by eapply lookup_lt_Some).
  change (hasVendorProduct vendorId (cancelled o reason1 now1))
    with (hasVendorProduct vendorId o). rewrite Hv. cbn [snd].
  rewrite cancelOrder_eq. cbn [orders]. rewrite list_insert_insert_eq.
  rewrite list_lookup_insert_eq by (by eapply lookup_lt_Some).
  cbn [advanced cancelled setStatus order_customerId order_status order_items].
  rewrite bool_decide_eq_true_2 by done. cbn [negb cancellable bool_decide orb].
  eexists _, _. split; [reflexivity|]. intros productId. cbn [products].
  rewrite applyIncs_twice, sumFor_opp. unfold orderedQuantity.
  destruct (products db !! productId) as [p|]; [|done].
  cbn [fmap option_fmap option_map]. f_equal. f_equal; lia.
Qed.

Lemma cancel_reopen_cancel_releases_twice_witness :
  exists r db3,
    cancelOrder 0 "u" None ex_now
      (updateOrderStatus 0 "X" PENDING None ex_now
         (cancelOrder 0 "u" None ex_now ex_db_order).2).2 = (inr r, db3) /\
    product_stock <$> products db3 !! "A" = Some 12.
Proof.
  destruct (cancel_reopen_cancel_releases_twice 0 "u" "X" (ex_order PENDING [PENDING])
              ex_db_order None ex_now None ex_now None ex_now)
    as (r & db3 & Hrun & Hafter); [reflexivity..|].
  exists r, db3. split; [exact Hrun|]. rewrite Hafter. vm_compute. reflexivity.
Defined.

(** ** Syncing an empty guest cart *)

(** X27. [syncCart] with no guest items is [getCart]: the same answer and
    the same store, whether or not the customer has a cart. *)
Theorem syncCart_nothing userId now db :
  syncCart userId [] now db = getCart userId db.
Proof.
  rewrite syncCart_eq.
  change (mkDb (<[userId := ?x]> (carts db)) (products db) (orders db))
    with (withCart db userId x).
  rewrite getCart_withCart, getCart_eq. cbn [foldl].
  by destruct (carts db !! userId).
Qed.
